(** * Itinerary day-shift engine: date utilities and the remove-day handler

    A shallow embedding of [utils/dateUtils.ts] ([addDays], [getDaysArray]),
    of the handlers [handleUpdateTripDates] and [handleRemoveDay] of
    [App.tsx], and of [handleExtendTrip] and [handleRemoveClick] of
    [components/TripItinerary.tsx]; then of the day list the itinerary
    component renders, of the activity handlers [handleAddActivity],
    [handleDeleteActivity] and [handleToggleActivity] of [App.tsx], and of
    the itinerary pages of [services/pdfService.ts].

    The JavaScript built-ins the utilities call ([String.prototype.split],
    [parseInt], [Number], [Date.UTC], [setUTCDate], [toISOString]) are
    embedded after ECMA-262, section "Date Objects" and "Number Objects". *)

From Stdlib Require Import ZArith List String Ascii Bool Lia Permutation.
Import ListNotations.

Local Open Scope Z_scope.

(** Euclidean division by literals is linear arithmetic for [lia]. *)
Ltac Zify.zify_post_hook ::= Z.to_euclidean_division_equations.

(* ================================================================== *)
(** ** ECMA-262 day and year arithmetic                                 *)
(* ================================================================== *)

Module ES.

Definition msPerDay : Z := 86400000.

(** [Day(t)] and [TimeWithinDay(t)]. *)
Definition Day (t : Z) : Z := t / msPerDay.
Definition TimeWithinDay (t : Z) : Z := t mod msPerDay.

(** [DaysInYear(y)]. *)
Definition DaysInYear (y : Z) : Z :=
  if negb (y mod 4 =? 0) then 365
  else if negb (y mod 100 =? 0) then 366
  else if negb (y mod 400 =? 0) then 365
  else 366.

(** [DayFromYear(y)]: day number of the first day of year [y]. *)
Definition DayFromYear (y : Z) : Z :=
  365 * (y - 1970) + (y - 1969) / 4 - (y - 1901) / 100 + (y - 1601) / 400.

(** [YearFromTime]: the largest [y] with [DayFromYear y <= day].  The
    estimate [1970 + 400*day/146097] is off by at most one year. *)
Definition YearFromDay (day : Z) : Z :=
  let y0 := 1970 + (400 * day) / 146097 in
  if DayFromYear (y0 + 1) <=? day then y0 + 1
  else if DayFromYear y0 <=? day then y0
  else y0 - 1.

Definition YearFromTime (t : Z) : Z := YearFromDay (Day t).

Definition InLeapYearDay (day : Z) : Z :=
  if DaysInYear (YearFromDay day) =? 366 then 1 else 0.

Definition DayWithinYearDay (day : Z) : Z := day - DayFromYear (YearFromDay day).

(** [MonthFromTime], on the day within the year [d] with leap flag [l]. *)
Definition month_of (d l : Z) : Z :=
  if d <? 31 then 0
  else if d <? 59 + l then 1
  else if d <? 90 + l then 2
  else if d <? 120 + l then 3
  else if d <? 151 + l then 4
  else if d <? 181 + l then 5
  else if d <? 212 + l then 6
  else if d <? 243 + l then 7
  else if d <? 273 + l then 8
  else if d <? 304 + l then 9
  else if d <? 334 + l then 10
  else 11.

(** Day within the year of the first day of month [m] (0-based). *)
Definition month_start (m l : Z) : Z :=
  match m with
  | 0 => 0
  | 1 => 31
  | 2 => 59 + l
  | 3 => 90 + l
  | 4 => 120 + l
  | 5 => 151 + l
  | 6 => 181 + l
  | 7 => 212 + l
  | 8 => 243 + l
  | 9 => 273 + l
  | 10 => 304 + l
  | _ => 334 + l
  end.

Definition MonthFromDay (day : Z) : Z :=
  month_of (DayWithinYearDay day) (InLeapYearDay day).

(** [DateFromTime]: the day of the month, 1-based. *)
Definition DateFromDay (day : Z) : Z :=
  DayWithinYearDay day - month_start (MonthFromDay day) (InLeapYearDay day) + 1.

Definition MonthFromTime (t : Z) : Z := MonthFromDay (Day t).
Definition DateFromTime (t : Z) : Z := DateFromDay (Day t).

(** Largest magnitude of a time value, 8.64e15 ms (100,000,000 days). *)
Definition maxTime : Z := 8640000000000000.

(** A JavaScript number as the date code uses it: [None] is NaN, [Some z]
    an integral number. *)
Definition num := option Z.

(** [TimeClip]. *)
Definition TimeClip (t : num) : num :=
  match t with
  | Some v => if Z.abs v <=? maxTime then Some v else None
  | None => None
  end.

(** [MakeDay(year, month, date)]: the month is folded into the year, the
    first day of that month is located, and [date - 1] is added.  As in the
    engines, only the final time value is clipped ([TimeClip], by the
    callers), not the first day of the month. *)
Definition MakeDay (year month date : num) : num :=
  match year, month, date with
  | Some y, Some m, Some dt =>
      let ym := y + m / 12 in
      let mn := m mod 12 in
      let l := if DaysInYear ym =? 366 then 1 else 0 in
      Some (DayFromYear ym + month_start mn l + dt - 1)
  | _, _, _ => None
  end.

(** [MakeDate(day, time)]. *)
Definition MakeDate (day time : num) : num :=
  match day, time with
  | Some d, Some t => Some (d * msPerDay + t)
  | _, _ => None
  end.

End ES.

(* ================================================================== *)
(** ** JavaScript strings, [split], [parseInt], [Number]                *)
(* ================================================================== *)

Module JS.
Import ES.

Local Open Scope string_scope.
Local Open Scope Z_scope.

(** Strings are sequences of code units below 256, which covers every
    string a date field can hold. *)

(** [String.prototype.split] with a one-character separator: always at
    least one piece. *)
Fixpoint split (sep : ascii) (s : string) : list string :=
  match s with
  | EmptyString => [EmptyString]
  | String c r =>
      if Ascii.eqb c sep then EmptyString :: split sep r
      else match split sep r with
           | [] => [String c EmptyString]
           | h :: t => String c h :: t
           end
  end.

(** Array indexing: [undefined] is [None]. *)
Definition index {A : Type} (l : list A) (i : nat) : option A := nth_error l i.

(** [ToString] of an array element that may be [undefined]. *)
Definition ToString (o : option string) : string :=
  match o with
  | Some s => s
  | None => "undefined"
  end.

(** WhiteSpace and LineTerminator code units below 256. *)
Definition is_space (c : ascii) : bool :=
  let n := nat_of_ascii c in
  (Nat.eqb n 9 || Nat.eqb n 10 || Nat.eqb n 11 || Nat.eqb n 12 ||
   Nat.eqb n 13 || Nat.eqb n 32 || Nat.eqb n 160)%bool.

Definition is_digit (c : ascii) : bool :=
  let n := nat_of_ascii c in (Nat.leb 48 n && Nat.leb n 57)%bool.

Definition digit_val (c : ascii) : Z := Z.of_nat (nat_of_ascii c) - 48.

Fixpoint trim_start (s : string) : string :=
  match s with
  | String c r => if is_space c then trim_start r else s
  | EmptyString => EmptyString
  end.

(** The longest prefix of decimal digits. *)
Fixpoint take_digits (s : string) : string :=
  match s with
  | String c r => if is_digit c then String c (take_digits r) else EmptyString
  | EmptyString => EmptyString
  end.

(** Value of a string of decimal digits, most significant first. *)
Fixpoint digits_value (acc : Z) (s : string) : Z :=
  match s with
  | String c r => digits_value (10 * acc + digit_val c) r
  | EmptyString => acc
  end.

(** Splits off an optional sign. *)
Definition strip_sign (s : string) : Z * string :=
  match s with
  | String "-" r => (-1, r)
  | String "+" r => (1, r)
  | _ => (1, s)
  end.

(** [parseInt(string, 10)]: leading white space is skipped, a sign is
    read, then the longest run of digits; no digit at all is NaN. *)
Definition parseInt (s : string) : num :=
  let (sign, body) := strip_sign (trim_start s) in
  match take_digits body with
  | EmptyString => None
  | ds => Some (sign * digits_value 0 ds)
  end.

Fixpoint all_digits (s : string) : bool :=
  match s with
  | String c r => (is_digit c && all_digits r)%bool
  | EmptyString => true
  end.

Fixpoint all_space (s : string) : bool :=
  match s with
  | String c r => (is_space c && all_space r)%bool
  | EmptyString => true
  end.

(** *** Number values *)

(** A Number value as [Number(string)] gives it, with its fraction: NaN,
    an infinity, or a finite double.  Every finite double is a whole
    multiple of 2^-1074, the least positive double: [Finite k] is the
    double [k * 2^-1074].  The sign of zero is not kept; no operation of
    the date code tells the two zeros apart. *)
Inductive double :=
| NaN
| Infinite (negative : bool)
| Finite (k : Z).

(** The number of multiples of 2^-1074 in one. *)
Definition one_in_units : Z := 2 ^ 1074.

(** The double of a whole number of magnitude up to 2^53. *)
Definition of_Z (z : Z) : double := Finite (z * one_in_units).

(** The whole number nearest to [a / b], the even one of two equally
    near; [0 < b]. *)
Definition div_nearest_even (a b : Z) : Z :=
  let f := a / b in
  let r := a mod b in
  if 2 * r <? b then f
  else if b <? 2 * r then f + 1
  else if Z.even f then f else f + 1.

(** The double nearest to the ratio [p / q], for [0 <= p] and [0 < q],
    in multiples of 2^-1074, by the rounding of IEEE 754 (to nearest, ties
    to even): a value below 2^53 multiples is rounded to a whole multiple,
    a larger one to 53 significant bits; from 2^1024 on there is none. *)
Definition nearest (p q : Z) : option Z :=
  let n := p * one_in_units in
  let e := Z.max 0 (Z.log2 (n / q) - 52) in
  let k := div_nearest_even n (q * 2 ^ e) * 2 ^ e in
  if k <? 2 ^ 2098 then Some k else None.

Definition round_ratio (negative : bool) (p q : Z) : double :=
  match nearest p q with
  | Some k => Finite (if negative then - k else k)
  | None => Infinite negative
  end.

(** The double nearest to [k] multiples of 2^-1074. *)
Definition round_units (k : Z) : double :=
  round_ratio (k <? 0) (Z.abs k) one_in_units.

(** [x - y] on doubles. *)
Definition fsub (x y : double) : double :=
  match x, y with
  | NaN, _ | _, NaN => NaN
  | Infinite s, Infinite s' => if Bool.eqb s s' then NaN else Infinite s
  | Infinite s, Finite _ => Infinite s
  | Finite _, Infinite s => Infinite (negb s)
  | Finite a, Finite b => round_units (a - b)
  end.

(** The whole number [MakeFullYear] and [MakeDay] go on with
    ([ToIntegerOrInfinity], the fraction dropped); both return NaN for an
    argument that is NaN or infinite. *)
Definition integral (x : double) : num :=
  match x with
  | Finite k => Some (Z.quot k one_in_units)
  | _ => None
  end.

(** *** [Number(string)] *)

Fixpoint trim_end (s : string) : string :=
  match s with
  | String c r => if all_space s then EmptyString else String c (trim_end r)
  | EmptyString => EmptyString
  end.

(** What follows the longest prefix of decimal digits. *)
Fixpoint skip_digits (s : string) : string :=
  match s with
  | String c r => if is_digit c then skip_digits r else s
  | EmptyString => EmptyString
  end.

(** The value of [ExponentPart], [0] for no exponent; [None] when [s] is
    neither. *)
Definition exponent (s : string) : option Z :=
  match s with
  | EmptyString => Some 0
  | String c r =>
      if Ascii.eqb c "e" || Ascii.eqb c "E" then
        let (sign, ds) := strip_sign r in
        match ds with
        | EmptyString => None
        | _ => if all_digits ds then Some (sign * digits_value 0 ds) else None
        end
      else None
  end.

(** [StrUnsignedDecimalLiteral] other than [Infinity]: digits, then a
    point and digits, either part being optional but not both, then an
    optional exponent.  The result is the string of all the digits before
    the exponent and the power of ten that multiplies their value. *)
Definition decimal (s : string) : option (string * Z) :=
  let int := take_digits s in
  let (frac, rest) :=
    match skip_digits s with
    | String c r =>
        if Ascii.eqb c "." then (take_digits r, skip_digits r)
        else (EmptyString, String c r)
    | EmptyString => (EmptyString, EmptyString)
    end in
  match int ++ frac with
  | EmptyString => None
  | ds =>
      match exponent rest with
      | Some e => Some (ds, e - Z.of_nat (String.length frac))
      | None => None
      end
  end.

(** The double of the digits [ds] times [10 ^ e].  A value of 10^401 or
    more is beyond every double, and one below 10^-400 is nearest to
    zero; these two cases are set apart so that a long exponent does not
    have to be raised. *)
Definition decimal_value (negative : bool) (ds : string) (e : Z) : double :=
  let m := digits_value 0 ds in
  if m =? 0 then Finite 0
  else if 400 <? e then Infinite negative
  else if e + Z.of_nat (String.length ds) <? -400 then Finite 0
  else if 0 <=? e then round_ratio negative (m * 10 ^ e) 1
  else round_ratio negative m (10 ^ (- e)).

(** The value of a digit of a literal in radix 2, 8 or 16. *)
Definition hex_val (c : ascii) : option Z :=
  let n := Z.of_nat (nat_of_ascii c) in
  if (48 <=? n) && (n <=? 57) then Some (n - 48)
  else if (97 <=? n) && (n <=? 102) then Some (n - 87)
  else if (65 <=? n) && (n <=? 70) then Some (n - 55)
  else None.

Fixpoint radix_value (radix acc : Z) (s : string) : option Z :=
  match s with
  | EmptyString => Some acc
  | String c r =>
      match hex_val c with
      | Some v => if v <? radix then radix_value radix (radix * acc + v) r else None
      | None => None
      end
  end.

(** [NonDecimalIntegerLiteral]: [0x], [0o] or [0b], in either case, and
    at least one digit of the radix. *)
Definition radix_literal (s : string) : option Z :=
  match s with
  | String z (String c (String d r)) =>
      if negb (Ascii.eqb z "0") then None
      else if Ascii.eqb c "x" || Ascii.eqb c "X" then radix_value 16 0 (String d r)
      else if Ascii.eqb c "o" || Ascii.eqb c "O" then radix_value 8 0 (String d r)
      else if Ascii.eqb c "b" || Ascii.eqb c "B" then radix_value 2 0 (String d r)
      else None
  | _ => None
  end.

(** [Number(string)] ([StringToNumber]): white space is trimmed on both
    sides; the empty string is [0]; a literal in radix 16, 8 or 2 has no
    sign; a decimal literal has an optional sign, then [Infinity] or
    digits with an optional fraction and exponent, and its value is
    rounded to the nearest double; every other string is NaN. *)
Definition Number (s : string) : double :=
  match trim_end (trim_start s) with
  | EmptyString => Finite 0
  | t =>
      match radix_literal t with
      | Some v => round_ratio false v 1
      | None =>
          let (sign, body) := strip_sign t in
          if String.eqb body "Infinity" then Infinite (sign <? 0)
          else
            match decimal body with
            | Some (ds, e) => decimal_value (sign <? 0) ds e
            | None => NaN
            end
      end
  end.

(** [ToNumber] of a number that may be [undefined]. *)
Definition ToNumber (o : option double) : double :=
  match o with
  | Some v => v
  | None => NaN
  end.

(** Arithmetic and comparison of whole numbers; NaN is contagious and
    compares false. *)
Definition add (a b : num) : num :=
  match a, b with
  | Some x, Some y => Some (x + y)
  | _, _ => None
  end.

Definition sub (a b : num) : num :=
  match a, b with
  | Some x, Some y => Some (x - y)
  | _, _ => None
  end.

Definition le (a b : num) : bool :=
  match a, b with
  | Some x, Some y => x <=? y
  | _, _ => false
  end.

Definition isNaN (a : num) : bool :=
  match a with
  | Some _ => false
  | None => true
  end.

(** *** Date objects *)

(** A Date object is its time value; NaN is the invalid date.  The code
    mutates Date objects in place; the embedding passes the new value. *)
Definition Date := num.

(** [MakeFullYear]: years 0 to 99 denote 1900 to 1999. *)
Definition MakeFullYear (y : num) : num :=
  match y with
  | Some v => if (0 <=? v) && (v <=? 99) then Some (1900 + v) else Some v
  | None => None
  end.

(** [Date.UTC(year, month, date)], the time fields left at zero. *)
Definition Date_UTC (year month date : num) : num :=
  TimeClip (MakeDate (MakeDay (MakeFullYear year) month date) (Some 0)).

(** [new Date(value)] for a number, and for a Date (a copy). *)
Definition Date_new (tv : num) : Date := TimeClip tv.

Definition getTime (d : Date) : num := d.

Definition getUTCDate (d : Date) : num :=
  match d with
  | Some t => Some (DateFromTime t)
  | None => None
  end.

(** [setUTCDate(date)]: the new value of the Date object. *)
Definition setUTCDate (d : Date) (date : num) : Date :=
  match d with
  | None => None
  | Some t =>
      TimeClip (MakeDate (MakeDay (Some (YearFromTime t)) (Some (MonthFromTime t)) date)
                         (Some (TimeWithinDay t)))
  end.

Inductive exn := RangeError.

Inductive result (A : Type) :=
| Ok (a : A)
| Throw (e : exn).
Arguments Ok {A} a.
Arguments Throw {A} e.

Definition digit_char (k : Z) : ascii := ascii_of_nat (48 + Z.to_nat k).

(** [v] in [w] decimal digits, zero-padded. *)
Fixpoint pad (w : nat) (v : Z) : string :=
  match w with
  | O => EmptyString
  | S w' => pad w' (v / 10) ++ String (digit_char (v mod 10)) EmptyString
  end.

(** The year of the ISO format: four digits from 0 to 9999, otherwise a
    sign and six digits. *)
Definition iso_year (y : Z) : string :=
  if (0 <=? y) && (y <=? 9999) then pad 4 y
  else if y <? 0 then String "-" (pad 6 (- y))
  else String "+" (pad 6 y).

Definition iso_date (y m d : Z) : string :=
  iso_year y ++ "-" ++ pad 2 m ++ "-" ++ pad 2 d.

Definition iso_time (t : Z) : string :=
  let w := TimeWithinDay t in
  pad 2 (w / 3600000) ++ ":" ++ pad 2 ((w / 60000) mod 60) ++ ":" ++
  pad 2 ((w / 1000) mod 60) ++ "." ++ pad 3 (w mod 1000).

(** [toISOString]: a RangeError on the invalid date. *)
Definition toISOString (d : Date) : result string :=
  match d with
  | None => Throw RangeError
  | Some t =>
      Ok (iso_date (YearFromTime t) (MonthFromTime t + 1) (DateFromTime t)
          ++ "T" ++ iso_time t ++ "Z")
  end.

End JS.

(* ================================================================== *)
(** ** [utils/dateUtils.ts]                                             *)
(* ================================================================== *)

Module DateUtils.
Import ES JS.

Local Open Scope string_scope.
Local Open Scope Z_scope.

(** [addDays(dateStr, daysToAdd)], for an integral [daysToAdd].  The only
    statement that can throw is [toISOString]. *)
Definition addDays (dateStr : string) (daysToAdd : Z) : result string :=
  let parts := split "-" dateStr in
  let year := parseInt (ToString (index parts 0)) in
  let month := sub (parseInt (ToString (index parts 1))) (Some 1) in
  let day := parseInt (ToString (index parts 2)) in
  let date := Date_new (Date_UTC year month day) in
  let date := setUTCDate date (add (getUTCDate date) (Some daysToAdd)) in
  match toISOString date with
  | Ok iso => Ok (ToString (index (split "T" iso) 0))
  | Throw e => Throw e
  end.

(** The [while] loop of [getDaysArray]: [dt] is the running Date, [arr]
    the array built so far; each pass pushes a copy of [dt] and moves [dt]
    one day on. *)
Fixpoint days_loop (fuel : nat) (dt endDt : Date) (arr : list Date) : list Date :=
  match fuel with
  | O => arr
  | S fuel' =>
      if le (getTime dt) (getTime endDt) then
        let arr := (arr ++ [Date_new dt])%list in
        let dt := setUTCDate dt (add (getUTCDate dt) (Some 1)) in
        days_loop fuel' dt endDt arr
      else arr
  end.

(** Number of passes after which the loop test has failed. *)
Definition passes (dt endDt : Date) : nat :=
  match dt, endDt with
  | Some s, Some e => Z.to_nat ((e - s) / msPerDay + 1)
  | _, _ => O
  end.

(** [getDaysArray(start, end)]. *)
Definition getDaysArray (start end_ : string) : list Date :=
  let s := map Number (split "-" start) in
  let dt := Date_new (Date_UTC (integral (ToNumber (index s 0)))
                               (integral (fsub (ToNumber (index s 1)) (of_Z 1)))
                               (integral (ToNumber (index s 2)))) in
  let e := map Number (split "-" end_) in
  let endDt := Date_new (Date_UTC (integral (ToNumber (index e 0)))
                                  (integral (fsub (ToNumber (index e 1)) (of_Z 1)))
                                  (integral (ToNumber (index e 2)))) in
  if isNaN (getTime dt) || isNaN (getTime endDt) then []
  else days_loop (S (passes dt endDt)) dt endDt [].

(** The date string the callers derive from an element of the array:
    [dateObj.toISOString().split('T')[0]]. *)
Definition dateStr_of (d : Date) : result string :=
  match toISOString d with
  | Ok iso => Ok (ToString (index (split "T" iso) 0))
  | Throw e => Throw e
  end.

End DateUtils.

(* ================================================================== *)
(** ** Calendar dates                                                   *)
(* ================================================================== *)

(** The calendar date [y-m-d] (month 1 to 12) of the proleptic Gregorian
    calendar, the day number it has, and the [YYYY-MM-DD] strings. *)
Module Calendar.
Import ES JS.

Local Open Scope string_scope.
Local Open Scope Z_scope.

Definition leap (y : Z) : Z := if DaysInYear y =? 366 then 1 else 0.

Definition days_in_month (y m : Z) : Z :=
  match m with
  | 2 => 28 + leap y
  | 4 | 6 | 9 | 11 => 30
  | _ => 31
  end.

Definition valid_civil (y m d : Z) : Prop :=
  1 <= m <= 12 /\ 1 <= d <= days_in_month y m.

Definition valid_civilb (y m d : Z) : bool :=
  (1 <=? m) && (m <=? 12) && (1 <=? d) && (d <=? days_in_month y m).

(** Days from 1970-01-01 to [y-m-d]. *)
Definition civil_day (y m d : Z) : Z :=
  DayFromYear y + month_start (m - 1) (leap y) + d - 1.

(** The date string of day number [k], as [toISOString] prints it. *)
Definition iso_of_day (k : Z) : string :=
  iso_date (YearFromDay k) (MonthFromDay k + 1) (DateFromDay k).

(** Recognises the strings [YYYY-MM-DD] that name a calendar date, and
    gives the date. *)
Definition civil_of_str (s : string) : option (Z * Z * Z) :=
  match map parseInt (split "-" s) with
  | [Some y; Some m; Some d] =>
      if valid_civilb y m d && (0 <=? y) && (y <=? 9999)
         && String.eqb s (iso_date y m d)
      then Some (y, m, d) else None
  | _ => None
  end.

Definition day_of_str (s : string) : option Z :=
  match civil_of_str s with
  | Some (y, m, d) => Some (civil_day y m d)
  | None => None
  end.

(** [c] occurs in [s]. *)
Fixpoint has_char (c : ascii) (s : string) : bool :=
  match s with
  | String a r => Ascii.eqb a c || has_char c r
  | EmptyString => false
  end.

(** The largest day number of a time value. *)
Definition maxDay : Z := 100000000.

(** The Date [getDaysArray] reads a string as. *)
Definition utc_of_str (s : string) : Date :=
  let f := map Number (split "-" s) in
  Date_new (Date_UTC (integral (ToNumber (index f 0)))
                     (integral (fsub (ToNumber (index f 1)) (of_Z 1)))
                     (integral (ToNumber (index f 2)))).

(** The [n] day numbers from [a] on. *)
Fixpoint zseq (a : Z) (n : nat) : list Z :=
  match n with
  | O => []
  | S n' => a :: zseq (a + 1) n'
  end.

(** Midnight of day number [k], as a Date. *)
Definition midnight (k : Z) : Date := Some (k * msPerDay).

(** Day number of 0100-01-01: from this date on, [Date.UTC] reads the year
    of a [YYYY-MM-DD] string as it is written. *)
Definition day_0100 : Z := civil_day 100 1 1.

(** The year [Date.UTC] reads a year field as. *)
Definition full_year (y : Z) : Z :=
  if (0 <=? y) && (y <=? 99) then 1900 + y else y.

End Calendar.

(* ================================================================== *)
(** ** Records of [types.ts]                                            *)
(* ================================================================== *)

Module Trip.
Record t := mk {
  id : string;
  userId : string;
  destination : string;
  startDate : string;
  endDate : string;
  budget : Z;
  imageUrl : option string;
  notes : option string
}.

(** [{ ...t, startDate: s, endDate: e }]. *)
Definition with_dates (x : t) (s e : string) : t :=
  mk (id x) (userId x) (destination x) s e (budget x) (imageUrl x) (notes x).
End Trip.

Module Activity.
Record t := mk {
  id : string;
  tripId : string;
  date : string;
  description : string;
  time : option string;
  isCompleted : bool
}.

Definition with_date (a : t) (d : string) : t :=
  mk (id a) (tripId a) d (description a) (time a) (isCompleted a).
End Activity.

(* ================================================================== *)
(** ** The trip and activity store                                      *)
(* ================================================================== *)

(** The store behind [supabase.from(...)] is a service outside the
    repository.  Its tables, after the schema in
    [services/supabaseClient.ts], are kept as lists of rows, restricted to
    the rows the signed-in user may see; [id] is a primary key and the
    [date] columns compare as calendar dates.  The order of a list is not
    the order of an answer: a [select] lists its rows in the order the
    environment chooses (see [Env] below).  Only the queries the date
    handlers build are given; the table of the expenses is not kept, only
    the request that reads it. *)
Module Store.
Import Calendar.

Record t := mk {
  trips : list Trip.t;
  activities : list Activity.t
}.

Inductive Request :=
| DeleteActivitiesOn (trip_id date : string)
    (* from('activities').delete().eq('trip_id', _).eq('date', _) *)
| SelectActivitiesAfter (trip_id date : string)
    (* from('activities').select('*').eq('trip_id', _).gt('date', _) *)
| UpdateActivityDate (id date : string)
    (* from('activities').update({ date: _ }).eq('id', _) *)
| UpdateTripDates (id start_date end_date : string)
    (* from('trips').update({ start_date: _, end_date: _ }).eq('id', _) *)
| SelectTrips
    (* from('trips').select('*').order('start_date', { ascending: true }) *)
| SelectExpenses
    (* from('expenses').select('*') *)
| SelectActivities.
    (* from('activities').select('*') *)

Definition date_eqb (a b : string) : bool :=
  match day_of_str a, day_of_str b with
  | Some x, Some y => x =? y
  | _, _ => false
  end.

Definition date_gtb (a b : string) : bool :=
  match day_of_str a, day_of_str b with
  | Some x, Some y => y <? x
  | _, _ => false
  end.

Definition on_date (trip_id d : string) (a : Activity.t) : bool :=
  String.eqb (Activity.tripId a) trip_id && date_eqb (Activity.date a) d.

Definition after_date (trip_id d : string) (a : Activity.t) : bool :=
  String.eqb (Activity.tripId a) trip_id && date_gtb (Activity.date a) d.

Definition set_activity_date (id d : string) (a : Activity.t) : Activity.t :=
  if String.eqb (Activity.id a) id then Activity.with_date a d else a.

Definition set_trip_dates (id s e : string) (x : Trip.t) : Trip.t :=
  if String.eqb (Trip.id x) id then Trip.with_dates x s e else x.

(** The row of trip [id] with a new start date, a new end date. *)
Definition set_start (id s : string) (x : Trip.t) : Trip.t :=
  if String.eqb (Trip.id x) id then Trip.with_dates x s (Trip.endDate x) else x.

Definition set_end (id e : string) (x : Trip.t) : Trip.t :=
  if String.eqb (Trip.id x) id then Trip.with_dates x (Trip.startDate x) e else x.

(** The rows of trip [Trip.id x] in the table are [x] itself: a render
    that shows [x] shows what is stored. *)
Definition stored (x : Trip.t) (db : list Trip.t) : Prop :=
  forall y, In y db -> Trip.id y = Trip.id x -> y = x.

(** Comparison of two dates, where both are calendar dates. *)
Definition date_cmp (a b : string) : option comparison :=
  match day_of_str a, day_of_str b with
  | Some x, Some y => Some (x ?= y)
  | _, _ => None
  end.

(** Every activity of trip [id] in [acts] is dated from day [lo] to day
    [hi]. *)
Definition in_range (id : string) (lo hi : Z) (acts : list Activity.t) : Prop :=
  forall a, In a acts -> Activity.tripId a = id ->
  exists k, day_of_str (Activity.date a) = Some k /\ lo <= k <= hi.

(** The effect of an accepted request on the tables. *)
Definition apply (r : Request) (db : t) : t :=
  match r with
  | DeleteActivitiesOn trip_id d =>
      mk (trips db) (filter (fun a => negb (on_date trip_id d a)) (activities db))
  | UpdateActivityDate id d =>
      mk (trips db) (map (set_activity_date id d) (activities db))
  | UpdateTripDates id s e =>
      mk (map (set_trip_dates id s e) (trips db)) (activities db)
  | SelectActivitiesAfter _ _ | SelectTrips | SelectExpenses | SelectActivities => db
  end.

(** The date an update request for activity [i] in [rs] carries, if any. *)
Fixpoint date_update (i : string) (rs : list Request) : option string :=
  match rs with
  | [] => None
  | UpdateActivityDate j d :: rest =>
      if String.eqb j i then Some d else date_update i rest
  | _ :: rest => date_update i rest
  end.

Definition is_date_update (r : Request) : bool :=
  match r with
  | UpdateActivityDate _ _ => true
  | _ => false
  end.

Definition is_trip_update (r : Request) : bool :=
  match r with
  | UpdateTripDates _ _ _ => true
  | _ => false
  end.

Definition update_id (r : Request) : string :=
  match r with
  | UpdateActivityDate i _ => i
  | _ => EmptyString
  end.

(** Rows by ascending start date, rows of one date in row order. *)
Definition start_leb (a b : Trip.t) : bool :=
  match day_of_str (Trip.startDate a), day_of_str (Trip.startDate b) with
  | Some x, Some y => x <=? y
  | None, _ => true
  | Some _, None => false
  end.

Fixpoint insert_by_start (x : Trip.t) (l : list Trip.t) : list Trip.t :=
  match l with
  | [] => [x]
  | y :: r => if start_leb x y then x :: l else y :: insert_by_start x r
  end.

Definition order_by_start (l : list Trip.t) : list Trip.t :=
  fold_right insert_by_start [] l.

End Store.

(* ================================================================== *)
(** ** Handlers of [App.tsx] and [components/TripItinerary.tsx]         *)
(* ================================================================== *)

Module App.
Import ES JS DateUtils Calendar Store.

Local Open Scope string_scope.

(** What a run leaves behind for an observer: requests as they are sent
    and as they are answered, and the alerts shown. *)
Inductive Event :=
| Issued (r : Request)
| Settled (r : Request) (ok : bool)
| Alert (msg : string).

(** What a handler catches: an exception of a date utility, or the
    [error] of a request the store rejects. *)
Inductive error :=
| JsError (e : exn)
| StoreError (r : Request).

(** What a run does not decide: which requests the store rejects, the
    order in which requests sent together are answered, the answer to the
    [confirm] dialog, the [message] an error carries, and the order in
    which a [select] lists the rows of the trips (within one start date)
    and of the activities.  Whatever the order, a [select] lists each row
    once. *)
Record Env := mkEnv {
  rejects : Request -> bool;
  sched : list Request -> list Request;
  confirm : bool;
  message : error -> string;
  trip_rows : list Trip.t -> list Trip.t;
  activity_rows : list Activity.t -> list Activity.t;
  trip_rows_all : forall l, Permutation (trip_rows l) l;
  activity_rows_all : forall l, Permutation (activity_rows l) l
}.

(** The store, the React state the handlers write, and the events so far.
    The values a handler reads from its render ([trips], [activeTrip],
    [isUpdating], [deletingDate]) are arguments of the handler. *)
Record World := mkWorld {
  db : Store.t;
  user : option string;
  trips : list Trip.t;
  activities : list Activity.t;
  isUpdating : bool;
  deletingDate : option string;
  log : list Event
}.

Inductive outcome (A : Type) :=
| Done (a : A)
| Raised (e : error).
Arguments Done {A} a.
Arguments Raised {A} e.

Definition M (A : Type) : Type := World -> outcome A * World.

Definition ret {A} (a : A) : M A := fun w => (Done a, w).

Definition bind {A B} (c : M A) (k : A -> M B) : M B :=
  fun w =>
    match c w with
    | (Done a, w') => k a w'
    | (Raised e, w') => (Raised e, w')
    end.

Definition throw {A} (e : error) : M A := fun w => (Raised e, w).

(** [try { c } catch (error) { h error }]. *)
Definition try_catch {A} (c : M A) (h : error -> M A) : M A :=
  fun w =>
    match c w with
    | (Done a, w') => (Done a, w')
    | (Raised e, w') => h e w'
    end.

(** [try { c } finally { f }]. *)
Definition try_finally {A} (c : M A) (f : M unit) : M A :=
  fun w =>
    match c w with
    | (Done a, w') =>
        match f w' with
        | (Done _, w'') => (Done a, w'')
        | (Raised e, w'') => (Raised e, w'')
        end
    | (Raised e, w') =>
        match f w' with
        | (Done _, w'') => (Raised e, w'')
        | (Raised e', w'') => (Raised e', w'')
        end
    end.

(** A call of a date utility inside a handler. *)
Definition lift {A} (r : result A) : M A :=
  match r with
  | Ok a => ret a
  | Throw e => throw (JsError e)
  end.

Declare Scope handler_scope.
Delimit Scope handler_scope with handler.
Notation "x <- c ;; k" := (bind c (fun x => k))
  (at level 61, c at next level, right associativity) : handler_scope.
Notation "c ;; k" := (bind c (fun _ => k))
  (at level 61, right associativity) : handler_scope.
Local Open Scope handler_scope.

Definition emit (e : Event) : M unit :=
  fun w => (Done tt, mkWorld (db w) (user w) (trips w) (activities w)
                             (isUpdating w) (deletingDate w) (log w ++ [e])).

Definition emit_all (es : list Event) : M unit :=
  fun w => (Done tt, mkWorld (db w) (user w) (trips w) (activities w)
                             (isUpdating w) (deletingDate w) (log w ++ es)).

Definition set_db (d : Store.t) : M unit :=
  fun w => (Done tt, mkWorld d (user w) (trips w) (activities w)
                             (isUpdating w) (deletingDate w) (log w)).

Definition setTrips (l : list Trip.t) : M unit :=
  fun w => (Done tt, mkWorld (db w) (user w) l (activities w)
                             (isUpdating w) (deletingDate w) (log w)).

Definition setActivities (l : list Activity.t) : M unit :=
  fun w => (Done tt, mkWorld (db w) (user w) (trips w) l
                             (isUpdating w) (deletingDate w) (log w)).

Definition setIsUpdating (b : bool) : M unit :=
  fun w => (Done tt, mkWorld (db w) (user w) (trips w) (activities w)
                             b (deletingDate w) (log w)).

Definition setDeletingDate (d : option string) : M unit :=
  fun w => (Done tt, mkWorld (db w) (user w) (trips w) (activities w)
                             (isUpdating w) d (log w)).

Definition alert (msg : string) : M unit := emit (Alert msg).

(** The answer to a request: the store takes it or rejects it. *)
Definition settle (env : Env) (r : Request) : M bool :=
  fun w =>
    if rejects env r then (emit (Settled r false) ;; ret true) w
    else (set_db (Store.apply r (db w)) ;; emit (Settled r true) ;; ret false) w.

(** [await] of one request; the result is the [error] field, as a flag. *)
Definition request (env : Env) (r : Request) : M bool :=
  emit (Issued r) ;; settle env r.

(** [await] of a [select]: [None] when the store rejects it. *)
Definition select {A} (env : Env) (r : Request) (rows : Store.t -> A) : M (option A) :=
  fun w =>
    (failed <- request env r ;;
     if (failed : bool) then ret None else ret (Some (rows (db w)))) w.

Fixpoint settle_all (env : Env) (rs : list Request) : M unit :=
  match rs with
  | [] => ret tt
  | r :: rest => settle env r ;; settle_all env rest
  end.

(** [await Promise.all(requests)]: every request is sent, in list order,
    and the wait ends when all are answered, in the order the environment
    chooses.  The answers are dropped. *)
Definition Promise_all (env : Env) (rs : list Request) : M unit :=
  emit_all (map Issued rs) ;; settle_all env (sched env rs).

Fixpoint mapM {A B} (f : A -> M B) (l : list A) : M (list B) :=
  match l with
  | [] => ret []
  | a :: r => b <- f a ;; bs <- mapM f r ;; ret (b :: bs)
  end.

(** [fetchData]: the state is replaced by what the store holds, the
    trips, then the expenses, then the activities; the first query the
    store rejects ends it, and the [catch] shows nothing.  The expenses
    read, the flag [dataLoading] and the schema error [dbError] are not
    part of the world: of the expenses only the request is kept. *)
Definition fetchData (env : Env) : M unit :=
  fun w =>
    match user w with
    | None => (Done tt, w)
    | Some _ =>
        try_catch
          ((* 1. Fetch Trips *)
           tripsData <- select env SelectTrips
                          (fun d => order_by_start (trip_rows env (Store.trips d))) ;;
           match tripsData with
           | None => throw (StoreError SelectTrips)
           | Some rows =>
               setTrips rows ;;
               (* 2. Fetch Expenses *)
               expensesData <- select env SelectExpenses (fun _ => tt) ;;
               match expensesData with
               | None => throw (StoreError SelectExpenses)
               | Some _ =>
                   (* 3. Fetch Activities *)
                   activitiesData <- select env SelectActivities
                                       (fun d => activity_rows env (Store.activities d)) ;;
                   match activitiesData with
                   | None => throw (StoreError SelectActivities)
                   | Some acts => setActivities acts
                   end
               end
           end)
          (fun _ => ret tt) w
    end.

(** A string is truthy when it is neither [null] nor empty. *)
Definition truthy (o : option string) : bool :=
  match o with
  | Some EmptyString | None => false
  | Some _ => true
  end.

(** [activeTrip], derived from the state at render. *)
Definition activeTrip (trips : list Trip.t) (selectedTripId : option string)
  : option Trip.t :=
  match selectedTripId with
  | Some sel =>
      if truthy selectedTripId
      then find (fun x => String.eqb (Trip.id x) sel) trips
      else None
  | None => None
  end.

(** [handleUpdateTripDates(tripId, newStartDate, newEndDate)]; [trips] is
    the state of the render the handler was created in. *)
Definition handleUpdateTripDates (env : Env) (trips : list Trip.t)
    (tripId newStartDate newEndDate : string) : M unit :=
  try_catch
    (failed <- request env (UpdateTripDates tripId newStartDate newEndDate) ;;
     if (failed : bool)
     then throw (StoreError (UpdateTripDates tripId newStartDate newEndDate))
     else
       let updatedTrips :=
         map (fun x => if String.eqb (Trip.id x) tripId
                       then Trip.with_dates x newStartDate newEndDate
                       else x) trips in
       setTrips updatedTrips)
    (fun error => alert ("Failed to update dates: " ++ message env error)).

(** The request that moves one activity back a day. *)
Definition shift_request (act : Activity.t) : M Request :=
  newDate <- lift (addDays (Activity.date act) (-1)) ;;
  ret (UpdateActivityDate (Activity.id act) newDate).

(** [handleRemoveDay(dateToRemove)]. *)
Definition handleRemoveDay (env : Env) (trips : list Trip.t)
    (selectedTripId : option string) (dateToRemove : string) : M unit :=
  match activeTrip trips selectedTripId with
  | None => ret tt
  | Some activeTrip =>
      try_catch
        (let isStart := String.eqb dateToRemove (Trip.startDate activeTrip) in
         let isEnd := String.eqb dateToRemove (Trip.endDate activeTrip) in
         (* 1. Delete activities on the specific date *)
         delError <- request env (DeleteActivitiesOn (Trip.id activeTrip) dateToRemove) ;;
         (if (delError : bool)
          then throw (StoreError (DeleteActivitiesOn (Trip.id activeTrip) dateToRemove))
          else ret tt) ;;
         (* 2. Logic to shift days and update Trip dates *)
         (if isStart then
            newStartDate <- lift (addDays (Trip.startDate activeTrip) 1) ;;
            handleUpdateTripDates env trips (Trip.id activeTrip)
              newStartDate (Trip.endDate activeTrip)
          else if isEnd then
            newEndDate <- lift (addDays (Trip.endDate activeTrip) (-1)) ;;
            handleUpdateTripDates env trips (Trip.id activeTrip)
              (Trip.startDate activeTrip) newEndDate
          else
            (* A. Fetch activities that need shifting *)
            fetched <- select env (SelectActivitiesAfter (Trip.id activeTrip) dateToRemove)
                         (fun d => activity_rows env
                                     (filter (after_date (Trip.id activeTrip) dateToRemove)
                                             (Store.activities d))) ;;
            match fetched with
            | None =>
                throw (StoreError (SelectActivitiesAfter (Trip.id activeTrip) dateToRemove))
            | Some actsToShift =>
                (* B. Update each activity (shift back by 1 day) *)
                (if (0 <? List.length actsToShift)%nat then
                   requests <- mapM shift_request actsToShift ;;
                   Promise_all env requests
                 else ret tt) ;;
                (* C. Reduce Trip Duration (bring End Date back by 1) *)
                newEndDate <- lift (addDays (Trip.endDate activeTrip) (-1)) ;;
                handleUpdateTripDates env trips (Trip.id activeTrip)
                  (Trip.startDate activeTrip) newEndDate
            end) ;;
         (* 3. Refresh data to ensure UI sync *)
         fetchData env)
        (fun error => alert ("Failed to remove day: " ++ message env error))
  end.

(** [handleExtendTrip] of the itinerary; [onTripUpdate] is the prop. *)
Definition handleExtendTrip (trip : Trip.t) (isUpdating : bool)
    (onTripUpdate : string -> string -> string -> M unit) : M unit :=
  if isUpdating then ret tt
  else
    setIsUpdating true ;;
    try_finally
      (newEnd <- lift (addDays (Trip.endDate trip) 1) ;;
       onTripUpdate (Trip.id trip) (Trip.startDate trip) newEnd)
      (setIsUpdating false).

(** [handleRemoveClick(dateStr, index)] of the itinerary; [onRemoveDay] is
    the prop. *)
Definition handleRemoveClick (env : Env) (trip : Trip.t) (isUpdating : bool)
    (deletingDate : option string) (onRemoveDay : string -> M unit)
    (dateStr : string) (index : nat) : M unit :=
  let days := getDaysArray (Trip.startDate trip) (Trip.endDate trip) in
  if (List.length days <=? 1)%nat then alert "A trip must have at least one day."
  else if isUpdating || truthy deletingDate then ret tt
  else if confirm env then
    setDeletingDate (Some dateStr) ;;
    try_finally (onRemoveDay dateStr) (setDeletingDate None)
  else ret tt.

(** *** Notions the properties below are stated with *)

(** The date one day before [s], or [s] where [addDays] throws. *)
Definition day_before (s : string) : string :=
  match addDays s (-1) with
  | Ok r => r
  | Throw _ => s
  end.

(** The store after the activities of the removed day are deleted. *)
Definition after_delete (t : Trip.t) (d : string) (w : World) : Store.t :=
  Store.apply (DeleteActivitiesOn (Trip.id t) d) (db w).

(** No event of [l] is an alert. *)
Definition silent (l : list Event) : Prop :=
  Forall (fun e => match e with Alert _ => False | _ => True end) l.

(** The events of a date update of an activity, sent or answered, and the
    event of a date update of a trip being sent. *)
Definition is_shift_event (e : Event) : bool :=
  match e with
  | Issued r | Settled r _ => is_date_update r
  | Alert _ => false
  end.

Definition is_trip_write (e : Event) : bool :=
  match e with
  | Issued r => is_trip_update r
  | _ => false
  end.

(** Every activity date update sent in [l] is answered in [l]. *)
Definition settled_within (l : list Event) : Prop :=
  forall r, In (Issued r) l -> is_date_update r = true ->
  exists ok, In (Settled r ok) l.

(** A computation that sends no activity date update. *)
Definition quiet {A} (c : M A) : Prop :=
  forall w, exists l,
    log (snd (c w)) = (log w ++ l)%list /\ Forall (fun e => is_shift_event e = false) l.

(** A computation that sends no trip date update and waits for every
    activity date update it sends. *)
Definition calm {A} (c : M A) : Prop :=
  forall w, exists l,
    log (snd (c w)) = (log w ++ l)%list /\
    Forall (fun e => is_trip_write e = false) l /\ settled_within l.

(** A computation in two phases: first calm, then quiet. *)
Definition phased {A} (c : M A) : Prop :=
  forall w, exists pre post,
    log (snd (c w)) = (log w ++ pre ++ post)%list /\
    Forall (fun e => is_trip_write e = false) pre /\
    settled_within pre /\
    Forall (fun e => is_shift_event e = false) post.

(** Every request sent is answered once. *)
Definition fair (env : Env) : Prop :=
  forall rs, Permutation (sched env rs) rs.

End App.

(* ================================================================== *)
(** ** A sample trip                                                    *)
(* ================================================================== *)

(** The trip of the worked examples: 2024-03-01 to 2024-03-05 with
    activities on the 1st, 3rd, 4th and 5th, beside a one-day trip. *)
Module Sample.
Import Store App.

Local Open Scope string_scope.

Definition goa : Trip.t :=
  Trip.mk "t1" "u1" "Goa" "2024-03-01" "2024-03-05" 20000 None None.

Definition pune : Trip.t :=
  Trip.mk "t2" "u1" "Pune" "2024-03-01" "2024-03-01" 0 None None.

Definition act (i trip d : string) : Activity.t :=
  Activity.mk i trip d "sightseeing" None false.

Definition acts : list Activity.t :=
  [act "a1" "t1" "2024-03-01"; act "a2" "t1" "2024-03-03";
   act "a3" "t1" "2024-03-04"; act "a4" "t1" "2024-03-05";
   act "b1" "t2" "2024-03-01"].

(** The messages of the errors, for the examples. *)
Definition message (e : error) : string :=
  match e with
  | JsError _ => "Invalid time value"
  | StoreError _ => "permission denied"
  end.

(** A store that takes every request, answers requests sent together
    last one first, and lists rows in the order of the tables. *)
Definition env : Env :=
  mkEnv (fun _ => false) (fun rs => rev rs) true message (fun l => l) (fun l => l)
        (fun l => Permutation_refl l) (fun l => Permutation_refl l).

(** The same store, listing activities last one first. *)
Definition env_rev : Env :=
  mkEnv (fun _ => false) (fun rs => rev rs) true message (fun l => l) (fun l => rev l)
        (fun l => Permutation_refl l) (fun l => Permutation_sym (Permutation_rev l)).

Definition world : World :=
  mkWorld (Store.mk [goa; pune] acts) (Some "u1") [goa; pune] acts false None [].



End Sample.

(* ================================================================== *)
(** ** The day after a calendar date                                    *)
(* ================================================================== *)

Module Gregorian.
Import Calendar.

(** The calendar date after [y-m-d], by the rule of the calendar: the next
    day of the month, else the first of the next month, else the first of
    January of the next year. *)
Definition next_date (y m d : Z) : Z * Z * Z :=
  if d <? days_in_month y m then (y, m, d + 1)
  else if m <? 12 then (y, m + 1, 1)
  else (y + 1, 1, 1).

Definition date_string (c : Z * Z * Z) : string :=
  let '(y, m, d) := c in JS.iso_date y m d.

End Gregorian.

(** Evaluates [k + 1] on month literals. *)
Ltac norm_succ :=
  repeat match goal with
         | |- context [Z.pos ?a + 1] =>
             let v := eval compute in (Z.pos a + 1) in change (Z.pos a + 1) with v
         end.

(* ================================================================== *)
(** ** The day list of [components/TripItinerary.tsx]                   *)
(* ================================================================== *)

Module Itinerary.
Import JS DateUtils.

(** What the component shows for one day: the number in [Day n], the date
    string that keys the day and goes to the handlers, the activities
    listed under it, and whether the day has a remove button. *)
Record DayView := mkDay {
  number : nat;
  dateStr : string;
  dayActivities : list Activity.t;
  removable : bool
}.

(** [days.map((dateObj, index) => ...)] from [index] on, [total] being
    [days.length]; [toISOString] may throw. *)
Fixpoint day_views (total : nat) (activities : list Activity.t)
    (days : list Date) (index : nat) : result (list DayView) :=
  match days with
  | [] => Ok []
  | dateObj :: rest =>
      match dateStr_of dateObj with
      | Throw e => Throw e
      | Ok dateStr =>
          let dayActivities :=
            filter (fun a => String.eqb (Activity.date a) dateStr) activities in
          match day_views total activities rest (S index) with
          | Throw e => Throw e
          | Ok views =>
              Ok (mkDay (index + 1) dateStr dayActivities (1 <? total)%nat :: views)
          end
      end
  end.

(** The days the component lists for [trip]; no day is the case of the
    message "No days in this trip". *)
Definition render (trip : Trip.t) (activities : list Activity.t)
  : result (list DayView) :=
  let days := getDaysArray (Trip.startDate trip) (Trip.endDate trip) in
  day_views (List.length days) activities days 0.

(** [activeTripActivities] of [App.tsx], the activities the component is
    given. *)
Definition activeTripActivities (activeTrip : option Trip.t)
    (activities : list Activity.t) : list Activity.t :=
  match activeTrip with
  | Some t => filter (fun a => String.eqb (Activity.tripId a) (Trip.id t)) activities
  | None => []
  end.

(** *** Notions the properties below are stated with *)

(** The activities of [acts] dated day number [k]. *)
Definition dated (k : Z) (acts : list Activity.t) : list Activity.t :=
  filter (fun a => match Calendar.day_of_str (Activity.date a) with
                   | Some j => j =? k
                   | None => false
                   end) acts.

End Itinerary.

(* ================================================================== *)
(** ** The activity handlers of [App.tsx]                               *)
(* ================================================================== *)

(** [handleAddActivity], [handleDeleteActivity] and
    [handleToggleActivity].  Each sends one request of a kind of its own;
    on an error it throws into its own [catch], which only writes to the
    console: the handler then ends with the state as it was.  These
    requests are not entered in the log of the date handlers. *)
Module Ops.
Import Store App.

Local Open Scope string_scope.
Local Open Scope handler_scope.

Inductive Op :=
| InsertActivity (trip_id date description : string)
    (* from('activities').insert([{ trip_id, date, description,
       is_completed: false }]).select().single() *)
| DeleteActivity (id : string)
    (* from('activities').delete().eq('id', _) *)
| SetCompleted (id : string) (is_completed : bool).
    (* from('activities').update({ is_completed: _ }).eq('id', _) *)

(** What a run does not decide: which requests the store rejects, and the
    [id] the store gives a new row ([gen_random_uuid()]). *)
Record OpEnv := mkOpEnv {
  refuses : Op -> bool;
  new_id : Store.t -> string
}.

(** The row the store makes of an insert: the columns not given take
    their defaults. *)
Definition inserted (env : OpEnv) (db : Store.t) (trip_id date description : string)
  : Activity.t :=
  Activity.mk (new_id env db) trip_id date description None false.

(** [{ ...a, isCompleted: b }] and the row with [is_completed] set. *)
Definition with_completed (a : Activity.t) (b : bool) : Activity.t :=
  Activity.mk (Activity.id a) (Activity.tripId a) (Activity.date a)
              (Activity.description a) (Activity.time a) b.

(** The effect of an accepted request on the tables. *)
Definition perform (env : OpEnv) (o : Op) (db : Store.t) : Store.t :=
  match o with
  | InsertActivity trip_id date description =>
      Store.mk (Store.trips db)
               (Store.activities db ++ [inserted env db trip_id date description])
  | DeleteActivity id =>
      Store.mk (Store.trips db)
               (filter (fun a => negb (String.eqb (Activity.id a) id)) (Store.activities db))
  | SetCompleted id b =>
      Store.mk (Store.trips db)
               (map (fun a => if String.eqb (Activity.id a) id then with_completed a b else a)
                    (Store.activities db))
  end.

(** [await] of one request; the result is the [error] field, as a flag. *)
Definition submit (env : OpEnv) (o : Op) : M bool :=
  fun w =>
    if refuses env o then (Done true, w)
    else (Done false,
          mkWorld (perform env o (db w)) (user w) (trips w) (activities w)
                  (isUpdating w) (deletingDate w) (log w)).

(** [await] of the insert: the row in [data], [None] on an error. *)
Definition submit_insert (env : OpEnv) (trip_id date description : string)
  : M (option Activity.t) :=
  fun w =>
    (failed <- submit env (InsertActivity trip_id date description) ;;
     if (failed : bool) then ret None
     else ret (Some (inserted env (db w) trip_id date description))) w.

(** [handleAddActivity(date, description)]; [activeTrip] and [activities]
    are those of the render the handler was created in. *)
Definition handleAddActivity (env : OpEnv) (activeTrip : option Trip.t)
    (activities : list Activity.t) (date description : string) : M unit :=
  match activeTrip with
  | None => ret tt
  | Some activeTrip =>
      data <- submit_insert env (Trip.id activeTrip) date description ;;
      match data with
      | None => ret tt
      | Some createdActivity => setActivities (activities ++ [createdActivity])
      end
  end.

(** [handleDeleteActivity(id)]. *)
Definition handleDeleteActivity (env : OpEnv) (activities : list Activity.t)
    (id : string) : M unit :=
  failed <- submit env (DeleteActivity id) ;;
  if (failed : bool) then ret tt
  else setActivities (filter (fun a => negb (String.eqb (Activity.id a) id)) activities).

(** [handleToggleActivity(id)]. *)
Definition handleToggleActivity (env : OpEnv) (activities : list Activity.t)
    (id : string) : M unit :=
  match find (fun a => String.eqb (Activity.id a) id) activities with
  | None => ret tt
  | Some activity =>
      failed <- submit env (SetCompleted id (negb (Activity.isCompleted activity))) ;;
      if (failed : bool) then ret tt
      else setActivities
             (map (fun a => if String.eqb (Activity.id a) id
                            then with_completed a (negb (Activity.isCompleted a))
                            else a) activities)
  end.

(** *** Notions the properties below are stated with *)

(** The state shows the activities the store holds. *)
Definition in_sync (w : World) : Prop :=
  activities w = Store.activities (db w).

(** The row [a] after a toggle of [id]. *)
Definition toggled (id : string) (a : Activity.t) : Activity.t :=
  if String.eqb (Activity.id a) id
  then with_completed a (negb (Activity.isCompleted a)) else a.

End Ops.

(* ================================================================== *)
(** ** The itinerary pages of [services/pdfService.ts]                  *)
(* ================================================================== *)

(** The part of [generateTripPDF] that lays out the itinerary: from
    [let currentY = 70] to the heading of the expense table.  The
    document is the list of the [doc.text] and [doc.addPage] calls made;
    fonts and colours are left out.  The title and the financial summary
    before it are drawn at fixed places and are not embedded. *)
Module Pdf.
Import ES JS DateUtils.

Local Open Scope string_scope.
Local Open Scope Z_scope.

(** The text of a call: a heading, the header of a day (whose date is
    printed by [toLocaleDateString], in the locale of the browser), or a
    line. *)
Inductive Line :=
| Heading (s : string)
| DayHeader (n : nat) (dateObj : Date)
| Plain (s : string).

Inductive Draw :=
| Text (l : Line) (x y : Z)
| AddPage.

(** The local [getDaysArray] of [generateTripPDF]. *)
Definition getDaysArray (start end_ : string) : list Date :=
  let s := map Number (split "-" start) in
  let sY := ToNumber (index s 0) in
  let sM := ToNumber (index s 1) in
  let sD := ToNumber (index s 2) in
  let dt := Date_new (Date_UTC (integral sY) (integral (fsub sM (of_Z 1))) (integral sD)) in
  let e := map Number (split "-" end_) in
  let eY := ToNumber (index e 0) in
  let eM := ToNumber (index e 1) in
  let eD := ToNumber (index e 2) in
  let endDt := Date_new (Date_UTC (integral eY) (integral (fsub eM (of_Z 1))) (integral eD)) in
  if isNaN (getTime dt) || isNaN (getTime endDt) then []
  else days_loop (S (passes dt endDt)) dt endDt [].

Definition activity_text (act : Activity.t) : string :=
  let checkMark := if Activity.isCompleted act then "[x]" else "[ ]" in
  checkMark ++ " " ++ Activity.description act.

(** [dayActivities.forEach(act => ...)] on the document [(currentY, out)]. *)
Fixpoint activity_lines (dayActivities : list Activity.t) (doc : Z * list Draw)
  : Z * list Draw :=
  match dayActivities with
  | [] => doc
  | act :: rest =>
      let '(currentY, out) := doc in
      activity_lines rest
        (currentY + 6, (out ++ [Text (Plain (activity_text act)) 20 currentY])%list)
  end.

(** One pass of [days.forEach((dateObj, index) => ...)]. *)
Definition day_section (activities : list Activity.t) (dateObj : Date) (index : nat)
    (doc : Z * list Draw) : result (Z * list Draw) :=
  let '(currentY, out) := doc in
  let '(currentY, out) :=
    if currentY >? 250 then (20, (out ++ [AddPage])%list) else (currentY, out) in
  match dateStr_of dateObj with
  | Throw e => Throw e
  | Ok dateStr =>
      let dayActivities :=
        filter (fun a => String.eqb (Activity.date a) dateStr) activities in
      let out := (out ++ [Text (DayHeader (index + 1) dateObj) 14 currentY])%list in
      let currentY := currentY + 7 in
      let '(currentY, out) :=
        if (List.length dayActivities =? 0)%nat
        then (currentY + 7,
              (out ++ [Text (Plain "- No activities planned") 20 currentY])%list)
        else activity_lines dayActivities (currentY, out) in
      Ok (currentY + 5, out)
  end.

Fixpoint day_sections (activities : list Activity.t) (days : list Date) (index : nat)
    (doc : Z * list Draw) : result (Z * list Draw) :=
  match days with
  | [] => Ok doc
  | dateObj :: rest =>
      match day_section activities dateObj index doc with
      | Throw e => Throw e
      | Ok doc' => day_sections activities rest (S index) doc'
      end
  end.

(** The itinerary section and the heading of the expense section; the
    number returned is the [startY] of the expense table. *)
Definition itinerary_pages (trip : Trip.t) (activities : list Activity.t)
  : result (Z * list Draw) :=
  let currentY := 70 in
  let out := [Text (Heading "Itinerary") 14 currentY] in
  let currentY := currentY + 10 in
  let days := getDaysArray (Trip.startDate trip) (Trip.endDate trip) in
  match day_sections activities days 0 (currentY, out) with
  | Throw e => Throw e
  | Ok (currentY, out) =>
      let currentY := currentY + 10 in
      let '(currentY, out) :=
        if currentY >? 240 then (20, (out ++ [AddPage])%list) else (currentY, out) in
      let out := (out ++ [Text (Heading "Expenses") 14 currentY])%list in
      Ok (currentY + 5, out)
  end.

(** *** Notions the properties below are stated with *)

(** The texts of a document, in the order drawn. *)
Definition lines (l : list Draw) : list Line :=
  flat_map (fun d => match d with Text ln _ _ => [ln] | AddPage => [] end) l.

(** The number of page breaks. *)
Definition breaks (l : list Draw) : nat :=
  List.length (filter (fun d => match d with AddPage => true | _ => false end) l).

(** The lines of one day of the day list [v], for the Date [dateObj]. *)
Definition day_lines (p : Date * Itinerary.DayView) : list Line :=
  DayHeader (Itinerary.number (snd p)) (fst p) ::
  match Itinerary.dayActivities (snd p) with
  | [] => [Plain "- No activities planned"]
  | l => map (fun a => Plain (activity_text a)) l
  end.

(** A call is in place: not above the top margin of 20; headings and day
    headers at the left margin of 14, not below 240 and 250; lines at 20
    from the left. *)
Definition placed (d : Draw) : Prop :=
  match d with
  | AddPage => True
  | Text ln x y =>
      20 <= y /\
      match ln with
      | Heading _ => x = 14 /\ y <= 240
      | DayHeader _ _ => x = 14 /\ y <= 250
      | Plain _ => x = 20
      end
  end.

(** The calls [activity_lines] adds, from [y] down. *)
Fixpoint activity_draws (l : list Activity.t) (y : Z) : list Draw :=
  match l with
  | [] => []
  | a :: r => Text (Plain (activity_text a)) 20 y :: activity_draws r (y + 6)
  end.

End Pdf.

(* ================================================================== *)
(** ** Stores that reject requests                                      *)
(* ================================================================== *)

(** Stores for the worked examples of failures; each answers requests
    sent together last one first, and the dialog is confirmed. *)
Module Faults.
Import Store App.

Local Open Scope string_scope.

(** Rejects the deletion of the activities of a day. *)
Definition no_delete : Env :=
  mkEnv (fun r => match r with DeleteActivitiesOn _ _ => true | _ => false end)
        (fun rs => rev rs) true Sample.message (fun l => l) (fun l => l)
        (fun l => Permutation_refl l) (fun l => Permutation_refl l).

(** Rejects the update of the dates of a trip. *)
Definition no_trip_update : Env :=
  mkEnv is_trip_update (fun rs => rev rs) true Sample.message (fun l => l) (fun l => l)
        (fun l => Permutation_refl l) (fun l => Permutation_refl l).

(** Rejects the date update of the activity [a4]. *)
Definition no_shift_a4 : Env :=
  mkEnv (fun r => match r with
                  | UpdateActivityDate i _ => String.eqb i "a4"
                  | _ => false
                  end)
        (fun rs => rev rs) true Sample.message (fun l => l) (fun l => l)
        (fun l => Permutation_refl l) (fun l => Permutation_refl l).

(** A store that takes every activity request and names new rows [a9]. *)
Definition ops : Ops.OpEnv := Ops.mkOpEnv (fun _ => false) (fun _ => "a9").

End Faults.

(* ================================================================== *)
(** ** Rows before and after an update                                  *)
(* ================================================================== *)

(** Notions the properties of the handlers are stated with.  They compare
    rows column by column and tables row by row, whatever the order of the
    rows. *)
Module Rows.

(** [x'] is the trip row [x] with the dates [s] and [e]: every other
    column is as in [x]. *)
Definition trip_redated (x x' : Trip.t) (s e : string) : Prop :=
  Trip.id x' = Trip.id x /\ Trip.userId x' = Trip.userId x /\
  Trip.destination x' = Trip.destination x /\
  Trip.startDate x' = s /\ Trip.endDate x' = e /\
  Trip.budget x' = Trip.budget x /\ Trip.imageUrl x' = Trip.imageUrl x /\
  Trip.notes x' = Trip.notes x.

(** [a'] is the activity row [a] with the date [d]: every other column is
    as in [a]. *)
Definition redated (a a' : Activity.t) (d : string) : Prop :=
  Activity.id a' = Activity.id a /\ Activity.tripId a' = Activity.tripId a /\
  Activity.date a' = d /\ Activity.description a' = Activity.description a /\
  Activity.time a' = Activity.time a /\
  Activity.isCompleted a' = Activity.isCompleted a.

(** The table [l'] is the table [l] updated row by row: every row of [l]
    has a row of [l'] it is related to by [R], and every row of [l'] is
    related to a row of [l]. *)
Definition updated {A : Type} (R : A -> A -> Prop) (l l' : list A) : Prop :=
  (forall x, In x l -> exists x', In x' l' /\ R x x') /\
  (forall x', In x' l' -> exists x, In x l /\ R x x').

End Rows.

(* ================================================================== *)
(** ** Date strings the utilities can read                              *)
(* ================================================================== *)

(** Notions the properties of the date utilities are stated with. *)
Module Reading.
Import ES JS.

Local Open Scope string_scope.

Definition finite (x : double) : bool :=
  match x with
  | Finite _ => true
  | _ => false
  end.

(** [s] has the three fields [getDaysArray] takes, and [Number] reads each
    as a finite number: none is missing, none is NaN or an infinity. *)
Definition numeric_fields (s : string) : bool :=
  let f := map Number (split "-" s) in
  finite (ToNumber (index f 0)) && finite (ToNumber (index f 1)) &&
  finite (ToNumber (index f 2)).

(** [s] has the three fields [addDays] takes, and [parseInt] reads a whole
    number at the start of each. *)
Definition integer_fields (s : string) : bool :=
  let parts := split "-" s in
  negb (isNaN (parseInt (ToString (index parts 0)))) &&
  negb (isNaN (parseInt (ToString (index parts 1)))) &&
  negb (isNaN (parseInt (ToString (index parts 2)))).

(** A character that a numeral, or the white space before it, can start
    with: a digit, a sign, the point, or the [I] of [Infinity]. *)
Definition starts_numeral (c : ascii) : bool :=
  is_space c || is_digit c || Ascii.eqb c "+" || Ascii.eqb c "-" ||
  Ascii.eqb c "." || Ascii.eqb c "I".

(** A field that is missing, or that starts with a character no numeral
    starts with. *)
Definition no_numeral (o : option string) : bool :=
  match o with
  | None => true
  | Some (String c _) => negb (starts_numeral c)
  | Some EmptyString => false
  end.

(** One of the first three fields of [s] is missing or starts with a
    character no numeral starts with, as in [2024-03], [2024-xx-01] or
    [not-a-date]. *)
Definition malformed (s : string) : bool :=
  let parts := split "-" s in
  no_numeral (index parts 0) || no_numeral (index parts 1) || no_numeral (index parts 2).

End Reading.

(* ================================================================== *)
(** ** Proof steps on month tables                                      *)
(* ================================================================== *)

(** Case split on a month number known to lie between 1 and 12. *)
Ltac month_cases m :=
  let C := fresh "C" in
  assert (C : m = 1 \/ m = 2 \/ m = 3 \/ m = 4 \/ m = 5 \/ m = 6 \/ m = 7 \/
              m = 8 \/ m = 9 \/ m = 10 \/ m = 11 \/ m = 12) by lia;
  destruct C as [C | [C | [C | [C | [C | [C | [C | [C | [C | [C | [C | C]]]]]]]]]]];
  subst m.

(** Evaluates [k - 1] on month literals and the month tables. *)
Ltac norm_month :=
  repeat match goal with
         | |- context [Z.pos ?a - 1] =>
             let v := eval compute in (Z.pos a - 1) in change (Z.pos a - 1) with v
         | H : context [Z.pos ?a - 1] |- _ =>
             let v := eval compute in (Z.pos a - 1) in change (Z.pos a - 1) with v in H
         end;
  cbv beta iota delta [ES.month_start Calendar.days_in_month] in *.

Ltac split_ltb :=
  repeat match goal with
         | |- context [?a <? ?b] => destruct (Z.ltb_spec a b); try lia
         end.

(* ================================================================== *)
(** * Properties of the date arithmetic                                 *)
(* ================================================================== *)

Section YearFromDay_facts.
Import ES.

Lemma DayFromYear_succ (y : Z) : DayFromYear (y + 1) = DayFromYear y + DaysInYear y.
Proof.
  unfold DayFromYear, DaysInYear.
  destruct (Z.eqb_spec (y mod 4) 0), (Z.eqb_spec (y mod 100) 0),
    (Z.eqb_spec (y mod 400) 0); cbn [negb]; lia.
Qed.

Lemma DaysInYear_cases (y : Z) : DaysInYear y = 365 \/ DaysInYear y = 366.
Proof.
  unfold DaysInYear.
  destruct (y mod 4 =? 0), (y mod 100 =? 0), (y mod 400 =? 0); cbn; auto.
Qed.

Lemma YearFromDay_spec (day : Z) :
  DayFromYear (YearFromDay day) <= day < DayFromYear (YearFromDay day + 1).
Proof.
  unfold YearFromDay.
  set (y0 := 1970 + 400 * day / 146097).
  assert (E0 : y0 = 1970 + 400 * day / 146097) by reflexivity.
  pose proof (DayFromYear_succ (y0 + 1)) as S1.
  pose proof (DayFromYear_succ y0) as S0.
  pose proof (DayFromYear_succ (y0 - 1)) as Sm.
  replace (y0 - 1 + 1) with y0 in * by lia.
  pose proof (DaysInYear_cases (y0 + 1)).
  pose proof (DaysInYear_cases y0).
  pose proof (DaysInYear_cases (y0 - 1)).
  assert (Hlo : DayFromYear (y0 - 1) <= day) by (unfold DayFromYear; lia).
  assert (Hhi : day < DayFromYear (y0 + 1 + 1)) by (unfold DayFromYear; lia).
  destruct (Z.leb_spec (DayFromYear (y0 + 1)) day).
  - lia.
  - destruct (Z.leb_spec (DayFromYear y0) day).
    + lia.
    + replace (y0 - 1 + 1) with y0 by lia. lia.
Qed.

End YearFromDay_facts.

Section Calendar_facts.
Import ES JS Calendar.

Lemma valid_civilb_spec (y m d : Z) : valid_civilb y m d = true <-> valid_civil y m d.
Proof. unfold valid_civilb, valid_civil. rewrite !andb_true_iff, !Z.leb_le. tauto. Qed.

Lemma leap_cases (y : Z) : leap y = 0 /\ DaysInYear y = 365 \/ leap y = 1 /\ DaysInYear y = 366.
Proof.
  unfold leap. destruct (DaysInYear_cases y) as [E | E]; rewrite E; cbn; auto.
Qed.

Lemma DayFromYear_le (a b : Z) : a <= b -> DayFromYear a <= DayFromYear b.
Proof. unfold DayFromYear. lia. Qed.

Lemma YearFromDay_unique (y day : Z) :
  DayFromYear y <= day < DayFromYear (y + 1) -> YearFromDay day = y.
Proof.
  intros H. pose proof (YearFromDay_spec day) as S.
  destruct (Z.lt_trichotomy (YearFromDay day) y) as [L | [E | G]]; [ | exact E | ].
  - pose proof (DayFromYear_le (YearFromDay day + 1) y ltac:(lia)). lia.
  - pose proof (DayFromYear_le (y + 1) (YearFromDay day) ltac:(lia)). lia.
Qed.

Lemma YearFromDay_mono (a b : Z) : a <= b -> YearFromDay a <= YearFromDay b.
Proof.
  intros H. pose proof (YearFromDay_spec a) as Sa. pose proof (YearFromDay_spec b) as Sb.
  destruct (Z.le_gt_cases (YearFromDay a) (YearFromDay b)) as [L | G]; [exact L | ].
  pose proof (DayFromYear_le (YearFromDay b + 1) (YearFromDay a) ltac:(lia)). lia.
Qed.

Lemma month_start_bound (y m d : Z) :
  valid_civil y m d ->
  0 <= month_start (m - 1) (leap y) + d - 1 < DaysInYear y.
Proof.
  unfold valid_civil, days_in_month. intros [Hm Hd].
  destruct (leap_cases y) as [[L D] | [L D]]; rewrite L, D in *;
    month_cases m; norm_month; lia.
Qed.

Lemma month_of_start (m l d : Z) :
  l = 0 \/ l = 1 ->
  1 <= m <= 12 ->
  1 <= d <= match m with 2 => 28 + l | 4 | 6 | 9 | 11 => 30 | _ => 31 end ->
  month_of (month_start (m - 1) l + d - 1) l = m - 1.
Proof.
  intros Hl Hm Hd. unfold month_of.
  month_cases m; norm_month; split_ltb.
Qed.

(** The year, month and day of the day number of a calendar date. *)
Lemma YearFromDay_civil (y m d : Z) :
  valid_civil y m d -> YearFromDay (civil_day y m d) = y.
Proof.
  intros V. apply YearFromDay_unique. rewrite DayFromYear_succ.
  pose proof (month_start_bound y m d V). unfold civil_day. lia.
Qed.

Lemma MonthFromDay_civil (y m d : Z) :
  valid_civil y m d -> MonthFromDay (civil_day y m d) = m - 1.
Proof.
  intros V. unfold MonthFromDay, DayWithinYearDay, InLeapYearDay.
  rewrite (YearFromDay_civil y m d V). fold (leap y).
  replace (civil_day y m d - DayFromYear y) with (month_start (m - 1) (leap y) + d - 1)
    by (unfold civil_day; lia).
  destruct V as [Hm Hd]. apply month_of_start; auto.
  destruct (leap_cases y) as [[L _] | [L _]]; auto.
Qed.

Lemma DateFromDay_civil (y m d : Z) :
  valid_civil y m d -> DateFromDay (civil_day y m d) = d.
Proof.
  intros V. unfold DateFromDay. rewrite (MonthFromDay_civil y m d V).
  unfold DayWithinYearDay, InLeapYearDay. rewrite (YearFromDay_civil y m d V).
  fold (leap y). unfold civil_day. lia.
Qed.

End Calendar_facts.

Section Day_to_civil.
Import ES JS Calendar.

Lemma InLeapYearDay_leap (k : Z) : InLeapYearDay k = leap (YearFromDay k).
Proof. reflexivity. Qed.

Lemma DayWithinYear_bound (k : Z) :
  0 <= DayWithinYearDay k < 365 + InLeapYearDay k.
Proof.
  unfold DayWithinYearDay. rewrite InLeapYearDay_leap.
  pose proof (YearFromDay_spec k) as S. rewrite DayFromYear_succ in S.
  destruct (leap_cases (YearFromDay k)) as [[L D] | [L D]]; lia.
Qed.

(** Every day number is the day number of the calendar date read off it. *)
Lemma civil_day_of_day (k : Z) :
  civil_day (YearFromDay k) (MonthFromDay k + 1) (DateFromDay k) = k.
Proof.
  unfold civil_day, DateFromDay, DayWithinYearDay.
  rewrite InLeapYearDay_leap. replace (MonthFromDay k + 1 - 1) with (MonthFromDay k) by lia.
  lia.
Qed.

Lemma valid_civil_of_day (k : Z) :
  valid_civil (YearFromDay k) (MonthFromDay k + 1) (DateFromDay k).
Proof.
  unfold valid_civil, DateFromDay, MonthFromDay, days_in_month.
  pose proof (DayWithinYear_bound k) as B. rewrite InLeapYearDay_leap in *.
  set (w := DayWithinYearDay k) in *. set (l := leap (YearFromDay k)) in *.
  assert (Hl : l = 0 \/ l = 1)
    by (subst l; destruct (leap_cases (YearFromDay k)) as [[L _] | [L _]]; auto).
  unfold month_of.
  destruct Hl as [-> | ->]; split_ltb; cbn; lia.
Qed.

Lemma MonthFromDay_bound (k : Z) : 0 <= MonthFromDay k <= 11.
Proof. pose proof (valid_civil_of_day k) as [H _]. lia. Qed.

Lemma Day_scaled (k : Z) : Day (k * msPerDay) = k.
Proof. unfold Day, msPerDay. lia. Qed.

(** [setUTCDate(getUTCDate() + n)] moves a valid time value by [n] days,
    up to the final clip. *)
Lemma MakeDay_month (y m x : Z) :
  0 <= m <= 11 ->
  MakeDay (Some y) (Some m) (Some x) = Some (civil_day y (m + 1) x).
Proof.
  intros Hm. unfold MakeDay, civil_day, leap.
  rewrite Z.div_small, Z.mod_small, Z.add_0_r, Z.add_simpl_r by lia. reflexivity.
Qed.

Lemma MakeDay_in_month (k x : Z) :
  MakeDay (Some (YearFromDay k)) (Some (MonthFromDay k)) (Some x) =
  Some (k - DateFromDay k + x).
Proof.
  rewrite MakeDay_month by apply MonthFromDay_bound. f_equal.
  unfold DateFromDay, civil_day. rewrite Z.add_simpl_r.
  unfold DayWithinYearDay. rewrite InLeapYearDay_leap. ring.
Qed.

Lemma setUTCDate_add (t n : Z) :
  setUTCDate (Some t) (add (getUTCDate (Some t)) (Some n)) =
  TimeClip (Some (t + n * msPerDay)).
Proof.
  unfold setUTCDate, getUTCDate, add, YearFromTime, MonthFromTime, DateFromTime.
  rewrite MakeDay_in_month. unfold MakeDate. do 2 f_equal.
  unfold TimeWithinDay, Day.
  pose proof (Z.div_mod t msPerDay ltac:(discriminate)) as D.
  set (q := t / msPerDay) in *. set (r := t mod msPerDay) in *.
  generalize dependent (DateFromDay q). intros x. lia.
Qed.

(** [Date.UTC] on a year, a month from 1 to 12 and a day. *)
Lemma Date_UTC_fields (y m d : Z) :
  1 <= m <= 12 ->
  Date_UTC (Some y) (Some (m - 1)) (Some d) =
  TimeClip (Some (civil_day (full_year y) m d * msPerDay)).
Proof.
  intros Hm. unfold Date_UTC, MakeFullYear, MakeDay, MakeDate, full_year.
  destruct ((0 <=? y) && (y <=? 99));
    replace ((m - 1) / 12) with 0 by lia;
    replace ((m - 1) mod 12) with (m - 1) by lia;
    rewrite !Z.add_0_r; reflexivity.
Qed.

Lemma full_year_ge_100 (y : Z) : 100 <= y -> full_year y = y.
Proof.
  intros H. unfold full_year.
  destruct (Z.leb_spec 0 y); destruct (Z.leb_spec y 99); cbn [andb]; lia.
Qed.

Lemma full_year_bounds (y : Z) : 0 <= y <= 9999 -> 100 <= full_year y <= 9999.
Proof.
  intros H. unfold full_year.
  destruct (Z.leb_spec 0 y); destruct (Z.leb_spec y 99); cbn [andb]; lia.
Qed.

(** A day field up to 31 stays inside the year, whatever the month. *)
Lemma civil_day_in_year (y m d : Z) :
  1 <= m <= 12 -> 1 <= d <= 31 ->
  DayFromYear y <= civil_day y m d < DayFromYear (y + 1).
Proof.
  intros Hm Hd. rewrite DayFromYear_succ. unfold civil_day.
  destruct (leap_cases y) as [[L D] | [L D]]; rewrite L, D;
    month_cases m; norm_month; lia.
Qed.

Lemma TimeClip_idem (t : num) : TimeClip (TimeClip t) = TimeClip t.
Proof.
  destruct t as [v | ]; cbn; [ | reflexivity].
  destruct (Z.abs v <=? maxTime) eqn:E; cbn; [rewrite E | ]; reflexivity.
Qed.

Lemma TimeClip_in_range (v : Z) :
  - maxTime <= v <= maxTime -> TimeClip (Some v) = Some v.
Proof.
  intros H. unfold TimeClip.
  destruct (Z.leb_spec (Z.abs v) maxTime); [reflexivity | lia].
Qed.

End Day_to_civil.

(* ================================================================== *)
(** ** Facts on [split], [parseInt], [Number] and the ISO format        *)
(* ================================================================== *)

Section String_facts.
Import ES JS Calendar.

Local Open Scope string_scope.
Local Open Scope Z_scope.

Lemma has_char_app (c : ascii) (s1 s2 : string) :
  has_char c (s1 ++ s2) = has_char c s1 || has_char c s2.
Proof.
  induction s1 as [ | a r IH]; cbn; [reflexivity | ].
  rewrite IH. apply orb_assoc.
Qed.

Lemma split_no_sep (sep : ascii) (s : string) :
  has_char sep s = false -> split sep s = [s].
Proof.
  induction s as [ | a r IH]; cbn; [reflexivity | ].
  intros H. apply orb_false_iff in H as [Ha Hr].
  rewrite Ha, (IH Hr). reflexivity.
Qed.

Lemma split_app (sep : ascii) (s1 s2 : string) :
  has_char sep s1 = false ->
  split sep (s1 ++ String sep s2) = s1 :: split sep s2.
Proof.
  induction s1 as [ | a r IH]; cbn.
  - intros _. rewrite Ascii.eqb_refl. reflexivity.
  - intros H. apply orb_false_iff in H as [Ha Hr].
    rewrite Ha, (IH Hr). reflexivity.
Qed.

Lemma is_digit_not_space (c : ascii) : is_digit c = true -> is_space c = false.
Proof.
  destruct c as [[] [] [] [] [] [] [] []]; intros H; vm_compute in H |- *;
    congruence.
Qed.

Lemma is_digit_strip_sign (c : ascii) (r : string) :
  is_digit c = true -> strip_sign (String c r) = (1, String c r).
Proof.
  destruct c as [[] [] [] [] [] [] [] []]; intros H; vm_compute in H;
    try discriminate H; reflexivity.
Qed.

Lemma is_digit_neq (c x : ascii) :
  is_digit c = true -> is_digit x = false -> Ascii.eqb c x = false.
Proof.
  intros Hc Hx. destruct (Ascii.eqb_spec c x) as [-> | ]; congruence.
Qed.

Lemma digit_char_digit (k : Z) :
  0 <= k <= 9 -> is_digit (digit_char k) = true /\ digit_val (digit_char k) = k.
Proof.
  intros H.
  assert (C : k = 0 \/ k = 1 \/ k = 2 \/ k = 3 \/ k = 4 \/ k = 5 \/ k = 6 \/
              k = 7 \/ k = 8 \/ k = 9) by lia.
  destruct C as [C | [C | [C | [C | [C | [C | [C | [C | [C | C]]]]]]]]];
    subst k; split; reflexivity.
Qed.

Lemma all_digits_app (a b : string) :
  all_digits (a ++ b) = all_digits a && all_digits b.
Proof.
  induction a as [ | x r IH]; cbn; [reflexivity | ].
  rewrite IH. apply andb_assoc.
Qed.

Lemma all_digits_pad (w : nat) (v : Z) : all_digits (pad w v) = true.
Proof.
  revert v. induction w as [ | w IH]; intros v; cbn [pad]; [reflexivity | ].
  rewrite all_digits_app, IH. cbn [all_digits andb].
  destruct (digit_char_digit (v mod 10)) as [D _]; [lia | ]. now rewrite D.
Qed.

Lemma digits_value_app (acc : Z) (a b : string) :
  digits_value acc (a ++ b) = digits_value (digits_value acc a) b.
Proof.
  revert acc. induction a as [ | x r IH]; intros acc; cbn; [reflexivity | apply IH].
Qed.

Lemma digits_value_pad (w : nat) (v : Z) :
  0 <= v < 10 ^ Z.of_nat w -> digits_value 0 (pad w v) = v.
Proof.
  revert v. induction w as [ | w IH]; intros v H.
  - cbn in *. lia.
  - cbn [pad]. rewrite digits_value_app.
    rewrite Nat2Z.inj_succ, Z.pow_succ_r in H by lia.
    rewrite IH by lia. cbn [digits_value].
    destruct (digit_char_digit (v mod 10)) as [_ D]; [lia | ]. rewrite D. lia.
Qed.

Lemma pad_nonempty (w : nat) (v : Z) : pad (S w) v <> EmptyString.
Proof. cbn [pad]. destruct (pad w (v / 10)); discriminate. Qed.

Lemma take_digits_all (s : string) : all_digits s = true -> take_digits s = s.
Proof.
  induction s as [ | c r IH]; cbn; [reflexivity | ].
  intros H. apply andb_true_iff in H as [Hc Hr]. now rewrite Hc, IH.
Qed.

Lemma has_char_digits (c : ascii) (s : string) :
  all_digits s = true -> is_digit c = false -> has_char c s = false.
Proof.
  induction s as [ | a r IH]; cbn; [reflexivity | ].
  intros H Hc. apply andb_true_iff in H as [Ha Hr].
  now rewrite (is_digit_neq a c Ha Hc), IH.
Qed.

Lemma parseInt_digits (s : string) :
  all_digits s = true -> s <> EmptyString -> parseInt s = Some (digits_value 0 s).
Proof.
  destruct s as [ | c r]; [congruence | ]. intros H _.
  pose proof H as H'. cbn in H'. apply andb_true_iff in H' as [Hc Hr].
  unfold parseInt. cbn [trim_start]. rewrite (is_digit_not_space c Hc).
  rewrite (is_digit_strip_sign c r Hc), (take_digits_all _ H).
  f_equal. lia.
Qed.

Lemma parseInt_plus_digits (s : string) :
  all_digits s = true -> s <> EmptyString ->
  parseInt (String "+" s) = Some (digits_value 0 s).
Proof.
  intros H Hs. unfold parseInt. cbn [trim_start].
  change (is_space "+") with false. cbn [strip_sign].
  rewrite (take_digits_all _ H). destruct s as [ | c r]; [congruence | ].
  f_equal. lia.
Qed.

Lemma append_nil_r (s : string) : s ++ "" = s.
Proof. induction s as [ | c r IH]; cbn; [reflexivity | now rewrite IH]. Qed.

Lemma skip_digits_all (s : string) : all_digits s = true -> skip_digits s = "".
Proof.
  induction s as [ | c r IH]; cbn; [reflexivity | ].
  intros H. apply andb_true_iff in H as [Hc Hr]. now rewrite Hc, IH.
Qed.

Lemma trim_end_digits (s : string) : all_digits s = true -> trim_end s = s.
Proof.
  induction s as [ | c r IH]; [reflexivity | ].
  intros H. pose proof H as H'. cbn in H'. apply andb_true_iff in H' as [Hc Hr].
  cbn [trim_end all_space]. rewrite (is_digit_not_space c Hc). cbn [andb].
  now rewrite IH.
Qed.

Lemma digits_value_nonneg (s : string) (acc : Z) :
  all_digits s = true -> 0 <= acc -> 0 <= digits_value acc s.
Proof.
  revert acc. induction s as [ | c r IH]; intros acc H Ha; cbn [digits_value];
    [exact Ha | ].
  cbn [all_digits] in H. apply andb_true_iff in H as [Hc Hr]. apply IH; [exact Hr | ].
  unfold is_digit in Hc. cbv zeta in Hc. apply andb_true_iff in Hc as [L _].
  apply Nat.leb_le in L. unfold digit_val. lia.
Qed.

Lemma radix_literal_digits (s : string) : all_digits s = true -> radix_literal s = None.
Proof.
  destruct s as [ | z [ | c [ | d r]]]; try reflexivity.
  intros H. cbn in H. apply andb_true_iff in H as [_ H].
  apply andb_true_iff in H as [Hc _]. unfold radix_literal.
  rewrite !(is_digit_neq c _ Hc) by reflexivity.
  now destruct (negb (Ascii.eqb z "0")).
Qed.

Lemma decimal_digits (s : string) :
  all_digits s = true -> s <> "" -> decimal s = Some (s, 0).
Proof.
  intros H Hs. unfold decimal.
  rewrite (take_digits_all _ H), (skip_digits_all _ H), append_nil_r.
  destruct s as [ | c r]; [congruence | reflexivity].
Qed.

Lemma one_in_units_pos : 0 < one_in_units.
Proof. unfold one_in_units. apply Z.pow_pos_nonneg; lia. Qed.

(** A whole number below 2^53 is a double. *)
Lemma nearest_exact (w q : Z) :
  0 < q -> 0 <= w < 2 ^ 53 -> nearest (w * q) q = Some (w * one_in_units).
Proof.
  intros Hq Hw. unfold nearest.
  replace (w * q * one_in_units / q) with (w * one_in_units)
    by (replace (w * q * one_in_units) with (w * one_in_units * q) by ring;
        now rewrite Z.div_mul by lia).
  assert (B : 2 ^ 53 * one_in_units <= 2 ^ 2098)
    by (apply Z.leb_le; vm_compute; reflexivity).
  pose proof one_in_units_pos as U.
  assert (P2 : 0 < 2 ^ 2098) by (apply Z.pow_pos_nonneg; lia).
  destruct (Z.eq_dec w 0) as [-> | Hn].
  - cbn [Z.mul]. change (Z.log2 0) with 0. cbn [Z.sub Z.opp Z.add Z.max Z.compare].
    unfold div_nearest_even. rewrite Z.pow_0_r, !Z.mul_1_r.
    rewrite Zdiv_0_l, Zmod_0_l. cbn [Z.mul].
    destruct (Z.ltb_spec 0 q); [ | lia].
    destruct (Z.ltb_spec 0 (2 ^ 2098)); [reflexivity | lia].
  - assert (L : Z.log2 (w * one_in_units) = 1074 + Z.log2 w)
      by (unfold one_in_units; apply Z.log2_mul_pow2; lia).
    assert (Lw : Z.log2 w < 53) by (apply Z.log2_lt_pow2; lia).
    pose proof (Z.log2_nonneg w) as L0.
    rewrite L. set (j := 52 - Z.log2 w).
    replace (Z.max 0 (1074 + Z.log2 w - 52)) with (1074 - j) by lia.
    assert (E : one_in_units = 2 ^ j * 2 ^ (1074 - j)).
    { unfold one_in_units. rewrite <- Z.pow_add_r by lia. f_equal. lia. }
    assert (P : 0 < 2 ^ (1074 - j)) by (apply Z.pow_pos_nonneg; lia).
    set (u := 2 ^ (1074 - j)) in *.
    unfold div_nearest_even.
    replace (w * q * one_in_units) with (w * 2 ^ j * (q * u)) by (rewrite E; ring).
    rewrite Z.div_mul, Z.mod_mul by lia.
    destruct (Z.ltb_spec (2 * 0) (q * u)); [ | nia].
    replace (w * 2 ^ j * u) with (w * one_in_units) by (rewrite E; ring).
    destruct (Z.ltb_spec (w * one_in_units) (2 ^ 2098)); [reflexivity | nia].
Qed.

Lemma round_ratio_exact (w q : Z) :
  0 < q -> 0 <= w < 2 ^ 53 -> round_ratio false (w * q) q = of_Z w.
Proof. intros Hq Hw. unfold round_ratio. now rewrite nearest_exact. Qed.

Lemma integral_of_Z (z : Z) : integral (of_Z z) = Some z.
Proof.
  unfold integral, of_Z. pose proof one_in_units_pos. now rewrite Z.quot_mul by lia.
Qed.

(** The subtraction of whole numbers below 2^53 is exact. *)
Lemma fsub_of_Z (a b : Z) :
  - 2 ^ 53 < a - b < 2 ^ 53 -> fsub (of_Z a) (of_Z b) = of_Z (a - b).
Proof.
  intros H. unfold fsub, of_Z, round_units, round_ratio.
  pose proof one_in_units_pos as U.
  replace (a * one_in_units - b * one_in_units) with ((a - b) * one_in_units) by ring.
  rewrite Z.abs_mul, (Z.abs_eq one_in_units) by lia.
  rewrite nearest_exact by lia.
  destruct (Z.ltb_spec ((a - b) * one_in_units) 0); f_equal; nia.
Qed.

Lemma Number_digits (s : string) :
  all_digits s = true -> s <> EmptyString -> digits_value 0 s < 2 ^ 53 ->
  Number s = of_Z (digits_value 0 s).
Proof.
  destruct s as [ | c r]; [congruence | ]. intros H _ B.
  pose proof H as H'. cbn in H'. apply andb_true_iff in H' as [Hc Hr].
  pose proof (digits_value_nonneg _ 0 H ltac:(lia)) as N.
  unfold Number. cbn [trim_start]. rewrite (is_digit_not_space c Hc).
  rewrite (trim_end_digits _ H), (radix_literal_digits _ H).
  rewrite (is_digit_strip_sign c r Hc).
  change (String.eqb (String c r) "Infinity")
    with (Ascii.eqb c "I" && String.eqb r "nfinity").
  rewrite (is_digit_neq c "I" Hc) by reflexivity. cbn [andb].
  rewrite (decimal_digits _ H) by discriminate.
  unfold decimal_value. set (m := digits_value 0 (String c r)) in *.
  destruct (Z.eqb_spec m 0) as [-> | Hm]; [reflexivity | ].
  change (400 <? 0) with false. cbv iota.
  destruct (Z.ltb_spec (0 + Z.of_nat (String.length (String c r))) (-400)); [lia | ].
  change (0 <=? 0) with true. cbv iota.
  change (1 <? 0) with false. rewrite Z.pow_0_r.
  apply (round_ratio_exact m 1); lia.
Qed.

Lemma Number_plus_digits (s : string) :
  all_digits s = true -> s <> EmptyString -> digits_value 0 s < 2 ^ 53 ->
  Number (String "+" s) = of_Z (digits_value 0 s).
Proof.
  intros H Hs B. pose proof (digits_value_nonneg _ 0 H ltac:(lia)) as N.
  unfold Number. cbn [trim_start]. change (is_space "+") with false. cbv iota.
  assert (T : trim_end (String "+" s) = String "+" s).
  { cbn [trim_end all_space]. change (is_space "+") with false. cbn [andb].
    now rewrite (trim_end_digits _ H). }
  rewrite T.
  assert (R : radix_literal (String "+" s) = None).
  { unfold radix_literal. destruct s as [ | c [ | d r]]; reflexivity. }
  rewrite R. cbn [strip_sign].
  destruct s as [ | c r]; [congruence | ].
  pose proof H as H'. cbn in H'. apply andb_true_iff in H' as [Hc Hr].
  change (String.eqb (String c r) "Infinity")
    with (Ascii.eqb c "I" && String.eqb r "nfinity").
  rewrite (is_digit_neq c "I" Hc) by reflexivity. cbn [andb].
  rewrite (decimal_digits _ H) by discriminate.
  unfold decimal_value. set (m := digits_value 0 (String c r)) in *.
  destruct (Z.eqb_spec m 0) as [-> | Hm]; [reflexivity | ].
  change (400 <? 0) with false. cbv iota.
  destruct (Z.ltb_spec (0 + Z.of_nat (String.length (String c r))) (-400)); [lia | ].
  change (0 <=? 0) with true. cbv iota.
  change (1 <? 0) with false. rewrite Z.pow_0_r.
  apply (round_ratio_exact m 1); lia.
Qed.

End String_facts.

Section Iso_facts.
Import ES JS Calendar DateUtils.

Local Open Scope string_scope.
Local Open Scope Z_scope.

Lemma all_digits_no_char (c : ascii) (w : nat) (v : Z) :
  is_digit c = false -> has_char c (pad w v) = false.
Proof. intros H. apply has_char_digits; [apply all_digits_pad | exact H]. Qed.

Lemma iso_year_no_dash (y : Z) : 0 <= y -> has_char "-" (iso_year y) = false.
Proof.
  intros H. unfold iso_year.
  destruct ((0 <=? y) && (y <=? 9999)); [now apply all_digits_no_char | ].
  destruct (Z.ltb_spec y 0); [lia | ].
  cbn [has_char]. change (Ascii.eqb "+" "-") with false. cbn [orb].
  now apply all_digits_no_char.
Qed.

Lemma iso_year_no_T (y : Z) : has_char "T" (iso_year y) = false.
Proof.
  unfold iso_year.
  destruct ((0 <=? y) && (y <=? 9999)); [now apply all_digits_no_char | ].
  destruct (y <? 0); cbn [has_char];
    [change (Ascii.eqb "-" "T") with false | change (Ascii.eqb "+" "T") with false];
    cbn [orb]; now apply all_digits_no_char.
Qed.

Lemma iso_date_no_T (y m d : Z) : has_char "T" (iso_date y m d) = false.
Proof.
  unfold iso_date. rewrite !has_char_app, iso_year_no_T.
  rewrite !all_digits_no_char by reflexivity. reflexivity.
Qed.

Lemma parseInt_iso_year (y : Z) : 0 <= y <= 999999 -> parseInt (iso_year y) = Some y.
Proof.
  intros H. unfold iso_year.
  destruct (Z.leb_spec 0 y); [ | lia]. destruct (Z.leb_spec y 9999); cbn [andb].
  - rewrite parseInt_digits by (apply all_digits_pad || apply pad_nonempty).
    rewrite digits_value_pad; [reflexivity | change (10 ^ Z.of_nat 4) with 10000; lia].
  - destruct (Z.ltb_spec y 0); [lia | ].
    rewrite parseInt_plus_digits by (apply all_digits_pad || apply pad_nonempty).
    rewrite digits_value_pad; [reflexivity | change (10 ^ Z.of_nat 6) with 1000000; lia].
Qed.

Lemma Number_iso_year (y : Z) : 0 <= y <= 9999 -> Number (iso_year y) = of_Z y.
Proof.
  intros H. unfold iso_year.
  destruct (Z.leb_spec 0 y); [ | lia]. destruct (Z.leb_spec y 9999); [ | lia]. cbn [andb].
  assert (D : digits_value 0 (pad 4 y) = y)
    by (apply digits_value_pad; change (10 ^ Z.of_nat 4) with 10000; lia).
  rewrite Number_digits; rewrite ?D;
    [reflexivity | apply all_digits_pad | apply pad_nonempty | ].
  change (2 ^ 53) with 9007199254740992. lia.
Qed.

Lemma parseInt_pad2 (v : Z) : 0 <= v <= 99 -> parseInt (pad 2 v) = Some v.
Proof.
  intros H. rewrite parseInt_digits by (apply all_digits_pad || apply pad_nonempty).
  rewrite digits_value_pad; [reflexivity | change (10 ^ Z.of_nat 2) with 100; lia].
Qed.

Lemma Number_pad2 (v : Z) : 0 <= v <= 99 -> Number (pad 2 v) = of_Z v.
Proof.
  intros H.
  assert (D : digits_value 0 (pad 2 v) = v)
    by (apply digits_value_pad; change (10 ^ Z.of_nat 2) with 100; lia).
  rewrite Number_digits; rewrite ?D;
    [reflexivity | apply all_digits_pad | apply pad_nonempty | ].
  change (2 ^ 53) with 9007199254740992. lia.
Qed.

(** The three fields of a date string. *)
Lemma split_iso_date (y m d : Z) :
  0 <= y -> split "-" (iso_date y m d) = [iso_year y; pad 2 m; pad 2 d].
Proof.
  intros H. unfold iso_date.
  change (iso_year y ++ "-" ++ pad 2 m ++ "-" ++ pad 2 d)
    with (iso_year y ++ String "-" (pad 2 m ++ String "-" (pad 2 d))).
  rewrite split_app by now apply iso_year_no_dash.
  rewrite split_app by now apply all_digits_no_char.
  rewrite split_no_sep by now apply all_digits_no_char.
  reflexivity.
Qed.

(** The date part of [toISOString]. *)
Lemma dateStr_of_time (t : Z) : dateStr_of (Some t) = Ok (iso_of_day (Day t)).
Proof.
  unfold dateStr_of, toISOString.
  set (dstr := iso_date _ _ _).
  change (dstr ++ "T" ++ iso_time t ++ "Z") with (dstr ++ String "T" (iso_time t ++ "Z")).
  rewrite split_app by apply iso_date_no_T. reflexivity.
Qed.

Lemma valid_civil_day_bounds (y m d : Z) :
  valid_civil y m d -> 1 <= d <= 31.
Proof.
  unfold valid_civil, days_in_month. intros [Hm Hd].
  destruct (leap_cases y) as [[L _] | [L _]]; rewrite L in *; month_cases m; lia.
Qed.

Lemma TimeClip_day (k : Z) :
  - maxDay <= k <= maxDay -> TimeClip (Some (k * msPerDay)) = Some (k * msPerDay).
Proof.
  intros H. apply TimeClip_in_range. unfold maxTime, maxDay, msPerDay in *. lia.
Qed.

Lemma TimeClip_day_out (k : Z) :
  ~ - maxDay <= k <= maxDay -> TimeClip (Some (k * msPerDay)) = None.
Proof.
  intros H. unfold TimeClip.
  destruct (Z.leb_spec (Z.abs (k * msPerDay)) maxTime); [ | reflexivity].
  unfold maxTime, maxDay, msPerDay in *. lia.
Qed.

Lemma addDays_unfold (s : string) (n : Z) :
  addDays s n =
  let parts := split "-" s in
  dateStr_of
    (setUTCDate
       (Date_new (Date_UTC (parseInt (ToString (index parts 0)))
                           (sub (parseInt (ToString (index parts 1))) (Some 1))
                           (parseInt (ToString (index parts 2)))))
       (add (getUTCDate
               (Date_new (Date_UTC (parseInt (ToString (index parts 0)))
                                   (sub (parseInt (ToString (index parts 1))) (Some 1))
                                   (parseInt (ToString (index parts 2))))))
            (Some n))).
Proof. reflexivity. Qed.

(** [addDays] on a date string, whatever year [Date.UTC] reads. *)
Lemma addDays_fields (y m d n : Z) :
  0 <= y <= 999999 -> 1 <= m <= 12 -> 0 <= d <= 99 ->
  - maxDay <= civil_day (full_year y) m d <= maxDay ->
  addDays (iso_date y m d) n =
  if (- maxDay <=? civil_day (full_year y) m d + n)
     && (civil_day (full_year y) m d + n <=? maxDay)
  then Ok (iso_of_day (civil_day (full_year y) m d + n))
  else Throw RangeError.
Proof.
  intros Hy Hm Hd Hk. set (k := civil_day (full_year y) m d) in *.
  rewrite addDays_unfold. cbv zeta. rewrite split_iso_date by lia.
  cbn [index nth_error ToString].
  rewrite parseInt_iso_year, !parseInt_pad2 by lia. cbn [sub].
  rewrite Date_UTC_fields by exact Hm. fold k.
  unfold Date_new. rewrite TimeClip_idem, TimeClip_day by exact Hk.
  rewrite setUTCDate_add.
  replace (k * msPerDay + n * msPerDay) with ((k + n) * msPerDay) by lia.
  destruct (Z.leb_spec (- maxDay) (k + n)); destruct (Z.leb_spec (k + n) maxDay);
    cbn [andb].
  - rewrite TimeClip_day by lia. now rewrite dateStr_of_time, Day_scaled.
  - rewrite TimeClip_day_out by lia. reflexivity.
  - rewrite TimeClip_day_out by lia. reflexivity.
  - lia.
Qed.

Lemma YearFromDay_100 (k : Z) : DayFromYear 100 <= k -> 100 <= YearFromDay k.
Proof.
  intros H. rewrite <- (YearFromDay_unique 100 (DayFromYear 100)).
  - now apply YearFromDay_mono.
  - rewrite DayFromYear_succ. pose proof (DaysInYear_cases 100). lia.
Qed.

Lemma YearFromDay_max (k : Z) : k <= maxDay -> YearFromDay k <= 275760.
Proof.
  intros H. rewrite <- (YearFromDay_unique 275760 maxDay).
  - now apply YearFromDay_mono.
  - split; [apply Z.leb_le | apply Z.ltb_lt]; vm_compute; reflexivity.
Qed.

Lemma iso_of_day_civil (y m d : Z) :
  valid_civil y m d -> iso_of_day (civil_day y m d) = iso_date y m d.
Proof.
  intros V. unfold iso_of_day.
  rewrite YearFromDay_civil, MonthFromDay_civil, DateFromDay_civil by exact V.
  f_equal. lia.
Qed.

(** [addDays] on the string of a day number. *)
Lemma addDays_of_day (k n : Z) :
  DayFromYear 100 <= k <= maxDay ->
  addDays (iso_of_day k) n =
  if (- maxDay <=? k + n) && (k + n <=? maxDay)
  then Ok (iso_of_day (k + n))
  else Throw RangeError.
Proof.
  intros H. unfold iso_of_day at 1.
  pose proof (valid_civil_of_day k) as V. pose proof (civil_day_of_day k) as C.
  pose proof (YearFromDay_100 k ltac:(lia)). pose proof (YearFromDay_max k ltac:(lia)).
  pose proof (valid_civil_day_bounds _ _ _ V). destruct V as [Vm _].
  assert (D100 : -684000 <= DayFromYear 100) by (apply Z.leb_le; vm_compute; reflexivity).
  rewrite addDays_fields; rewrite ?full_year_ge_100, ?C; auto; unfold maxDay in *; lia.
Qed.

Lemma Number_iso_year_wide (y : Z) : 0 <= y <= 999999 -> Number (iso_year y) = of_Z y.
Proof.
  intros H. destruct (Z.le_gt_cases y 9999) as [L | G]; [apply Number_iso_year; lia | ].
  unfold iso_year.
  destruct (Z.leb_spec 0 y); [ | lia]. destruct (Z.leb_spec y 9999); [lia | ]. cbn [andb].
  destruct (Z.ltb_spec y 0); [lia | ].
  assert (D : digits_value 0 (pad 6 y) = y)
    by (apply digits_value_pad; change (10 ^ Z.of_nat 6) with 1000000; lia).
  rewrite Number_plus_digits; rewrite ?D;
    [reflexivity | apply all_digits_pad | apply pad_nonempty | ].
  change (2 ^ 53) with 9007199254740992. lia.
Qed.

(** The numbers [Date.UTC] takes from the fields of a date string. *)
Lemma integral_month (m : Z) :
  0 <= m <= 99 -> integral (fsub (of_Z m) (of_Z 1)) = Some (m - 1).
Proof.
  intros H. rewrite fsub_of_Z, integral_of_Z; [reflexivity | ].
  change (2 ^ 53) with 9007199254740992. lia.
Qed.

(** The Date [getDaysArray] reads a date string as. *)
Lemma utc_of_fields (y m d : Z) :
  0 <= y <= 999999 -> 1 <= m <= 12 -> 0 <= d <= 99 ->
  utc_of_str (iso_date y m d) = TimeClip (Some (civil_day (full_year y) m d * msPerDay)).
Proof.
  intros Hy Hm Hd. unfold utc_of_str. rewrite split_iso_date by lia.
  cbn [map index nth_error ToNumber].
  rewrite Number_iso_year_wide, !Number_pad2 by lia.
  rewrite integral_month, !integral_of_Z by lia.
  rewrite Date_UTC_fields by exact Hm. unfold Date_new. apply TimeClip_idem.
Qed.

Lemma civil_of_str_spec (s : string) (y m d : Z) :
  civil_of_str s = Some (y, m, d) ->
  s = iso_date y m d /\ valid_civil y m d /\ 0 <= y <= 9999.
Proof.
  unfold civil_of_str.
  destruct (map parseInt (split "-" s)) as [ | [y' | ] [ | [m' | ] [ | [d' | ] [ | ? ?]]]];
    try discriminate.
  destruct (valid_civilb y' m' d' && (0 <=? y') && (y' <=? 9999)
            && String.eqb s (iso_date y' m' d')) eqn:E; [ | discriminate].
  intros [= <- <- <-].
  rewrite !andb_true_iff, !Z.leb_le, String.eqb_eq, valid_civilb_spec in E. tauto.
Qed.

Lemma civil_of_iso_date (y m d : Z) :
  valid_civil y m d -> 0 <= y <= 9999 -> civil_of_str (iso_date y m d) = Some (y, m, d).
Proof.
  intros V Hy. pose proof (valid_civil_day_bounds y m d V) as Hd. pose proof V as [Hm _].
  unfold civil_of_str. rewrite split_iso_date by lia. cbn [map].
  rewrite parseInt_iso_year, !parseInt_pad2 by lia.
  apply valid_civilb_spec in V. rewrite V, String.eqb_refl.
  destruct (Z.leb_spec 0 y); [ | lia]. destruct (Z.leb_spec y 9999); [ | lia].
  reflexivity.
Qed.

(** The day number [Date.UTC] gives a date string: that of the date with
    the year read by [full_year]. *)
Lemma read_day_bounds (y m d : Z) :
  valid_civil y m d -> 0 <= y <= 9999 ->
  DayFromYear 100 <= civil_day (full_year y) m d < DayFromYear 10000.
Proof.
  intros V Hy. pose proof (valid_civil_day_bounds y m d V) as Hd. pose proof V as [Hm _].
  pose proof (full_year_bounds y Hy) as Hf.
  pose proof (civil_day_in_year (full_year y) m d Hm Hd).
  pose proof (DayFromYear_le 100 (full_year y) ltac:(lia)).
  pose proof (DayFromYear_le (full_year y + 1) 10000 ltac:(lia)). lia.
Qed.

Lemma DayFromYear_100 : DayFromYear 100 = -683003.
Proof. reflexivity. Qed.

Lemma DayFromYear_10000 : DayFromYear 10000 = 2932897.
Proof. reflexivity. Qed.

Lemma day_0100_eq : day_0100 = DayFromYear 100.
Proof. reflexivity. Qed.

Lemma addDays_date (s : string) (y m d n : Z) :
  civil_of_str s = Some (y, m, d) ->
  - maxDay <= civil_day (full_year y) m d + n <= maxDay ->
  addDays s n = Ok (iso_of_day (civil_day (full_year y) m d + n)).
Proof.
  intros Hs Hn. apply civil_of_str_spec in Hs as (-> & V & Hy).
  pose proof (read_day_bounds y m d V Hy) as B.
  rewrite DayFromYear_100, DayFromYear_10000 in B.
  pose proof (valid_civil_day_bounds y m d V) as Hd. pose proof V as [Hm _].
  rewrite addDays_fields by (unfold maxDay; lia).
  destruct (Z.leb_spec (- maxDay) (civil_day (full_year y) m d + n)); [ | lia].
  destruct (Z.leb_spec (civil_day (full_year y) m d + n) maxDay); [ | lia].
  reflexivity.
Qed.

Lemma utc_of_date (s : string) (y m d : Z) :
  civil_of_str s = Some (y, m, d) ->
  utc_of_str s = midnight (civil_day (full_year y) m d).
Proof.
  intros Hs. apply civil_of_str_spec in Hs as (-> & V & Hy).
  pose proof (read_day_bounds y m d V Hy) as B.
  rewrite DayFromYear_100, DayFromYear_10000 in B.
  pose proof (valid_civil_day_bounds y m d V) as Hd. pose proof V as [Hm _].
  rewrite utc_of_fields by lia. apply TimeClip_day. unfold maxDay. lia.
Qed.

Lemma utc_of_day (k : Z) :
  DayFromYear 100 <= k <= maxDay -> utc_of_str (iso_of_day k) = midnight k.
Proof.
  intros H. unfold iso_of_day.
  pose proof (valid_civil_of_day k) as V. pose proof (civil_day_of_day k) as C.
  pose proof (YearFromDay_100 k ltac:(lia)). pose proof (YearFromDay_max k ltac:(lia)).
  pose proof (valid_civil_day_bounds _ _ _ V). destruct V as [Vm _].
  rewrite DayFromYear_100 in H.
  rewrite utc_of_fields by lia. rewrite full_year_ge_100, C by lia.
  apply TimeClip_day. unfold maxDay in *. lia.
Qed.

End Iso_facts.

(* ================================================================== *)
(** ** The loop of [getDaysArray]                                       *)
(* ================================================================== *)

Section Days_facts.
Import ES JS Calendar DateUtils.

Lemma days_loop_NaN (fuel : nat) (endDt : Date) (arr : list Date) :
  days_loop fuel None endDt arr = arr.
Proof. destruct fuel; reflexivity. Qed.

Lemma le_midnight (a b : Z) : le (midnight a) (midnight b) = (a <=? b).
Proof.
  unfold le, midnight, msPerDay.
  destruct (Z.leb_spec (a * 86400000) (b * 86400000)); destruct (Z.leb_spec a b);
    reflexivity || lia.
Qed.

Lemma next_midnight (a : Z) :
  setUTCDate (midnight a) (add (getUTCDate (midnight a)) (Some 1)) =
  TimeClip (midnight (a + 1)).
Proof.
  unfold midnight. rewrite setUTCDate_add. do 2 f_equal. lia.
Qed.

Lemma zseq_length (a : Z) (n : nat) : List.length (zseq a n) = n.
Proof. revert a. induction n as [ | n IH]; intros a; cbn; [reflexivity | now rewrite IH]. Qed.

Lemma zseq_nth (a : Z) (n i : nat) :
  (i < n)%nat -> nth_error (zseq a n) i = Some (a + Z.of_nat i).
Proof.
  revert a i. induction n as [ | n IH]; intros a i H; [lia | ].
  destruct i as [ | i]; cbn [zseq nth_error].
  - f_equal. lia.
  - rewrite IH by lia. f_equal. lia.
Qed.

Lemma TimeClip_midnight (a : Z) :
  - maxDay <= a <= maxDay -> TimeClip (midnight a) = midnight a.
Proof. apply TimeClip_day. Qed.

Lemma TimeClip_midnight_out (a : Z) :
  ~ - maxDay <= a <= maxDay -> TimeClip (midnight a) = None.
Proof. apply TimeClip_day_out. Qed.

(** With fuel for more passes than there are days, the loop leaves by
    its test and has pushed the midnights of [a] to [b]. *)
Lemma days_loop_days (n fuel : nat) (a b : Z) (arr : list Date) :
  - maxDay <= a -> b <= maxDay ->
  n = Z.to_nat (b - a + 1) -> (n < fuel)%nat ->
  days_loop fuel (midnight a) (midnight b) arr = (arr ++ map midnight (zseq a n))%list.
Proof.
  revert fuel a arr. induction n as [ | n IH]; intros fuel a arr Ha Hb Hn Hf.
  - destruct fuel as [ | f]; [lia | ]. cbn [days_loop]; unfold getTime.
    rewrite le_midnight. destruct (Z.leb_spec a b); [lia | ].
    cbn. now rewrite app_nil_r.
  - destruct fuel as [ | f]; [lia | ]. cbn [days_loop]; unfold getTime.
    rewrite le_midnight. destruct (Z.leb_spec a b); [ | lia].
    rewrite next_midnight. unfold Date_new. rewrite (TimeClip_midnight a) by lia.
    cbn [zseq map].
    destruct (Z.le_gt_cases (a + 1) maxDay) as [L | G].
    + rewrite TimeClip_midnight by lia.
      rewrite IH by lia. now rewrite <- List.app_assoc.
    + rewrite TimeClip_midnight_out by lia.
      rewrite days_loop_NaN. assert (n = O) by lia. subst n.
      reflexivity.
Qed.

Lemma passes_midnight (a b : Z) :
  passes (midnight a) (midnight b) = Z.to_nat (b - a + 1).
Proof. unfold passes, midnight, msPerDay. f_equal. lia. Qed.

(** More fuel than [getDaysArray] gives its loop changes nothing. *)
Lemma days_loop_fuel (a b : Z) (extra : nat) :
  - maxDay <= a -> b <= maxDay ->
  days_loop (S (passes (midnight a) (midnight b)) + extra) (midnight a) (midnight b) [] =
  days_loop (S (passes (midnight a) (midnight b))) (midnight a) (midnight b) [].
Proof.
  intros Ha Hb. rewrite passes_midnight.
  rewrite !(days_loop_days (Z.to_nat (b - a + 1))) by (auto; lia). reflexivity.
Qed.

Lemma utc_of_str_cases (s : string) :
  utc_of_str s = None \/
  exists k, - maxDay <= k <= maxDay /\ utc_of_str s = midnight k.
Proof.
  unfold utc_of_str, Date_new, Date_UTC. rewrite TimeClip_idem.
  destruct (MakeDay _ _ _) as [dy | ]; [ | left; reflexivity].
  cbn [MakeDate]. rewrite Z.add_0_r.
  destruct (Z.le_gt_cases (- maxDay) dy); destruct (Z.le_gt_cases dy maxDay);
    try (left; apply TimeClip_day_out; lia).
  right. exists dy. split; [lia | ]. apply TimeClip_day. lia.
Qed.

Lemma getDaysArray_unfold (s e : string) :
  getDaysArray s e =
  if isNaN (getTime (utc_of_str s)) || isNaN (getTime (utc_of_str e)) then []
  else days_loop (S (passes (utc_of_str s) (utc_of_str e))) (utc_of_str s) (utc_of_str e) [].
Proof. reflexivity. Qed.

(** [getDaysArray] on strings read as midnights: every day from the
    first to the second. *)
Lemma getDaysArray_midnights (s e : string) (a b : Z) :
  utc_of_str s = midnight a -> utc_of_str e = midnight b ->
  - maxDay <= a -> b <= maxDay ->
  getDaysArray s e = map midnight (zseq a (Z.to_nat (b - a + 1))).
Proof.
  intros Hs He Ha Hb. rewrite getDaysArray_unfold, Hs, He.
  change (isNaN (getTime (midnight a)) || isNaN (getTime (midnight b))) with false.
  cbv iota. rewrite passes_midnight.
  rewrite (days_loop_days (Z.to_nat (b - a + 1))) by (auto; lia). reflexivity.
Qed.

Lemma getDaysArray_NaN (s e : string) :
  utc_of_str s = None \/ utc_of_str e = None -> getDaysArray s e = [].
Proof.
  intros [H | H]; rewrite getDaysArray_unfold, H; cbn; [reflexivity | ].
  now rewrite orb_true_r.
Qed.

End Days_facts.

(* ================================================================== *)
(** ** Date strings and their day numbers                               *)
(* ================================================================== *)

Section Date_string_facts.
Import ES JS Calendar DateUtils.

Local Open Scope string_scope.
Local Open Scope Z_scope.

Lemma day_of_str_civil (s : string) (a : Z) :
  day_of_str s = Some a ->
  exists y m d, civil_of_str s = Some (y, m, d) /\ a = civil_day y m d.
Proof.
  unfold day_of_str. destruct (civil_of_str s) as [[[y m] d] | ]; [ | discriminate].
  intros [= <-]. now exists y, m, d.
Qed.

Lemma YearFromDay_0 (k : Z) : DayFromYear 0 <= k -> 0 <= YearFromDay k.
Proof.
  intros H. rewrite <- (YearFromDay_unique 0 (DayFromYear 0)).
  - now apply YearFromDay_mono.
  - split; [apply Z.leb_le | apply Z.ltb_lt]; vm_compute; reflexivity.
Qed.

Lemma YearFromDay_9999 (k : Z) : k < DayFromYear 10000 -> YearFromDay k <= 9999.
Proof.
  intros H. pose proof (YearFromDay_spec k) as S.
  destruct (Z.le_gt_cases (YearFromDay k) 9999) as [L | G]; [exact L | ].
  pose proof (DayFromYear_le 10000 (YearFromDay k) ltac:(lia)). lia.
Qed.

(** The string of a day number of the years 0 to 9999 names that day. *)
Lemma day_of_iso_of_day (k : Z) :
  DayFromYear 0 <= k < DayFromYear 10000 -> day_of_str (iso_of_day k) = Some k.
Proof.
  intros H. unfold day_of_str, iso_of_day.
  rewrite civil_of_iso_date.
  - now rewrite civil_day_of_day.
  - apply valid_civil_of_day.
  - split; [apply YearFromDay_0 | apply YearFromDay_9999]; lia.
Qed.

(** A date string on or after 0100-01-01 is read as the day it names. *)
Lemma day_of_str_read (s : string) (a : Z) :
  day_of_str s = Some a -> day_0100 <= a ->
  s = iso_of_day a /\ a < DayFromYear 10000 /\ utc_of_str s = midnight a /\
  forall n, - maxDay <= a + n <= maxDay -> addDays s n = Ok (iso_of_day (a + n)).
Proof.
  intros Hs Ha. apply day_of_str_civil in Hs as (y & m & d & Hc & ->).
  pose proof (civil_of_str_spec s y m d Hc) as (E & V & Hy).
  pose proof (valid_civil_day_bounds y m d V) as Hd. pose proof V as [Hm _].
  pose proof (civil_day_in_year y m d Hm Hd) as B.
  assert (100 <= y).
  { destruct (Z.le_gt_cases 100 y) as [L | G]; [exact L | ].
    pose proof (DayFromYear_le (y + 1) 100 ltac:(lia)).
    rewrite day_0100_eq in Ha. lia. }
  pose proof (DayFromYear_le (y + 1) 10000 ltac:(lia)).
  repeat split.
  - rewrite iso_of_day_civil by exact V. exact E.
  - lia.
  - rewrite (utc_of_date s y m d Hc), full_year_ge_100 by lia. reflexivity.
  - intros n Hn. rewrite (addDays_date s y m d n Hc); rewrite full_year_ge_100 by lia;
      [reflexivity | exact Hn].
Qed.

(** Any date string is read as some day from 0100-01-01 on. *)
Lemma day_of_str_read_any (s : string) (a : Z) :
  day_of_str s = Some a ->
  exists k, DayFromYear 100 <= k < DayFromYear 10000 /\ utc_of_str s = midnight k /\
  forall n, - maxDay <= k + n <= maxDay -> addDays s n = Ok (iso_of_day (k + n)).
Proof.
  intros Hs. apply day_of_str_civil in Hs as (y & m & d & Hc & ->).
  pose proof (civil_of_str_spec s y m d Hc) as (E & V & Hy).
  exists (civil_day (full_year y) m d). repeat split.
  - apply (read_day_bounds y m d V Hy).
  - apply (read_day_bounds y m d V Hy).
  - apply (utc_of_date s y m d Hc).
  - intros n Hn. apply (addDays_date s y m d n Hc Hn).
Qed.

End Date_string_facts.

(* ================================================================== *)
(** ** Runs of the handlers against a store that takes every request    *)
(* ================================================================== *)

Section Runs_accepted.
Import ES JS Calendar DateUtils Store App.

Local Open Scope string_scope.

Variable env : Env.
Hypothesis accepts : forall r, rejects env r = false.

Lemma request_accepted (r : Request) (w : World) :
  request env r w =
  (Done false,
   mkWorld (Store.apply r (db w)) (user w) (trips w) (activities w)
           (isUpdating w) (deletingDate w) (log w ++ [Issued r; Settled r true])).
Proof.
  unfold request, bind, emit, settle, set_db, ret. cbn. rewrite accepts. cbn.
  now rewrite <- List.app_assoc.
Qed.

Lemma select_accepted {A} (r : Request) (rows : Store.t -> A) (w : World) :
  select env r rows w =
  (Done (Some (rows (db w))),
   mkWorld (Store.apply r (db w)) (user w) (trips w) (activities w)
           (isUpdating w) (deletingDate w) (log w ++ [Issued r; Settled r true])).
Proof. unfold select, bind. rewrite request_accepted. reflexivity. Qed.

Lemma settle_all_accepted (rs : list Request) (w : World) :
  settle_all env rs w =
  (Done tt,
   mkWorld (fold_left (fun d r => Store.apply r d) rs (db w)) (user w) (trips w)
           (activities w) (isUpdating w) (deletingDate w)
           (log w ++ map (fun r => Settled r true) rs)).
Proof.
  revert w. induction rs as [ | r rs IH]; intros w.
  - cbn. rewrite app_nil_r. now destruct w.
  - cbn [settle_all]. unfold bind at 1. unfold settle at 1. rewrite accepts.
    unfold bind, set_db, emit, ret. cbn [db user trips activities isUpdating deletingDate log].
    rewrite IH. cbn. now rewrite <- List.app_assoc.
Qed.

Lemma Promise_all_accepted (rs : list Request) (w : World) :
  Promise_all env rs w =
  (Done tt,
   mkWorld (fold_left (fun d r => Store.apply r d) (sched env rs) (db w)) (user w)
           (trips w) (activities w) (isUpdating w) (deletingDate w)
           (log w ++ map Issued rs ++ map (fun r => Settled r true) (sched env rs))).
Proof.
  unfold Promise_all, bind, emit_all. rewrite settle_all_accepted. cbn.
  now rewrite <- List.app_assoc.
Qed.

Lemma handleUpdateTripDates_accepted (ts : list Trip.t) (id s e : string) (w : World) :
  handleUpdateTripDates env ts id s e w =
  (Done tt,
   mkWorld (Store.apply (UpdateTripDates id s e) (db w)) (user w)
           (map (set_trip_dates id s e) ts) (activities w)
           (isUpdating w) (deletingDate w)
           (log w ++ [Issued (UpdateTripDates id s e);
                      Settled (UpdateTripDates id s e) true])).
Proof.
  unfold handleUpdateTripDates, try_catch, bind. rewrite request_accepted. reflexivity.
Qed.

Lemma fetchData_accepted (w : World) :
  fetchData env w =
  (Done tt,
   match user w with
   | None => w
   | Some _ =>
       mkWorld (db w) (user w) (order_by_start (trip_rows env (Store.trips (db w))))
               (activity_rows env (Store.activities (db w)))
               (isUpdating w) (deletingDate w)
               (log w ++ [Issued SelectTrips; Settled SelectTrips true;
                          Issued SelectExpenses; Settled SelectExpenses true;
                          Issued SelectActivities; Settled SelectActivities true])
   end).
Proof.
  unfold fetchData. destruct (user w) eqn:U; [ | reflexivity].
  unfold try_catch, bind. rewrite select_accepted. unfold setTrips.
  rewrite !select_accepted. unfold setActivities. cbn. rewrite U.
  now rewrite <- !List.app_assoc.
Qed.

End Runs_accepted.

(* ================================================================== *)
(** ** Date updates on the activity table                               *)
(* ================================================================== *)

Section Store_facts.
Import Calendar Store.

Local Open Scope string_scope.

Lemma with_date_id (a : Activity.t) (d : string) :
  Activity.id (Activity.with_date a d) = Activity.id a.
Proof. reflexivity. Qed.

Lemma same_id_same_row (l : list Activity.t) (a b : Activity.t) :
  NoDup (map Activity.id l) -> In a l -> In b l ->
  Activity.id a = Activity.id b -> a = b.
Proof.
  induction l as [ | x l IH]; cbn; [tauto | ].
  intros N Ha Hb E. inversion N as [ | ? ? Hx N']; subst.
  destruct Ha as [-> | Ha], Hb as [-> | Hb]; auto.
  - exfalso. apply Hx. rewrite E. now apply in_map.
  - exfalso. apply Hx. rewrite <- E. now apply in_map.
Qed.

Lemma NoDup_filter_ids (p : Activity.t -> bool) (l : list Activity.t) :
  NoDup (map Activity.id l) -> NoDup (map Activity.id (filter p l)).
Proof.
  induction l as [ | x l IH]; cbn; [auto | ].
  intros N. inversion N as [ | ? ? Hx N']; subst.
  destruct (p x); cbn; [constructor | ]; auto.
  intros Hin. apply Hx. apply in_map_iff in Hin as (y & E & Hy).
  apply filter_In in Hy as [Hy _]. rewrite <- E. now apply in_map.
Qed.

(** The updates of a run of date requests, one request per row at most. *)
Lemma fold_date_updates (rs : list Request) (db : Store.t) :
  Forall (fun r => is_date_update r = true) rs ->
  NoDup (map update_id rs) ->
  fold_left (fun d r => Store.apply r d) rs db =
  Store.mk (Store.trips db)
    (map (fun a => match date_update (Activity.id a) rs with
                   | Some d => Activity.with_date a d
                   | None => a
                   end) (Store.activities db)).
Proof.
  revert db. induction rs as [ | r rs IH]; intros db F N.
  - cbn. rewrite map_id. now destruct db.
  - inversion F as [ | ? ? Hr F']; subst. inversion N as [ | ? ? Hn N']; subst.
    destruct r as [ | | i d | | | | ]; try discriminate. cbn [fold_left Store.apply].
    rewrite IH by assumption. cbn [Store.trips Store.activities]. f_equal.
    rewrite map_map. apply map_ext. intros a. cbn [date_update update_id] in *.
    unfold set_activity_date. destruct (String.eqb_spec (Activity.id a) i) as [E | E].
    + subst i. rewrite String.eqb_refl, with_date_id.
      assert (D : date_update (Activity.id a) rs = None).
      { clear - Hn F'. induction rs as [ | r rs IH]; [reflexivity | ].
        inversion F' as [ | ? ? Hr F'']; subst.
        destruct r as [ | | j d' | | | | ]; try discriminate. cbn in *.
        destruct (String.eqb_spec j (Activity.id a)); [tauto | ].
        apply IH; tauto. }
      now rewrite D.
    + destruct (String.eqb_spec i (Activity.id a)); [congruence | reflexivity].
Qed.

Lemma date_update_In (i d : string) (rs : list Request) :
  NoDup (map update_id rs) ->
  In (UpdateActivityDate i d) rs -> date_update i rs = Some d.
Proof.
  induction rs as [ | r rs IH]; cbn; [tauto | ].
  intros N [-> | H]; inversion N as [ | ? ? Hn N']; subst.
  - cbn. now rewrite String.eqb_refl.
  - destruct r as [ | | j d' | | | | ]; auto. cbn in Hn.
    destruct (String.eqb_spec j i) as [-> | ]; [ | auto].
    exfalso. apply Hn. change i with (update_id (UpdateActivityDate i d)). now apply in_map.
Qed.

Lemma date_update_Some (i d : string) (rs : list Request) :
  date_update i rs = Some d -> In (UpdateActivityDate i d) rs.
Proof.
  induction rs as [ | r rs IH]; cbn; [discriminate | ].
  destruct r as [ | | j d' | | | | ]; auto.
  destruct (String.eqb_spec j i) as [-> | ]; [ | auto].
  intros [= ->]. now left.
Qed.

(** The table after the date requests for the rows picked by [p], taken
    in any order. *)
Lemma fold_shift_requests (p : Activity.t -> bool) (f : Activity.t -> string)
    (rs : list Request) (db : Store.t) :
  NoDup (map Activity.id (Store.activities db)) ->
  Permutation rs
    (map (fun a => UpdateActivityDate (Activity.id a) (f a))
         (filter p (Store.activities db))) ->
  fold_left (fun d r => Store.apply r d) rs db =
  Store.mk (Store.trips db)
    (map (fun a => if p a then Activity.with_date a (f a) else a) (Store.activities db)).
Proof.
  intros N P. set (acts := Store.activities db) in *.
  set (reqs := map _ (filter p acts)) in P.
  assert (Nr : NoDup (map update_id reqs)).
  { subst reqs. rewrite map_map. cbn [update_id]. now apply NoDup_filter_ids. }
  assert (Fr : Forall (fun r => is_date_update r = true) reqs).
  { subst reqs. apply Forall_forall. intros r Hr.
    apply in_map_iff in Hr as (a & <- & _). reflexivity. }
  assert (Ns : NoDup (map update_id rs)).
  { eapply Permutation_NoDup; [ | exact Nr]. apply Permutation_map. now symmetry. }
  assert (Fs : Forall (fun r => is_date_update r = true) rs).
  { eapply Permutation_Forall; [ | exact Fr]. now symmetry. }
  rewrite fold_date_updates by assumption. f_equal. fold acts.
  apply map_ext_in. intros a Ha. destruct (p a) eqn:Pa.
  - rewrite (date_update_In (Activity.id a) (f a)); [reflexivity | exact Ns | ].
    eapply Permutation_in; [symmetry; exact P | ]. subst reqs.
    apply in_map_iff. exists a. split; [reflexivity | ]. apply filter_In. now split.
  - destruct (date_update (Activity.id a) rs) as [d | ] eqn:D; [ | reflexivity].
    exfalso. apply date_update_Some in D.
    eapply Permutation_in in D; [ | exact P]. subst reqs.
    apply in_map_iff in D as (b & E & Hb). injection E as E _.
    apply filter_In in Hb as [Hb Pb].
    assert (b = a) by (eapply same_id_same_row; eauto). congruence.
Qed.

End Store_facts.

(* ================================================================== *)
(** ** Runs of [handleRemoveDay], branch by branch                      *)
(* ================================================================== *)

Section RemoveDay_runs.
Import ES JS Calendar DateUtils Store App.

Local Open Scope string_scope.

Variable env : Env.
Hypothesis accepts : forall r, rejects env r = false.
Hypothesis answers : fair env.

Lemma mapM_shift_request (acts : list Activity.t) (w : World) :
  (forall a, In a acts -> exists nd, addDays (Activity.date a) (-1) = Ok nd) ->
  mapM shift_request acts w =
  (Done (map (fun a => UpdateActivityDate (Activity.id a) (day_before (Activity.date a)))
             acts), w).
Proof.
  revert w. induction acts as [ | a acts IH]; intros w H; [reflexivity | ].
  cbn [mapM map]. unfold bind at 1. unfold shift_request at 1, day_before at 1.
  destruct (H a (or_introl eq_refl)) as [nd E]. rewrite E.
  unfold bind, lift, ret. cbn. rewrite IH by (intros; apply H; now right). reflexivity.
Qed.

(** Removing the first day: the world [fetchData] starts from. *)
Lemma handleRemoveDay_first (ts : list Trip.t) (sel : option string) (t : Trip.t)
    (ns : string) (w : World) :
  activeTrip ts sel = Some t ->
  addDays (Trip.startDate t) 1 = Ok ns ->
  handleRemoveDay env ts sel (Trip.startDate t) w =
  fetchData env
    (mkWorld (Store.apply (UpdateTripDates (Trip.id t) ns (Trip.endDate t))
                          (after_delete t (Trip.startDate t) w))
             (user w) (map (set_trip_dates (Trip.id t) ns (Trip.endDate t)) ts)
             (activities w) (isUpdating w) (deletingDate w)
             (log w ++
              [Issued (DeleteActivitiesOn (Trip.id t) (Trip.startDate t));
               Settled (DeleteActivitiesOn (Trip.id t) (Trip.startDate t)) true;
               Issued (UpdateTripDates (Trip.id t) ns (Trip.endDate t));
               Settled (UpdateTripDates (Trip.id t) ns (Trip.endDate t)) true])).
Proof.
  intros At E. unfold handleRemoveDay. rewrite At. rewrite String.eqb_refl.
  unfold try_catch, bind. rewrite (request_accepted env accepts). unfold ret.
  rewrite E. unfold lift, ret. rewrite (handleUpdateTripDates_accepted env accepts).
  cbn [db user trips activities isUpdating deletingDate log].
  rewrite <- List.app_assoc. cbn [app]. unfold after_delete.
  rewrite (fetchData_accepted env accepts). reflexivity.
Qed.

(** Removing the last day of a trip of several days. *)
Lemma handleRemoveDay_last (ts : list Trip.t) (sel : option string) (t : Trip.t)
    (ne : string) (w : World) :
  activeTrip ts sel = Some t ->
  Trip.startDate t <> Trip.endDate t ->
  addDays (Trip.endDate t) (-1) = Ok ne ->
  handleRemoveDay env ts sel (Trip.endDate t) w =
  fetchData env
    (mkWorld (Store.apply (UpdateTripDates (Trip.id t) (Trip.startDate t) ne)
                          (after_delete t (Trip.endDate t) w))
             (user w) (map (set_trip_dates (Trip.id t) (Trip.startDate t) ne) ts)
             (activities w) (isUpdating w) (deletingDate w)
             (log w ++
              [Issued (DeleteActivitiesOn (Trip.id t) (Trip.endDate t));
               Settled (DeleteActivitiesOn (Trip.id t) (Trip.endDate t)) true;
               Issued (UpdateTripDates (Trip.id t) (Trip.startDate t) ne);
               Settled (UpdateTripDates (Trip.id t) (Trip.startDate t) ne) true])).
Proof.
  intros At Hne E. unfold handleRemoveDay. rewrite At. rewrite String.eqb_refl.
  destruct (String.eqb_spec (Trip.endDate t) (Trip.startDate t)); [congruence | ].
  unfold try_catch, bind. rewrite (request_accepted env accepts). unfold ret.
  rewrite E. unfold lift, ret. rewrite (handleUpdateTripDates_accepted env accepts).
  cbn [db user trips activities isUpdating deletingDate log].
  rewrite <- List.app_assoc. cbn [app]. unfold after_delete.
  rewrite (fetchData_accepted env accepts). reflexivity.
Qed.

(** Removing a day that is neither the first nor the last. *)
Lemma handleRemoveDay_interior (ts : list Trip.t) (sel : option string) (t : Trip.t)
    (d ne : string) (w : World) :
  activeTrip ts sel = Some t ->
  d <> Trip.startDate t -> d <> Trip.endDate t ->
  (forall a, In a (Store.activities (after_delete t d w)) ->
             after_date (Trip.id t) d a = true ->
             exists nd, addDays (Activity.date a) (-1) = Ok nd) ->
  addDays (Trip.endDate t) (-1) = Ok ne ->
  let shifted :=
    activity_rows env
      (filter (after_date (Trip.id t) d) (Store.activities (after_delete t d w))) in
  let requests :=
    map (fun a => UpdateActivityDate (Activity.id a) (day_before (Activity.date a)))
        shifted in
  exists l,
    handleRemoveDay env ts sel d w =
    fetchData env
      (mkWorld (Store.apply (UpdateTripDates (Trip.id t) (Trip.startDate t) ne)
                  (fold_left (fun s r => Store.apply r s) (sched env requests)
                             (after_delete t d w)))
               (user w) (map (set_trip_dates (Trip.id t) (Trip.startDate t) ne) ts)
               (activities w) (isUpdating w) (deletingDate w)
               (log w ++ l)) /\
    Forall (fun e => match e with Alert _ => False | _ => True end) l.
Proof.
  intros At Hs He Hok E shifted requests.
  unfold handleRemoveDay. rewrite At.
  destruct (String.eqb_spec d (Trip.startDate t)); [congruence | ].
  destruct (String.eqb_spec d (Trip.endDate t)); [congruence | ].
  unfold try_catch, bind. rewrite (request_accepted env accepts). unfold ret.
  rewrite (select_accepted env accepts).
  cbn [db user trips activities isUpdating deletingDate log].
  change (Store.apply (SelectActivitiesAfter (Trip.id t) d)
            (Store.apply (DeleteActivitiesOn (Trip.id t) d) (db w)))
    with (after_delete t d w).
  change (Store.apply (DeleteActivitiesOn (Trip.id t) d) (db w))
    with (after_delete t d w).
  fold shifted.
  destruct (0 <? List.length shifted)%nat eqn:L; cbv beta iota.
  - rewrite mapM_shift_request
      by (intros a Ha; apply (Permutation_in _ (activity_rows_all env _)) in Ha;
          apply filter_In in Ha as [Ha Pa]; now apply Hok).
    fold requests. rewrite (Promise_all_accepted env accepts).
    cbn [db user trips activities isUpdating deletingDate log].
    rewrite E. unfold lift, ret. rewrite (handleUpdateTripDates_accepted env accepts).
    cbn [db user trips activities isUpdating deletingDate log].
    rewrite <- !List.app_assoc. cbn [app].
    eexists. split; [rewrite !(fetchData_accepted env accepts); reflexivity | ].
    repeat (apply Forall_cons; [exact I | ]).
    apply Forall_app. split; [apply Forall_forall; intros e He'; apply in_map_iff in He' as (? & <- & _); exact I | ].
    apply Forall_app. split; [apply Forall_forall; intros e He'; apply in_map_iff in He' as (? & <- & _); exact I | ].
    repeat (apply Forall_cons; [exact I | ]). constructor.
  - assert (shifted = []) as Z.
    { destruct shifted; [reflexivity | discriminate]. }
    subst requests. rewrite Z in *. cbn [map].
    assert (S0 : sched env [] = []).
    { apply Permutation_nil. symmetry. apply answers. }
    rewrite S0. cbn [fold_left].
    rewrite E. unfold lift, ret. rewrite (handleUpdateTripDates_accepted env accepts).
    cbn [db user trips activities isUpdating deletingDate log].
    rewrite <- !List.app_assoc. cbn [app].
    eexists. split; [rewrite !(fetchData_accepted env accepts); reflexivity | ].
    repeat (apply Forall_cons; [exact I | ]). constructor.
Qed.

End RemoveDay_runs.

(* ================================================================== *)
(** * The date utilities                                                *)
(* ================================================================== *)

Section DateUtils_properties.
Import ES JS Calendar DateUtils.

Local Open Scope string_scope.
Local Open Scope Z_scope.

(** C7, amended.  For a calendar date [d] written [YYYY-MM-DD], on or
    after 0100-01-01, and an integer [n] such that the date [n] days
    from [d] is on or after 0100-01-01 and inside the range of a Date
    (at most 100,000,000 days from 1970-01-01), [addDays d n] returns a
    string and [addDays] of that string and [-n] returns [d]. *)
Theorem addDays_round_trip (d : string) (n a : Z) :
  day_of_str d = Some a ->
  day_0100 <= a ->
  day_0100 <= a + n <= maxDay ->
  exists d', addDays d n = Ok d' /\ addDays d' (- n) = Ok d.
Proof.
  intros Hd Ha Hn.
  destruct (day_of_str_read d a Hd Ha) as (E & Hmax & _ & Hadd).
  rewrite day_0100_eq, DayFromYear_100 in *. rewrite DayFromYear_10000 in Hmax.
  assert (M : maxDay = 100000000) by reflexivity.
  exists (iso_of_day (a + n)). split.
  - apply Hadd. lia.
  - rewrite addDays_of_day by (rewrite DayFromYear_100; lia).
    destruct (Z.leb_spec (- maxDay) (a + n + - n)); [ | lia].
    destruct (Z.leb_spec (a + n + - n) maxDay); [ | lia].
    cbn [andb]. replace (a + n + - n) with a by lia. now rewrite <- E.
Qed.

Lemma addDays_round_trip_witness :
  day_of_str "2024-02-28" = Some 19781 /\
  day_0100 <= 19781 /\
  day_0100 <= 19781 + 2 <= maxDay /\
  exists d', addDays "2024-02-28" 2 = Ok d' /\ addDays d' (- 2) = Ok "2024-02-28".
Proof.
  assert (H1 : day_of_str "2024-02-28" = Some 19781) by reflexivity.
  assert (H2 : day_0100 <= 19781) by (apply Z.leb_le; reflexivity).
  assert (H3 : day_0100 <= 19781 + 2 <= maxDay)
    by (split; apply Z.leb_le; reflexivity).
  repeat split; try assumption.
  exact (addDays_round_trip "2024-02-28" 2 19781 H1 H2 H3).
Defined.

(** C7 as stated fails: 0099-12-31 is a calendar date, the day after it is
    returned as 2000-01-01, and the day before that as 1999-12-31; and a
    shift that leaves the range of a Date throws. *)
Lemma addDays_round_trip_counterexample :
  day_of_str "0099-12-31" = Some (-683004) /\
  addDays "0099-12-31" 1 = Ok "2000-01-01" /\
  addDays "2000-01-01" (- 1) = Ok "1999-12-31" /\
  addDays "2024-01-01" 100000000 = Throw RangeError.
Proof.
  split; [vm_compute; reflexivity | ]. split; [vm_compute; reflexivity | ].
  split; vm_compute; reflexivity.
Qed.

(** C6, amended.  For start and end dates written [YYYY-MM-DD] with the
    start on or after 0100-01-01 and not after the end, [getDaysArray]
    returns as many Dates as there are days from start to end inclusive,
    the [i]-th being midnight of the [i]-th day from the start: strictly
    ascending, each one day after the one before. *)
Theorem getDaysArray_enumerates (start end_ : string) (a b : Z) :
  day_of_str start = Some a ->
  day_of_str end_ = Some b ->
  day_0100 <= a ->
  a <= b ->
  List.length (getDaysArray start end_) = Z.to_nat (b - a + 1) /\
  (forall i, (i < Z.to_nat (b - a + 1))%nat ->
     nth_error (getDaysArray start end_) i = Some (midnight (a + Z.of_nat i))) /\
  (forall i t u,
     nth_error (getDaysArray start end_) i = Some (Some t) ->
     nth_error (getDaysArray start end_) (S i) = Some (Some u) ->
     u = t + msPerDay).
Proof.
  intros Hs He Ha Hab.
  destruct (day_of_str_read start a Hs Ha) as (_ & _ & Us & _).
  destruct (day_of_str_read end_ b He ltac:(lia)) as (_ & Hmax & Ue & _).
  rewrite day_0100_eq, DayFromYear_100 in Ha. rewrite DayFromYear_10000 in Hmax.
  rewrite (getDaysArray_midnights start end_ a b Us Ue) by (unfold maxDay; lia).
  assert (N : forall i, (i < Z.to_nat (b - a + 1))%nat ->
            nth_error (map midnight (zseq a (Z.to_nat (b - a + 1)))) i
            = Some (midnight (a + Z.of_nat i))).
  { intros i Hi. rewrite nth_error_map, zseq_nth by exact Hi. reflexivity. }
  split; [now rewrite length_map, zseq_length | ]. split; [exact N | ].
  intros i t u Hi Hj.
  assert (Lj : (S i < Z.to_nat (b - a + 1))%nat).
  { assert (Hj' : nth_error (map midnight (zseq a (Z.to_nat (b - a + 1)))) (S i) <> None)
      by congruence.
    apply nth_error_Some in Hj'. rewrite length_map, zseq_length in Hj'. exact Hj'. }
  rewrite N in Hi, Hj by lia. unfold midnight in *.
  injection Hi as <-. injection Hj as <-. unfold msPerDay. lia.
Qed.

Lemma getDaysArray_enumerates_witness :
  day_of_str "2024-02-27" = Some 19780 /\
  day_of_str "2024-03-02" = Some 19784 /\
  day_0100 <= 19780 /\
  19780 <= 19784 /\
  List.length (getDaysArray "2024-02-27" "2024-03-02") = Z.to_nat (19784 - 19780 + 1) /\
  (forall i, (i < Z.to_nat (19784 - 19780 + 1))%nat ->
     nth_error (getDaysArray "2024-02-27" "2024-03-02") i
     = Some (midnight (19780 + Z.of_nat i))) /\
  (forall i t u,
     nth_error (getDaysArray "2024-02-27" "2024-03-02") i = Some (Some t) ->
     nth_error (getDaysArray "2024-02-27" "2024-03-02") (S i) = Some (Some u) ->
     u = t + msPerDay).
Proof.
  assert (H1 : day_of_str "2024-02-27" = Some 19780) by reflexivity.
  assert (H2 : day_of_str "2024-03-02" = Some 19784) by reflexivity.
  assert (H3 : day_0100 <= 19780) by (apply Z.leb_le; reflexivity).
  assert (H4 : 19780 <= 19784) by (apply Z.leb_le; reflexivity).
  split; [exact H1 | ]. split; [exact H2 | ]. split; [exact H3 | ]. split; [exact H4 | ].
  exact (getDaysArray_enumerates "2024-02-27" "2024-03-02" 19780 19784 H1 H2 H3 H4).
Defined.

(** C6 as stated fails: 0099-12-31 and 0100-01-01 are two consecutive
    calendar dates, and [getDaysArray] returns no day for them. *)
Lemma getDaysArray_enumerates_counterexample :
  day_of_str "0099-12-31" = Some (-683004) /\
  day_of_str "0100-01-01" = Some (-683003) /\
  getDaysArray "0099-12-31" "0100-01-01" = [].
Proof.
  split; [vm_compute; reflexivity | ]. split; vm_compute; reflexivity.
Qed.

Lemma days_loop_first (fuel : nat) (s e : Z) (arr : list Date) :
  s <= e -> days_loop (S fuel) (Some s) (Some e) arr <> [].
Proof.
  intros H. cbn [days_loop]. unfold getTime, le.
  destruct (Z.leb_spec s e); [ | lia].
  assert (G : forall f dt acc, acc <> [] -> days_loop f dt (Some e) acc <> []).
  { induction f as [ | f IH]; intros dt acc Hacc; cbn [days_loop]; [exact Hacc | ].
    destruct (JS.le (getTime dt) (getTime (Some e))); [ | exact Hacc].
    apply IH. destruct acc; [congruence | discriminate]. }
  apply G. destruct arr; discriminate.
Qed.

End DateUtils_properties.

(* ================================================================== *)
(** * The itinerary handlers                                            *)
(* ================================================================== *)

Section Trip_rows.
Import Store.

Lemma set_trip_dates_start (x : Trip.t) (s : string) (l : list Trip.t) :
  stored x l ->
  map (set_trip_dates (Trip.id x) s (Trip.endDate x)) l = map (set_start (Trip.id x) s) l.
Proof.
  intros H. apply map_ext_in. intros y Hy. unfold set_trip_dates, set_start.
  destruct (String.eqb_spec (Trip.id y) (Trip.id x)) as [E | ]; [ | reflexivity].
  now rewrite (H y Hy E).
Qed.

Lemma set_trip_dates_end (x : Trip.t) (e : string) (l : list Trip.t) :
  stored x l ->
  map (set_trip_dates (Trip.id x) (Trip.startDate x) e) l = map (set_end (Trip.id x) e) l.
Proof.
  intros H. apply map_ext_in. intros y Hy. unfold set_trip_dates, set_end.
  destruct (String.eqb_spec (Trip.id y) (Trip.id x)) as [E | ]; [ | reflexivity].
  now rewrite (H y Hy E).
Qed.

End Trip_rows.

Section Itinerary_properties.
Import ES JS Calendar DateUtils Store App.

Local Open Scope string_scope.
Local Open Scope Z_scope.

Lemma getDaysArray_same (s : string) : (List.length (getDaysArray s s) <= 1)%nat.
Proof.
  destruct (utc_of_str_cases s) as [H | (k & Hk & H)].
  - rewrite getDaysArray_NaN by now left. cbn. lia.
  - rewrite (getDaysArray_midnights s s k k H H) by lia.
    rewrite length_map, zseq_length. lia.
Qed.

(** C5.  On a trip whose start date is its end date, [handleRemoveClick]
    shows the alert and does nothing else: [onRemoveDay] is not called, no
    request is sent, and the store and the state are as before. *)
Theorem remove_only_day_rejected (env : Env) (trip : Trip.t) (isUpdating : bool)
    (deletingDate : option string) (onRemoveDay : string -> M unit)
    (dateStr : string) (index : nat) (w : World) :
  Trip.startDate trip = Trip.endDate trip ->
  handleRemoveClick env trip isUpdating deletingDate onRemoveDay dateStr index w =
  (Done tt,
   mkWorld (db w) (user w) (trips w) (activities w) (App.isUpdating w)
           (App.deletingDate w)
           (log w ++ [Alert "A trip must have at least one day."])).
Proof.
  intros E. unfold handleRemoveClick. rewrite E.
  pose proof (getDaysArray_same (Trip.endDate trip)) as L.
  destruct (Nat.leb_spec (List.length (getDaysArray (Trip.endDate trip) (Trip.endDate trip))) 1);
    [reflexivity | lia].
Qed.

Lemma remove_only_day_rejected_witness :
  Trip.startDate Sample.pune = Trip.endDate Sample.pune /\
  handleRemoveClick Sample.env Sample.pune false None
    (handleRemoveDay Sample.env [Sample.goa; Sample.pune] (Some "t2"))
    "2024-03-01" 0 Sample.world =
  (Done tt,
   mkWorld (db Sample.world) (user Sample.world) (trips Sample.world)
           (activities Sample.world) (App.isUpdating Sample.world)
           (App.deletingDate Sample.world)
           (log Sample.world ++ [Alert "A trip must have at least one day."])).
Proof.
  split; [reflexivity | ].
  exact (remove_only_day_rejected Sample.env Sample.pune false None
           (handleRemoveDay Sample.env [Sample.goa; Sample.pune] (Some "t2"))
           "2024-03-01" 0 Sample.world eq_refl).
Defined.

Lemma fetchData_accepted_run (env : Env) (w : World) :
  (forall r, rejects env r = false) ->
  exists st l,
    fetchData env w =
    (Done tt, mkWorld (db w) (user w) (fst st) (snd st) (App.isUpdating w)
                      (App.deletingDate w) (log w ++ l)) /\
    silent l.
Proof.
  intros A. rewrite (fetchData_accepted env A). destruct (user w) eqn:U.
  - exists (order_by_start (trip_rows env (Store.trips (db w))),
            activity_rows env (Store.activities (db w))). eexists.
    split; [reflexivity | ]. repeat constructor.
  - exists (trips w, activities w), []. split; [ | constructor].
    destruct w; cbn in *; subst. now rewrite app_nil_r.
Qed.

Lemma stored_sample : stored Sample.goa (Store.trips (db Sample.world)).
Proof.
  intros y [<- | [<- | []]] E; [reflexivity | discriminate E].
Defined.

Lemma Forall2_map_right {A B} (R : A -> B -> Prop) (f : A -> B) (l : list A) :
  (forall a, In a l -> R a (f a)) -> Forall2 R l (map f l).
Proof.
  induction l as [ | x l IH]; cbn; intros H; constructor; auto.
Qed.

Lemma after_date_day (id d : string) (a : Activity.t) :
  after_date id d a = true ->
  Activity.tripId a = id /\
  exists k kd, day_of_str (Activity.date a) = Some k /\ day_of_str d = Some kd /\ kd < k.
Proof.
  unfold after_date, date_gtb. intros H. apply andb_true_iff in H as [Hi Hd].
  apply String.eqb_eq in Hi. split; [exact Hi | ].
  destruct (day_of_str (Activity.date a)) as [k | ]; [ | discriminate].
  destruct (day_of_str d) as [kd | ]; [ | discriminate].
  exists k, kd. apply Z.ltb_lt in Hd. auto.
Qed.

Lemma after_date_addDays (id d : string) (a : Activity.t) :
  after_date id d a = true -> exists nd, addDays (Activity.date a) (-1) = Ok nd.
Proof.
  intros H. apply after_date_day in H as (_ & k & kd & Hk & _ & _).
  destruct (day_of_str_read_any _ k Hk) as (j & Hj & _ & Hadd).
  rewrite DayFromYear_100, DayFromYear_10000 in Hj.
  eexists. apply Hadd. unfold maxDay. lia.
Qed.

(** The activity table after an interior day is removed. *)
Lemma interior_activities (env : Env) (t : Trip.t) (d : string) (w : World) :
  fair env ->
  NoDup (map Activity.id (Store.activities (db w))) ->
  let shifted :=
    activity_rows env
      (filter (after_date (Trip.id t) d) (Store.activities (after_delete t d w))) in
  let requests :=
    map (fun a => UpdateActivityDate (Activity.id a) (day_before (Activity.date a)))
        shifted in
  fold_left (fun s r => Store.apply r s) (sched env requests) (after_delete t d w) =
  Store.mk (Store.trips (db w))
    (map (fun a => if after_date (Trip.id t) d a
                   then Activity.with_date a (day_before (Activity.date a)) else a)
         (filter (fun a => negb (on_date (Trip.id t) d a)) (Store.activities (db w)))).
Proof.
  intros F N shifted requests.
  rewrite (fold_shift_requests (after_date (Trip.id t) d)
             (fun a => day_before (Activity.date a))).
  - reflexivity.
  - cbn. now apply NoDup_filter_ids.
  - etransitivity; [apply F | ]. apply Permutation_map, activity_rows_all.
Qed.

End Itinerary_properties.

(* ================================================================== *)
(** ** The rows that stay when a day is removed                         *)
(* ================================================================== *)

Section Rows_that_stay.
Import ES JS Calendar DateUtils Store App.

Local Open Scope Z_scope.

Variables (id d : string) (kd ks ke ks' ke' : Z).
Variable g : Z -> Z.
Variable f : Activity.t -> Activity.t.
Variable acts : list Activity.t.

Local Abbreviation old := (filter (fun a => negb (on_date id d a)) acts).

Hypothesis Hd : day_of_str d = Some kd.
Hypothesis ids : NoDup (map Activity.id acts).
Hypothesis dated : in_range id ks ke acts.
Hypothesis same_row : forall a, In a old ->
  Activity.id (f a) = Activity.id a /\ Activity.tripId (f a) = Activity.tripId a.
Hypothesis new_date : forall a k, In a old -> Activity.tripId a = id ->
  day_of_str (Activity.date a) = Some k ->
  day_of_str (Activity.date (f a)) = Some (g k).
Hypothesis g_range : forall k, ks <= k <= ke -> k <> kd -> ks' <= g k <= ke'.
Hypothesis g_order : forall k1 k2, k1 <> kd -> k2 <> kd -> (g k1 ?= g k2) = (k1 ?= k2).

Lemma stays_dated (a : Activity.t) :
  In a old -> Activity.tripId a = id ->
  exists k, day_of_str (Activity.date a) = Some k /\ ks <= k <= ke /\ k <> kd.
Proof.
  intros Ha Ht. apply filter_In in Ha as [Ha Hn].
  destruct (dated a Ha Ht) as (k & Hk & Hr). exists k. repeat split; try tauto.
  intros ->. apply negb_true_iff in Hn. unfold on_date, date_eqb in Hn.
  rewrite Ht, String.eqb_refl, Hk, Hd, Z.eqb_refl in Hn. discriminate.
Qed.



Lemma stay_same_rows :
  Forall2 (fun a a' => Activity.id a' = Activity.id a /\
                       Activity.tripId a' = Activity.tripId a) old (map f old).
Proof. apply Forall2_map_right. intros a Ha. now apply same_row. Qed.

Lemma stay_same_order (i j : nat) (a b a' b' : Activity.t) :
  nth_error old i = Some a -> nth_error (map f old) i = Some a' ->
  nth_error old j = Some b -> nth_error (map f old) j = Some b' ->
  Activity.tripId a = id -> Activity.tripId b = id ->
  date_cmp (Activity.date a') (Activity.date b') =
  date_cmp (Activity.date a) (Activity.date b).
Proof.
  intros Hi Hi' Hj Hj' Ta Tb.
  rewrite nth_error_map, Hi in Hi'. rewrite nth_error_map, Hj in Hj'.
  injection Hi' as <-. injection Hj' as <-.
  apply nth_error_In in Hi, Hj.
  destruct (stays_dated a Hi Ta) as (ka & Ha & _ & Na).
  destruct (stays_dated b Hj Tb) as (kb & Hb & _ & Nb).
  unfold date_cmp.
  rewrite (new_date a ka Hi Ta Ha), (new_date b kb Hj Tb Hb), Ha, Hb.
  f_equal. now apply g_order.
Qed.

End Rows_that_stay.

Section RemoveDay_postcondition.
Import ES JS Calendar DateUtils Store App.

Local Open Scope string_scope.
Local Open Scope Z_scope.

Lemma day_of_str_iso (s : string) (k : Z) :
  day_of_str s = Some k ->
  s = iso_of_day k /\ DayFromYear 0 <= k < DayFromYear 10000.
Proof.
  intros H. apply day_of_str_civil in H as (y & m & d & Hc & ->).
  apply civil_of_str_spec in Hc as (-> & V & Hy).
  pose proof (valid_civil_day_bounds y m d V) as Hd. pose proof V as [Hm _].
  pose proof (civil_day_in_year y m d Hm Hd).
  pose proof (DayFromYear_le 0 y ltac:(lia)).
  pose proof (DayFromYear_le (y + 1) 10000 ltac:(lia)).
  split; [now rewrite iso_of_day_civil | lia].
Qed.

Lemma day_of_str_inj (s s' : string) (k : Z) :
  day_of_str s = Some k -> day_of_str s' = Some k -> s = s'.
Proof.
  intros H H'. apply day_of_str_iso in H as [-> _]. now apply day_of_str_iso in H' as [-> _].
Qed.

(** The date of a row moved back a day. *)
Lemma day_before_day (s : string) (k : Z) :
  day_of_str s = Some k -> day_0100 < k ->
  day_of_str (day_before s) = Some (k - 1).
Proof.
  intros H Hk. destruct (day_of_str_read s k H ltac:(lia)) as (_ & Hmax & _ & Hadd).
  rewrite day_0100_eq, DayFromYear_100 in Hk. rewrite DayFromYear_10000 in Hmax.
  unfold day_before. rewrite (Hadd (-1)) by (unfold maxDay; lia).
  replace (k + -1) with (k - 1) by lia.
  apply day_of_iso_of_day. rewrite DayFromYear_10000.
  change (DayFromYear 0) with (-719528). lia.
Qed.

(** What is common to the three branches: the new dates of the trip, and
    the rows that stay as the image of the old ones under a change of
    date [g] that keeps the order. *)
Lemma remove_day_core (env : Env) (ts : list Trip.t) (sel : option string)
    (t : Trip.t) (d : string) (ks kd ke : Z) (w : World) :
  (forall r, rejects env r = false) ->
  fair env ->
  activeTrip ts sel = Some t ->
  NoDup (map Activity.id (Store.activities (db w))) ->
  day_of_str (Trip.startDate t) = Some ks ->
  day_of_str d = Some kd ->
  day_of_str (Trip.endDate t) = Some ke ->
  day_0100 <= ks -> ks < ke -> ks <= kd <= ke ->
  in_range (Trip.id t) ks ke (Store.activities (db w)) ->
  let old := filter (fun a => negb (on_date (Trip.id t) d a)) (Store.activities (db w)) in
  exists ns ne ks' ke' g f,
    fst (handleRemoveDay env ts sel d w) = Done tt /\
    Store.trips (db (snd (handleRemoveDay env ts sel d w))) =
      map (set_trip_dates (Trip.id t) ns ne) (Store.trips (db w)) /\
    Store.activities (db (snd (handleRemoveDay env ts sel d w))) = map f old /\
    day_of_str ns = Some ks' /\ day_of_str ne = Some ke' /\
    day_0100 <= ks' /\ ke' - ks' = ke - ks - 1 /\
    (forall a, In a old ->
       Activity.id (f a) = Activity.id a /\ Activity.tripId (f a) = Activity.tripId a) /\
    (forall a k, In a old -> Activity.tripId a = Trip.id t ->
       day_of_str (Activity.date a) = Some k ->
       day_of_str (Activity.date (f a)) = Some (g k)) /\
    (forall k, ks <= k <= ke -> k <> kd -> ks' <= g k <= ke') /\
    (forall k1 k2, k1 <> kd -> k2 <> kd -> (g k1 ?= g k2) = (k1 ?= k2)) /\
    (kd = ks \/ kd = ke -> forall k, g k = k).
Proof.
  intros A F At N Hs Hd He H100 Hlt Hin Hr old.
  assert (M : maxDay = 100000000) by reflexivity.
  pose proof H100 as H100'. rewrite day_0100_eq, DayFromYear_100 in H100'.
  destruct (day_of_str_read _ ks Hs H100) as (_ & _ & _ & Hadds).
  destruct (day_of_str_read _ ke He ltac:(lia)) as (_ & Hmax & _ & Hadde).
  rewrite DayFromYear_10000 in Hmax.
  assert (D0 : DayFromYear 0 = -719528) by reflexivity.
  destruct (Z.eq_dec kd ks) as [-> | Nks]; [ | destruct (Z.eq_dec kd ke) as [-> | Nke]].
  - (* first day *)
    pose proof (day_of_str_inj d (Trip.startDate t) ks Hd Hs) as Eq. subst d.
    assert (E : addDays (Trip.startDate t) 1 = Ok (iso_of_day (ks + 1)))
      by (apply Hadds; lia).
    rewrite (handleRemoveDay_first env A ts sel t _ w At E).
    match goal with |- context [fetchData env ?W] =>
      destruct (fetchData_accepted_run env W A) as (st & l & -> & Sl) end.
    cbn [fst snd db log Store.trips Store.activities Store.apply after_delete].
    exists (iso_of_day (ks + 1)), (Trip.endDate t), (ks + 1), ke, (fun k => k), (fun a => a).
    rewrite map_id.
    repeat match goal with |- _ /\ _ => split end; auto; try lia.
    apply day_of_iso_of_day. rewrite DayFromYear_10000, D0. lia.
  - (* last day *)
    pose proof (day_of_str_inj d (Trip.endDate t) ke Hd He) as Eq. subst d.
    assert (Hne : Trip.startDate t <> Trip.endDate t)
      by (intros Eq; rewrite Eq, He in Hs; injection Hs; lia).
    assert (E : addDays (Trip.endDate t) (-1) = Ok (iso_of_day (ke + -1)))
      by (apply Hadde; lia).
    rewrite (handleRemoveDay_last env A ts sel t _ w At Hne E).
    match goal with |- context [fetchData env ?W] =>
      destruct (fetchData_accepted_run env W A) as (st & l & -> & Sl) end.
    cbn [fst snd db log Store.trips Store.activities Store.apply after_delete].
    exists (Trip.startDate t), (iso_of_day (ke + -1)), ks, (ke - 1), (fun k => k), (fun a => a).
    rewrite map_id.
    repeat match goal with |- _ /\ _ => split end; auto; try lia.
    replace (ke + -1) with (ke - 1) by lia.
    apply day_of_iso_of_day. rewrite DayFromYear_10000, D0. lia.
  - (* a day in between *)
    assert (E : addDays (Trip.endDate t) (-1) = Ok (iso_of_day (ke + -1)))
      by (apply Hadde; lia).
    assert (Ds : d <> Trip.startDate t) by (intros ->; rewrite Hs in Hd; injection Hd; lia).
    assert (De : d <> Trip.endDate t) by (intros ->; rewrite He in Hd; injection Hd; lia).
    destruct (handleRemoveDay_interior env A F ts sel t d (iso_of_day (ke + -1)) w At Ds De)
      as (l & -> & Sl); [intros a _; apply after_date_addDays | exact E | ].
    match goal with |- context [fetchData env ?W] =>
      destruct (fetchData_accepted_run env W A) as (st & l' & -> & Sl') end.
    cbn [fst snd db]. rewrite (interior_activities env t d w F N).
    cbn [Store.apply Store.trips Store.activities]. fold old.
    exists (Trip.startDate t), (iso_of_day (ke + -1)), ks, (ke - 1),
      (fun k => if kd <? k then k - 1 else k),
      (fun a => if after_date (Trip.id t) d a
                then Activity.with_date a (day_before (Activity.date a)) else a).
    split; [reflexivity | ]. split; [reflexivity | ]. split; [reflexivity | ].
    split; [exact Hs | ]. split.
    { replace (ke + -1) with (ke - 1) by lia.
      apply day_of_iso_of_day. rewrite DayFromYear_10000, D0. lia. }
    split; [exact H100 | ]. split; [lia | ]. split.
    { intros a _. destruct (after_date (Trip.id t) d a); split; reflexivity. }
    split.
    { intros a k Ha Ta Hk. unfold after_date, date_gtb.
      rewrite Ta, String.eqb_refl, Hk, Hd. cbn [andb].
      destruct (Z.ltb_spec kd k); [ | exact Hk].
      cbn [Activity.date Activity.with_date]. apply day_before_day; [exact Hk | ].
      rewrite day_0100_eq, DayFromYear_100. lia. }
    split.
    { intros k Hk Nk. destruct (Z.ltb_spec kd k); lia. }
    split; [ | lia].
    intros k1 k2 N1 N2.
    destruct (Z.ltb_spec kd k1); destruct (Z.ltb_spec kd k2);
      match goal with
      | |- (?x ?= ?y) = _ =>
          destruct (Z.compare_spec k1 k2); destruct (Z.compare_spec x y);
          reflexivity || lia
      end.
Qed.

Lemma fair_sample : fair Sample.env.
Proof. intros rs. symmetry. apply Permutation_rev. Defined.

Lemma NoDup_sample : NoDup (map Activity.id (Store.activities (db Sample.world))).
Proof.
  repeat (constructor; [cbn; intros H; repeat destruct H as [H | H]; discriminate H || exact H | ]).
  constructor.
Defined.


Lemma in_range_sample : in_range "t1" 19783 19787 (Store.activities (db Sample.world)).
Proof.
  intros a Ha Ta. cbn in Ha.
  repeat (destruct Ha as [<- | Ha];
          [first [discriminate Ta
                 | eexists; split; [reflexivity | split; apply Z.leb_le; reflexivity]] | ]).
  destruct Ha.
Defined.

End RemoveDay_postcondition.

(* ================================================================== *)
(** ** The order of the requests of a run                               *)
(* ================================================================== *)

Section Phases.
Import ES JS Calendar DateUtils Store App.

Local Open Scope string_scope.

Variable env : Env.

Lemma quiet_ret {A} (a : A) : quiet (ret a).
Proof. intros w. exists []. cbn. rewrite app_nil_r. auto. Qed.

Lemma quiet_throw {A} (e : error) : quiet (@throw A e).
Proof. intros w. exists []. cbn. rewrite app_nil_r. auto. Qed.

Lemma quiet_lift {A} (r : result A) : quiet (lift r).
Proof. destruct r; [apply quiet_ret | apply quiet_throw]. Qed.

Lemma quiet_bind {A B} (c : M A) (k : A -> M B) :
  quiet c -> (forall a, quiet (k a)) -> quiet (bind c k).
Proof.
  intros Hc Hk w. unfold bind. destruct (Hc w) as (l1 & E1 & F1).
  destruct (c w) as [[a | e] w1]; cbn [snd] in *.
  - destruct (Hk a w1) as (l2 & E2 & F2). exists (l1 ++ l2)%list.
    rewrite E2, E1, List.app_assoc. split; [reflexivity | now apply Forall_app].
  - exists l1. auto.
Qed.

Lemma quiet_try_catch {A} (c : M A) (h : error -> M A) :
  quiet c -> (forall e, quiet (h e)) -> quiet (try_catch c h).
Proof.
  intros Hc Hh w. unfold try_catch. destruct (Hc w) as (l1 & E1 & F1).
  destruct (c w) as [[a | e] w1]; cbn [snd] in *.
  - exists l1. auto.
  - destruct (Hh e w1) as (l2 & E2 & F2). exists (l1 ++ l2)%list.
    rewrite E2, E1, List.app_assoc. split; [reflexivity | now apply Forall_app].
Qed.

Lemma quiet_emit (e : Event) : is_shift_event e = false -> quiet (emit e).
Proof. intros H w. exists [e]. cbn. auto. Qed.

Lemma quiet_set_db (d : Store.t) : quiet (set_db d).
Proof. intros w. exists []. cbn. rewrite app_nil_r. auto. Qed.

Lemma quiet_setTrips (l : list Trip.t) : quiet (setTrips l).
Proof. intros w. exists []. cbn. rewrite app_nil_r. auto. Qed.

Lemma quiet_setActivities (l : list Activity.t) : quiet (setActivities l).
Proof. intros w. exists []. cbn. rewrite app_nil_r. auto. Qed.

Lemma quiet_settle (r : Request) : is_date_update r = false -> quiet (settle env r).
Proof.
  intros H w. unfold settle. destruct (rejects env r).
  - apply quiet_bind; [now apply quiet_emit | intros; apply quiet_ret].
  - apply quiet_bind; [apply quiet_set_db | intros].
    apply quiet_bind; [now apply quiet_emit | intros; apply quiet_ret].
Qed.

Lemma quiet_request (r : Request) : is_date_update r = false -> quiet (request env r).
Proof.
  intros H. apply quiet_bind; [now apply quiet_emit | intros; now apply quiet_settle].
Qed.

Lemma quiet_select {A} (r : Request) (rows : Store.t -> A) :
  is_date_update r = false -> quiet (select env r rows).
Proof.
  intros H w. unfold select.
  apply quiet_bind; [now apply quiet_request | intros [ | ]; apply quiet_ret].
Qed.

Lemma quiet_fetchData : quiet (fetchData env).
Proof.
  intros w. unfold fetchData. destruct (user w).
  - apply quiet_try_catch; [ | intros; apply quiet_ret].
    apply quiet_bind; [now apply quiet_select | intros [rows | ]; [ | apply quiet_throw]].
    apply quiet_bind; [apply quiet_setTrips | intros _].
    apply quiet_bind; [now apply quiet_select | intros [_ | ]; [ | apply quiet_throw]].
    apply quiet_bind; [now apply quiet_select | intros [acts | ]; [ | apply quiet_throw]].
    apply quiet_setActivities.
  - exists []. cbn. rewrite app_nil_r. auto.
Qed.

Lemma quiet_handleUpdateTripDates (ts : list Trip.t) (id s e : string) :
  quiet (handleUpdateTripDates env ts id s e).
Proof.
  apply quiet_try_catch; [ | intros; now apply quiet_emit].
  apply quiet_bind; [now apply quiet_request | intros [ | ]];
    [apply quiet_throw | apply quiet_setTrips].
Qed.

Lemma calm_ret {A} (a : A) : calm (ret a).
Proof.
  intros w. exists []. cbn. rewrite app_nil_r. repeat split; auto. intros r [].
Qed.

Lemma calm_throw {A} (e : error) : calm (@throw A e).
Proof.
  intros w. exists []. cbn. rewrite app_nil_r. repeat split; auto. intros r [].
Qed.

Lemma settled_within_app (l1 l2 : list Event) :
  settled_within l1 -> settled_within l2 -> settled_within (l1 ++ l2).
Proof.
  intros H1 H2 r Hr Hu. apply in_app_or in Hr as [Hr | Hr].
  - destruct (H1 r Hr Hu) as [ok Hok]. exists ok. apply in_or_app. now left.
  - destruct (H2 r Hr Hu) as [ok Hok]. exists ok. apply in_or_app. now right.
Qed.

(** [c] followed by [k], where [k] is calm on what [c] can return. *)
Lemma calm_bind {A B} (P : A -> Prop) (c : M A) (k : A -> M B) :
  calm c -> (forall w a, fst (c w) = Done a -> P a) ->
  (forall a, P a -> calm (k a)) -> calm (bind c k).
Proof.
  intros Hc HP Hk w. unfold bind. destruct (Hc w) as (l1 & E1 & F1 & S1).
  specialize (HP w). destruct (c w) as [[a | e] w1]; cbn [fst snd] in *.
  - destruct (Hk a (HP a eq_refl) w1) as (l2 & E2 & F2 & S2). exists (l1 ++ l2)%list.
    rewrite E2, E1, List.app_assoc. split; [reflexivity | ].
    split; [now apply Forall_app | now apply settled_within_app].
  - exists l1. auto.
Qed.

Lemma calm_request (r : Request) : is_trip_update r = false -> calm (request env r).
Proof.
  intros H w. unfold request, bind, emit, settle, set_db, ret. cbn.
  destruct (rejects env r); cbn; eexists; rewrite <- List.app_assoc;
    (split; [reflexivity | ]); (split; [repeat constructor; exact H | ]);
    intros r' [[= <-] | [[=] | []]] _; eexists; right; left; reflexivity.
Qed.

Lemma calm_select {A} (r : Request) (rows : Store.t -> A) :
  is_trip_update r = false -> calm (select env r rows).
Proof.
  intros H w. unfold select.
  apply (calm_bind (fun _ => True)); [now apply calm_request | auto | ].
  intros [ | ] _; apply calm_ret.
Qed.

Lemma shift_request_run (a : Activity.t) (w : World) :
  shift_request a w =
  (match addDays (Activity.date a) (-1) with
   | Ok nd => Done (UpdateActivityDate (Activity.id a) nd)
   | Throw e => Raised (JsError e)
   end, w).
Proof.
  unfold shift_request, bind. destruct (addDays (Activity.date a) (-1)); reflexivity.
Qed.

Lemma mapM_shift_request_run (acts : list Activity.t) (w : World) :
  snd (mapM shift_request acts w) = w /\
  forall rs, fst (mapM shift_request acts w) = Done rs ->
             Forall (fun r => is_date_update r = true) rs.
Proof.
  induction acts as [ | a acts [IHw IHr]]; cbn [mapM].
  - split; [reflexivity | ]. intros rs [= <-]. constructor.
  - unfold bind. rewrite shift_request_run.
    destruct (addDays (Activity.date a) (-1)) as [nd | e].
    + destruct (mapM shift_request acts w) as [[rs | e] w1]; cbn [fst snd ret] in *; subst w1.
      * split; [reflexivity | ]. intros rs' [= <-]. constructor; [reflexivity | ].
        now apply IHr.
      * split; [reflexivity | discriminate].
    + cbn. split; [reflexivity | discriminate].
Qed.

Lemma calm_mapM_shift_request (acts : list Activity.t) : calm (mapM shift_request acts).
Proof.
  intros w. exists []. rewrite (proj1 (mapM_shift_request_run acts w)), app_nil_r.
  repeat split; auto. intros r [].
Qed.

Lemma settle_all_log (rs : list Request) (w : World) :
  log (snd (settle_all env rs w)) =
  (log w ++ map (fun r => Settled r (negb (rejects env r))) rs)%list.
Proof.
  revert w. induction rs as [ | r rs IH]; intros w; cbn [settle_all map].
  - cbn. now rewrite app_nil_r.
  - unfold bind at 1. unfold settle at 1.
    destruct (rejects env r); unfold bind, emit, set_db, ret; cbn [fst snd];
      rewrite IH; cbn; now rewrite <- List.app_assoc.
Qed.

Lemma calm_Promise_all (rs : list Request) :
  fair env -> Forall (fun r => is_date_update r = true) rs -> calm (Promise_all env rs).
Proof.
  intros F U w. unfold Promise_all, bind, emit_all. cbn [fst snd].
  rewrite settle_all_log. cbn [log]. eexists. rewrite <- List.app_assoc.
  split; [reflexivity | ]. split.
  - apply Forall_app. split; apply Forall_forall; intros e He;
      apply in_map_iff in He as (r & <- & Hr); [ | reflexivity].
    cbn. rewrite Forall_forall in U. specialize (U r Hr).
    destruct r; try discriminate; reflexivity.
  - intros r Hr _. exists (negb (rejects env r)). apply in_or_app. right.
    apply in_map_iff. exists r. split; [reflexivity | ].
    apply in_app_or in Hr as [Hr | Hr].
    + apply in_map_iff in Hr as (r' & [= ->] & Hr').
      eapply Permutation_in; [symmetry; apply F | exact Hr'].
    + apply in_map_iff in Hr as (r' & [=] & _).
Qed.

Lemma phased_quiet {A} (c : M A) : quiet c -> phased c.
Proof.
  intros H w. destruct (H w) as (l & E & F). exists [], l.
  repeat split; auto. intros r [].
Qed.

Lemma phased_calm_bind {A B} (P : A -> Prop) (c : M A) (k : A -> M B) :
  calm c -> (forall w a, fst (c w) = Done a -> P a) ->
  (forall a, P a -> phased (k a)) -> phased (bind c k).
Proof.
  intros Hc HP Hk w. unfold bind. destruct (Hc w) as (l1 & E1 & F1 & S1).
  specialize (HP w). destruct (c w) as [[a | e] w1]; cbn [fst snd] in *.
  - destruct (Hk a (HP a eq_refl) w1) as (pre & post & E2 & F2 & S2 & Q2).
    exists (l1 ++ pre)%list, post. rewrite E2, E1, <- !List.app_assoc.
    split; [reflexivity | ]. split; [now apply Forall_app | ].
    split; [now apply settled_within_app | exact Q2].
  - exists l1, []. rewrite app_nil_r. auto.
Qed.

Lemma phased_bind_quiet {A B} (c : M A) (k : A -> M B) :
  phased c -> (forall a, quiet (k a)) -> phased (bind c k).
Proof.
  intros Hc Hk w. unfold bind. destruct (Hc w) as (pre & post & E1 & F1 & S1 & Q1).
  destruct (c w) as [[a | e] w1]; cbn [snd] in *.
  - destruct (Hk a w1) as (l & E2 & F2). exists pre, (post ++ l)%list.
    rewrite E2, E1, <- !List.app_assoc. split; [reflexivity | ].
    split; [exact F1 | ]. split; [exact S1 | now apply Forall_app].
  - exists pre, post. auto.
Qed.

Lemma phased_try_catch {A} (c : M A) (h : error -> M A) :
  phased c -> (forall e, quiet (h e)) -> phased (try_catch c h).
Proof.
  intros Hc Hh w. unfold try_catch. destruct (Hc w) as (pre & post & E1 & F1 & S1 & Q1).
  destruct (c w) as [[a | e] w1]; cbn [snd] in *.
  - exists pre, post. auto.
  - destruct (Hh e w1) as (l & E2 & F2). exists pre, (post ++ l)%list.
    rewrite E2, E1, <- !List.app_assoc. split; [reflexivity | ].
    split; [exact F1 | ]. split; [exact S1 | now apply Forall_app].
Qed.

End Phases.

Section Request_order.
Import ES JS Calendar DateUtils Store App.

Local Open Scope string_scope.

(** C9.  In every run of [handleRemoveDay] on a day that is neither the
    first nor the last, whatever the store rejects and in whatever order it
    answers, the events of the run split in two: up to the split no trip
    date update is sent and every activity date update that is sent is
    answered; after the split no activity date update is sent or answered.
    So every trip date update is sent after all the shifts are answered. *)
Theorem shifts_settled_before_trip_update (env : Env) (ts : list Trip.t)
    (sel : option string) (t : Trip.t) (d : string) (w : World) :
  fair env ->
  activeTrip ts sel = Some t ->
  d <> Trip.startDate t -> d <> Trip.endDate t ->
  exists pre post,
    log (snd (handleRemoveDay env ts sel d w)) = (log w ++ pre ++ post)%list /\
    Forall (fun e => is_trip_write e = false) pre /\
    (forall r, In (Issued r) pre -> is_date_update r = true ->
               exists ok, In (Settled r ok) pre) /\
    Forall (fun e => is_shift_event e = false) post.
Proof.
  intros F At Ds De. revert w. change (phased (handleRemoveDay env ts sel d)).
  unfold handleRemoveDay. rewrite At.
  destruct (String.eqb_spec d (Trip.startDate t)); [congruence | ].
  destruct (String.eqb_spec d (Trip.endDate t)); [congruence | ].
  apply phased_try_catch; [ | intros; now apply quiet_emit].
  apply (phased_calm_bind (fun _ => True)); [now apply (calm_request env) | auto | intros delError _].
  apply (phased_calm_bind (fun _ => True));
    [destruct delError; [apply calm_throw | apply calm_ret] | auto | intros _ _].
  apply phased_bind_quiet; [ | intros; apply quiet_fetchData].
  apply (phased_calm_bind (fun _ => True)); [now apply (calm_select env) | auto | ].
  intros [actsToShift | ] _; [ | apply phased_quiet, quiet_throw].
  apply (phased_calm_bind (fun _ => True)); [ | auto | intros _ _].
  - destruct (0 <? List.length actsToShift)%nat; [ | apply calm_ret].
    apply (calm_bind (fun rs => Forall (fun r => is_date_update r = true) rs)).
    + apply calm_mapM_shift_request.
    + intros w rs. apply (proj2 (mapM_shift_request_run actsToShift w)).
    + intros rs U. now apply calm_Promise_all.
  - apply phased_quiet. apply quiet_bind; [apply quiet_lift | intros].
    apply quiet_handleUpdateTripDates.
Qed.

Lemma shifts_settled_before_trip_update_witness :
  exists pre post,
    log (snd (handleRemoveDay Sample.env [Sample.goa; Sample.pune] (Some "t1")
                "2024-03-03" Sample.world)) = (log Sample.world ++ pre ++ post)%list /\
    Forall (fun e => is_trip_write e = false) pre /\
    (forall r, In (Issued r) pre -> is_date_update r = true ->
               exists ok, In (Settled r ok) pre) /\
    Forall (fun e => is_shift_event e = false) post.
Proof.
  exact (shifts_settled_before_trip_update Sample.env [Sample.goa; Sample.pune]
           (Some "t1") Sample.goa "2024-03-03" Sample.world fair_sample eq_refl
           ltac:(discriminate) ltac:(discriminate)).
Defined.

(** The events of that run on the sample trip. *)
Example sample_interior_log :
  log (snd (handleRemoveDay Sample.env [Sample.goa; Sample.pune] (Some "t1")
              "2024-03-03" Sample.world)) =
  [Issued (DeleteActivitiesOn "t1" "2024-03-03");
   Settled (DeleteActivitiesOn "t1" "2024-03-03") true;
   Issued (SelectActivitiesAfter "t1" "2024-03-03");
   Settled (SelectActivitiesAfter "t1" "2024-03-03") true;
   Issued (UpdateActivityDate "a3" "2024-03-03");
   Issued (UpdateActivityDate "a4" "2024-03-04");
   Settled (UpdateActivityDate "a4" "2024-03-04") true;
   Settled (UpdateActivityDate "a3" "2024-03-03") true;
   Issued (UpdateTripDates "t1" "2024-03-01" "2024-03-04");
   Settled (UpdateTripDates "t1" "2024-03-01" "2024-03-04") true;
   Issued SelectTrips; Settled SelectTrips true;
   Issued SelectExpenses; Settled SelectExpenses true;
   Issued SelectActivities; Settled SelectActivities true].
Proof. vm_compute. reflexivity. Qed.

End Request_order.

(* ================================================================== *)
(** * Further properties of the date utilities                          *)
(* ================================================================== *)

Section DateUtils_more.
Import ES JS Calendar DateUtils Gregorian.

Local Open Scope string_scope.
Local Open Scope Z_scope.

Lemma civil_day_next (y m d : Z) :
  valid_civil y m d ->
  let '(y', m', d') := next_date y m d in
  valid_civil y' m' d' /\ civil_day y' m' d' = civil_day y m d + 1.
Proof.
  intros [Hm Hd]. unfold next_date.
  destruct (Z.ltb_spec d (days_in_month y m)) as [L | L].
  - split; [split; lia | unfold civil_day; lia].
  - assert (d = days_in_month y m) by lia. subst d.
    destruct (Z.ltb_spec m 12) as [L2 | L2].
    + split.
      * split; [lia | ]. unfold days_in_month.
        destruct (leap_cases y) as [[Lp _] | [Lp _]]; rewrite Lp;
          month_cases m; norm_succ; norm_month; lia.
      * unfold civil_day, days_in_month.
        destruct (leap_cases y) as [[Lp _] | [Lp _]]; rewrite Lp;
          month_cases m; norm_succ; norm_month; lia.
    + assert (m = 12) by lia. subst m. split.
      * split; [lia | ]. unfold days_in_month. lia.
      * unfold civil_day. rewrite DayFromYear_succ.
        destruct (leap_cases y) as [[Lp D] | [Lp D]]; rewrite Lp, D;
          destruct (leap_cases (y + 1)) as [[Lq _] | [Lq _]]; rewrite Lq;
          norm_month; lia.
Qed.

Lemma DayFromYear_275760 : DayFromYear 275760 = 99999744.
Proof. reflexivity. Qed.

Lemma civil_day_readable (y m d : Z) :
  100 <= y <= 275759 -> valid_civil y m d ->
  DayFromYear 100 <= civil_day y m d < DayFromYear 275760.
Proof.
  intros Hy V. pose proof (valid_civil_day_bounds _ _ _ V) as B. destruct V as [Hm _].
  pose proof (civil_day_in_year y m d Hm B).
  pose proof (DayFromYear_le 100 y ltac:(lia)).
  pose proof (DayFromYear_le (y + 1) 275760 ltac:(lia)). lia.
Qed.

(** X1.  For a calendar date [y-m-d] of the years 100 to 275759,
    [addDays] of its string and 1 is the string of the next calendar
    date: the next day of the month, the first of the next month after
    the last day of a month (the 29th of February in a leap year, the
    28th otherwise), the first of January after the 31st of December. *)
Theorem addDays_next_day (y m d : Z) :
  100 <= y <= 275759 ->
  valid_civil y m d ->
  addDays (iso_date y m d) 1 = Ok (date_string (next_date y m d)).
Proof.
  intros Hy V. pose proof (civil_day_readable y m d Hy V) as R.
  rewrite DayFromYear_100, DayFromYear_275760 in R.
  pose proof (valid_civil_day_bounds _ _ _ V) as B.
  assert (M : maxDay = 100000000) by reflexivity.
  rewrite addDays_fields; rewrite ?full_year_ge_100; try lia; [ | apply V].
  destruct (Z.leb_spec (- maxDay) (civil_day y m d + 1)); [ | lia].
  destruct (Z.leb_spec (civil_day y m d + 1) maxDay); [ | lia].
  cbn [andb]. f_equal.
  pose proof (civil_day_next y m d V) as N.
  destruct (next_date y m d) as [[y' m'] d']. destruct N as [V' E].
  rewrite <- E. now rewrite iso_of_day_civil.
Qed.

Lemma addDays_next_day_witness :
  100 <= 2024 <= 275759 /\ valid_civil 2024 2 29 /\
  addDays "2024-02-29" 1 = Ok "2024-03-01".
Proof.
  assert (H1 : 100 <= 2024 <= 275759) by lia.
  assert (H2 : valid_civil 2024 2 29) by (apply valid_civilb_spec; reflexivity).
  split; [exact H1 | ]. split; [exact H2 | ].
  exact (addDays_next_day 2024 2 29 H1 H2).
Defined.

(** X2.  Shifts compose: for a calendar date [d] on or after 0100-01-01,
    shifting by [m] and then by [n] gives what shifting by [m + n] gives,
    as long as the date in between is on or after 0100-01-01 and both
    dates are inside the range of a Date. *)
Theorem addDays_compose (d : string) (a m n : Z) :
  day_of_str d = Some a ->
  day_0100 <= a ->
  day_0100 <= a + m <= maxDay ->
  - maxDay <= a + m + n <= maxDay ->
  exists d1, addDays d m = Ok d1 /\ addDays d1 n = addDays d (m + n).
Proof.
  intros Hd Ha Hm Hn.
  destruct (day_of_str_read d a Hd Ha) as (_ & _ & _ & Hadd).
  rewrite day_0100_eq in Hm. pose proof DayFromYear_100 as D100.
  assert (M : maxDay = 100000000) by reflexivity.
  exists (iso_of_day (a + m)). split; [apply Hadd; lia | ].
  rewrite Hadd by lia.
  rewrite addDays_of_day by exact Hm.
  destruct (Z.leb_spec (- maxDay) (a + m + n)); [ | lia].
  destruct (Z.leb_spec (a + m + n) maxDay); [ | lia].
  cbn [andb]. now rewrite Z.add_assoc.
Qed.

Lemma addDays_compose_witness :
  day_of_str "2023-12-30" = Some 19721 /\
  day_0100 <= 19721 /\
  day_0100 <= 19721 + 3 <= maxDay /\
  - maxDay <= 19721 + 3 + 60 <= maxDay /\
  exists d1, addDays "2023-12-30" 3 = Ok d1 /\ addDays d1 60 = addDays "2023-12-30" (3 + 60).
Proof.
  assert (H1 : day_of_str "2023-12-30" = Some 19721) by reflexivity.
  assert (H2 : day_0100 <= 19721) by (apply Z.leb_le; reflexivity).
  assert (H3 : day_0100 <= 19721 + 3 <= maxDay) by (split; apply Z.leb_le; reflexivity).
  assert (H4 : - maxDay <= 19721 + 3 + 60 <= maxDay)
    by (split; apply Z.leb_le; reflexivity).
  split; [exact H1 | ]. split; [exact H2 | ]. split; [exact H3 | ]. split; [exact H4 | ].
  exact (addDays_compose "2023-12-30" 19721 3 60 H1 H2 H3 H4).
Defined.

(** [Date.UTC] of any three numbers is the invalid date or a midnight. *)
Lemma Date_UTC_cases (y m d : num) :
  Date_new (Date_UTC y m d) = None \/
  exists k, - maxDay <= k <= maxDay /\ Date_new (Date_UTC y m d) = midnight k.
Proof.
  unfold Date_new, Date_UTC. rewrite TimeClip_idem.
  destruct (MakeDay _ _ _) as [dy | ]; [ | left; reflexivity].
  cbn [MakeDate]. rewrite Z.add_0_r.
  destruct (Z.le_gt_cases (- maxDay) dy); destruct (Z.le_gt_cases dy maxDay);
    try (left; apply TimeClip_day_out; lia).
  right. exists dy. split; [lia | ]. apply TimeClip_day. lia.
Qed.

(** [addDays] on any string is [dateStr_of] of the invalid date or of a
    midnight. *)
Lemma addDays_cases (s : string) (n : Z) :
  addDays s n = Throw RangeError \/
  exists k, - maxDay <= k <= maxDay /\ addDays s n = Ok (iso_of_day k).
Proof.
  rewrite addDays_unfold. cbv zeta.
  destruct (Date_UTC_cases
              (parseInt (ToString (index (split "-" s) 0)))
              (sub (parseInt (ToString (index (split "-" s) 1))) (Some 1))
              (parseInt (ToString (index (split "-" s) 2)))) as [E | (k & Hk & E)];
    rewrite E.
  - left. reflexivity.
  - unfold midnight. rewrite setUTCDate_add.
    replace (k * msPerDay + n * msPerDay) with ((k + n) * msPerDay) by lia.
    destruct (Z.le_gt_cases (- maxDay) (k + n)); destruct (Z.le_gt_cases (k + n) maxDay);
      try (left; rewrite TimeClip_day_out by lia; reflexivity).
    right. exists (k + n). split; [lia | ].
    rewrite TimeClip_day by lia. now rewrite dateStr_of_time, Day_scaled.
Qed.

(** X3.  Whatever the string and the shift, a string that [addDays]
    returns is the date part of a valid Date: the ISO date of a day number
    inside the range of a Date.  For the years 0 to 9999 it is a calendar
    date written [YYYY-MM-DD], and from the year 100 on [addDays] of it
    and 0 returns it unchanged. *)
Theorem addDays_result (s : string) (n : Z) (r : string) :
  addDays s n = Ok r ->
  exists k, - maxDay <= k <= maxDay /\ r = iso_of_day k /\
    (DayFromYear 0 <= k < DayFromYear 10000 -> day_of_str r = Some k) /\
    (DayFromYear 100 <= k -> addDays r 0 = Ok r).
Proof.
  intros H. destruct (addDays_cases s n) as [E | (k & Hk & E)]; [congruence | ].
  rewrite E in H. injection H as <-. exists k. split; [exact Hk | ].
  split; [reflexivity | ]. split.
  - apply day_of_iso_of_day.
  - intros H100. rewrite addDays_of_day by lia. rewrite Z.add_0_r.
    destruct (Z.leb_spec (- maxDay) k); [ | lia].
    destruct (Z.leb_spec k maxDay); [ | lia]. reflexivity.
Qed.

Lemma addDays_result_witness :
  addDays "2024-02-30" 0 = Ok "2024-03-01" /\
  exists k, - maxDay <= k <= maxDay /\ "2024-03-01" = iso_of_day k /\
    (DayFromYear 0 <= k < DayFromYear 10000 -> day_of_str "2024-03-01" = Some k) /\
    (DayFromYear 100 <= k -> addDays "2024-03-01" 0 = Ok "2024-03-01").
Proof.
  assert (H : addDays "2024-02-30" 0 = Ok "2024-03-01") by (vm_compute; reflexivity).
  split; [exact H | ].
  exact (addDays_result "2024-02-30" 0 "2024-03-01" H).
Defined.

Lemma zseq_snoc (a : Z) (n : nat) :
  zseq a (S n) = (zseq a n ++ [a + Z.of_nat n])%list.
Proof.
  revert a. induction n as [ | n IH]; intros a.
  - cbn. now rewrite Z.add_0_r.
  - change (zseq a (S (S n))) with (a :: zseq (a + 1) (S n)).
    rewrite IH. cbn [zseq app]. do 3 f_equal. lia.
Qed.

Lemma zseq_In (a : Z) (n : nat) (k : Z) :
  In k (zseq a n) <-> a <= k < a + Z.of_nat n.
Proof.
  revert a. induction n as [ | n IH]; intros a.
  - cbn. lia.
  - cbn [zseq In]. rewrite IH. lia.
Qed.

(** The array of any two strings: the midnights of a run of days inside
    the range of a Date. *)
Lemma getDaysArray_zseq (s e : string) :
  exists a n, getDaysArray s e = map midnight (zseq a n) /\
    (n <> O -> - maxDay <= a /\ a + Z.of_nat n - 1 <= maxDay).
Proof.
  destruct (utc_of_str_cases s) as [Es | (a & Ha & Es)].
  { exists 0, O. split; [ | congruence]. apply getDaysArray_NaN. now left. }
  destruct (utc_of_str_cases e) as [Ee | (b & Hb & Ee)].
  { exists 0, O. split; [ | congruence]. apply getDaysArray_NaN. now right. }
  exists a, (Z.to_nat (b - a + 1)). split.
  - apply getDaysArray_midnights; auto; lia.
  - lia.
Qed.

(** X4.  Whatever the two strings, [getDaysArray] returns the midnights
    of consecutive days, none skipped or repeated, and every element is a
    valid Date: [toISOString] does not throw on it and gives the date
    string of its day. *)
Theorem getDaysArray_run (s e : string) :
  exists a n,
    getDaysArray s e = map midnight (zseq a n) /\
    forall d, In d (getDaysArray s e) ->
      exists k, d = midnight k /\ - maxDay <= k <= maxDay /\
                dateStr_of d = Ok (iso_of_day k).
Proof.
  destruct (getDaysArray_zseq s e) as (a & n & E & B).
  exists a, n. split; [exact E | ]. rewrite E. intros d Hd.
  apply in_map_iff in Hd. destruct Hd as (k & <- & Hk).
  apply zseq_In in Hk. exists k. split; [reflexivity | ].
  assert (n <> O) by (intros ->; cbn in Hk; lia).
  split; [specialize (B H); lia | ].
  unfold midnight. now rewrite dateStr_of_time, Day_scaled.
Qed.

(** X5.  Extending a trip appends one day: for start and end dates
    written [YYYY-MM-DD], the start on or after 0100-01-01 and not after
    the end, the days up to the day after the end are the days of the trip
    as they were, followed by that day. *)
Theorem getDaysArray_extend (s e : string) (a b : Z) :
  day_of_str s = Some a ->
  day_of_str e = Some b ->
  day_0100 <= a ->
  a <= b ->
  exists ne, addDays e 1 = Ok ne /\
    getDaysArray s ne = (getDaysArray s e ++ [midnight (b + 1)])%list.
Proof.
  intros Hs He Ha Hab.
  destruct (day_of_str_read s a Hs Ha) as (_ & _ & Us & _).
  destruct (day_of_str_read e b He ltac:(lia)) as (_ & Hmax & Ue & Hadd).
  rewrite day_0100_eq, DayFromYear_100 in Ha. rewrite DayFromYear_10000 in Hmax.
  assert (M : maxDay = 100000000) by reflexivity.
  exists (iso_of_day (b + 1)). split; [apply Hadd; lia | ].
  assert (Un : utc_of_str (iso_of_day (b + 1)) = midnight (b + 1))
    by (apply utc_of_day; rewrite DayFromYear_100; lia).
  rewrite (getDaysArray_midnights s _ a (b + 1) Us Un) by lia.
  rewrite (getDaysArray_midnights s e a b Us Ue) by lia.
  replace (Z.to_nat (b + 1 - a + 1)) with (S (Z.to_nat (b - a + 1))) by lia.
  rewrite zseq_snoc, map_app. cbn [map]. do 3 f_equal. lia.
Qed.

Lemma getDaysArray_extend_witness :
  day_of_str "2024-02-27" = Some 19780 /\
  day_of_str "2024-02-29" = Some 19782 /\
  day_0100 <= 19780 /\
  19780 <= 19782 /\
  exists ne, addDays "2024-02-29" 1 = Ok ne /\
    getDaysArray "2024-02-27" ne =
    (getDaysArray "2024-02-27" "2024-02-29" ++ [midnight (19782 + 1)])%list.
Proof.
  assert (H1 : day_of_str "2024-02-27" = Some 19780) by reflexivity.
  assert (H2 : day_of_str "2024-02-29" = Some 19782) by reflexivity.
  assert (H3 : day_0100 <= 19780) by (apply Z.leb_le; reflexivity).
  assert (H4 : 19780 <= 19782) by (apply Z.leb_le; reflexivity).
  split; [exact H1 | ]. split; [exact H2 | ]. split; [exact H3 | ]. split; [exact H4 | ].
  exact (getDaysArray_extend "2024-02-27" "2024-02-29" 19780 19782 H1 H2 H3 H4).
Defined.

Lemma zseq_removelast (a : Z) (n : nat) :
  removelast (zseq a (S n)) = zseq a n.
Proof. rewrite zseq_snoc. apply removelast_last. Qed.

Lemma map_removelast {A B} (f : A -> B) (l : list A) :
  map f (removelast l) = removelast (map f l).
Proof.
  induction l as [ | x [ | y l] IH]; [reflexivity | reflexivity | ].
  change (f x :: map f (removelast (y :: l)) = f x :: removelast (map f (y :: l))).
  now rewrite IH.
Qed.

(** X6.  Dropping a boundary day leaves the other days as they were: for
    a trip of more than one day, written [YYYY-MM-DD] and starting on or
    after 0100-01-01, the days from the day after the start are the days
    of the trip without the first, and the days up to the day before the
    end are the days of the trip without the last. *)
Theorem getDaysArray_shrink (s e : string) (a b : Z) :
  day_of_str s = Some a ->
  day_of_str e = Some b ->
  day_0100 <= a ->
  a < b ->
  exists ns ne, addDays s 1 = Ok ns /\ addDays e (-1) = Ok ne /\
    getDaysArray ns e = tl (getDaysArray s e) /\
    getDaysArray s ne = removelast (getDaysArray s e).
Proof.
  intros Hs He Ha Hab.
  destruct (day_of_str_read s a Hs Ha) as (_ & _ & Us & Hadds).
  destruct (day_of_str_read e b He ltac:(lia)) as (_ & Hmax & Ue & Hadde).
  rewrite day_0100_eq, DayFromYear_100 in Ha. rewrite DayFromYear_10000 in Hmax.
  assert (M : maxDay = 100000000) by reflexivity.
  exists (iso_of_day (a + 1)), (iso_of_day (b + -1)).
  split; [apply Hadds; lia | ]. split; [apply Hadde; lia | ].
  assert (Uns : utc_of_str (iso_of_day (a + 1)) = midnight (a + 1))
    by (apply utc_of_day; rewrite DayFromYear_100; lia).
  assert (Une : utc_of_str (iso_of_day (b + -1)) = midnight (b + -1))
    by (apply utc_of_day; rewrite DayFromYear_100; lia).
  rewrite (getDaysArray_midnights _ e (a + 1) b Uns Ue) by lia.
  rewrite (getDaysArray_midnights s _ a (b + -1) Us Une) by lia.
  rewrite (getDaysArray_midnights s e a b Us Ue) by lia.
  replace (Z.to_nat (b - a + 1)) with (S (Z.to_nat (b - (a + 1) + 1))) by lia.
  split; [reflexivity | ].
  replace (Z.to_nat (b + -1 - a + 1)) with (Z.to_nat (b - (a + 1) + 1)) by lia.
  now rewrite <- map_removelast, zseq_removelast.
Qed.

Lemma getDaysArray_shrink_witness :
  day_of_str "2024-02-27" = Some 19780 /\
  day_of_str "2024-03-02" = Some 19784 /\
  day_0100 <= 19780 /\
  19780 < 19784 /\
  exists ns ne, addDays "2024-02-27" 1 = Ok ns /\ addDays "2024-03-02" (-1) = Ok ne /\
    getDaysArray ns "2024-03-02" = tl (getDaysArray "2024-02-27" "2024-03-02") /\
    getDaysArray "2024-02-27" ne = removelast (getDaysArray "2024-02-27" "2024-03-02").
Proof.
  assert (H1 : day_of_str "2024-02-27" = Some 19780) by reflexivity.
  assert (H2 : day_of_str "2024-03-02" = Some 19784) by reflexivity.
  assert (H3 : day_0100 <= 19780) by (apply Z.leb_le; reflexivity).
  assert (H4 : 19780 < 19784) by (apply Z.ltb_lt; reflexivity).
  split; [exact H1 | ]. split; [exact H2 | ]. split; [exact H3 | ]. split; [exact H4 | ].
  exact (getDaysArray_shrink "2024-02-27" "2024-03-02" 19780 19784 H1 H2 H3 H4).
Defined.

End DateUtils_more.

(* ================================================================== *)
(** * The day list of the itinerary                                     *)
(* ================================================================== *)

Section Day_list.
Import ES JS Calendar DateUtils Store App Itinerary.

Local Open Scope string_scope.
Local Open Scope Z_scope.

(** The day list of a run of midnights. *)
Lemma day_views_zseq (total : nat) (acts : list Activity.t) (a0 : Z) (n i0 : nat) :
  day_views total acts (map midnight (zseq (a0 + Z.of_nat i0) n)) i0 =
  Ok (map (fun i => mkDay (i + 1) (iso_of_day (a0 + Z.of_nat i))
                          (filter (fun a => String.eqb (Activity.date a)
                                                       (iso_of_day (a0 + Z.of_nat i))) acts)
                          (1 <? total)%nat)
          (seq i0 n)).
Proof.
  revert i0. induction n as [ | n IH]; intros i0; [reflexivity | ].
  cbn [zseq map seq day_views]. unfold midnight at 1.
  rewrite dateStr_of_time, Day_scaled.
  replace (a0 + Z.of_nat i0 + 1) with (a0 + Z.of_nat (S i0)) by lia.
  now rewrite IH.
Qed.

Lemma render_zseq (t : Trip.t) (acts : list Activity.t) (a : Z) (n : nat) :
  getDaysArray (Trip.startDate t) (Trip.endDate t) = map midnight (zseq a n) ->
  render t acts =
  Ok (map (fun i => mkDay (i + 1) (iso_of_day (a + Z.of_nat i))
                          (filter (fun x => String.eqb (Activity.date x)
                                                       (iso_of_day (a + Z.of_nat i))) acts)
                          (1 <? n)%nat)
          (seq 0 n)).
Proof.
  intros E. unfold render. rewrite E. cbv zeta. rewrite length_map, zseq_length.
  pose proof (day_views_zseq n acts a n 0) as H.
  rewrite Z.add_0_r in H. exact H.
Qed.

(** An element of a list built over the indices [0 .. n-1]. *)
Lemma nth_error_map_seq {A} (f : nat -> A) (n i : nat) (v : A) :
  nth_error (map f (seq 0 n)) i = Some v -> (i < n)%nat /\ v = f i.
Proof.
  rewrite nth_error_map, nth_error_seq.
  destruct (Nat.ltb_spec i n) as [L | L]; cbn [option_map Nat.add]; [ | discriminate].
  intros E. injection E as <-. split; [exact L | reflexivity].
Qed.

(** X7.  Whatever the dates of the trip, the day list is built without
    an exception: it has one entry for each element of [getDaysArray],
    numbered 1, 2, ... in order, and every entry has the remove button
    exactly when there is more than one entry. *)
Theorem render_total (t : Trip.t) (acts : list Activity.t) :
  exists views,
    render t acts = Ok views /\
    List.length views =
      List.length (getDaysArray (Trip.startDate t) (Trip.endDate t)) /\
    forall i v, nth_error views i = Some v ->
      number v = S i /\ removable v = (1 <? List.length views)%nat.
Proof.
  destruct (getDaysArray_zseq (Trip.startDate t) (Trip.endDate t)) as (a & n & E & _).
  rewrite (render_zseq t acts a n E), E. eexists. split; [reflexivity | ].
  rewrite !length_map, length_seq, zseq_length. split; [reflexivity | ].
  intros i v H. apply nth_error_map_seq in H as [Hi ->].
  cbn [number removable]. split; [lia | reflexivity].
Qed.

(** A date string equals the string of day [k] exactly when it is the
    calendar date of day [k]. *)
Lemma eqb_iso_of_day (s : string) (k : Z) :
  DayFromYear 0 <= k < DayFromYear 10000 ->
  String.eqb s (iso_of_day k) =
  match day_of_str s with Some j => j =? k | None => false end.
Proof.
  intros Hk. destruct (String.eqb_spec s (iso_of_day k)) as [-> | N].
  - rewrite day_of_iso_of_day by exact Hk. now rewrite Z.eqb_refl.
  - destruct (day_of_str s) as [j | ] eqn:E; [ | reflexivity].
    destruct (Z.eqb_spec j k) as [-> | ]; [ | reflexivity].
    apply day_of_str_iso in E as [E _]. contradiction.
Qed.

(** The day list of a trip of calendar dates. *)
Lemma render_dates (t : Trip.t) (acts : list Activity.t) (a b : Z) :
  day_of_str (Trip.startDate t) = Some a ->
  day_of_str (Trip.endDate t) = Some b ->
  day_0100 <= a -> a <= b ->
  render t acts =
  Ok (map (fun i => mkDay (i + 1) (iso_of_day (a + Z.of_nat i))
                          (dated (a + Z.of_nat i) acts)
                          (1 <? Z.to_nat (b - a + 1))%nat)
          (seq 0 (Z.to_nat (b - a + 1)))).
Proof.
  intros Hs He Ha Hab.
  destruct (day_of_str_read _ a Hs Ha) as (_ & _ & Us & _).
  destruct (day_of_str_read _ b He ltac:(lia)) as (_ & Hmax & Ue & _).
  rewrite day_0100_eq, DayFromYear_100 in Ha. rewrite DayFromYear_10000 in Hmax.
  assert (M : maxDay = 100000000) by reflexivity.
  rewrite (render_zseq t acts a (Z.to_nat (b - a + 1)))
    by (apply getDaysArray_midnights; auto; lia).
  f_equal. apply map_ext_in. intros i Hi. apply in_seq in Hi.
  f_equal. unfold dated. apply filter_ext. intros x.
  apply eqb_iso_of_day. rewrite DayFromYear_10000.
  change (DayFromYear 0) with (-719528). lia.
Qed.

(** X8.  For a trip with dates written [YYYY-MM-DD], the start on or
    after 0100-01-01 and not after the end, the date string of the
    [i]-th listed day names the [i]-th calendar day of the trip; it is the
    stored start date for the first day only and the stored end date for
    the last day only, and no two days have the same string. *)
Theorem render_date_strings (t : Trip.t) (acts : list Activity.t) (a b : Z) :
  day_of_str (Trip.startDate t) = Some a ->
  day_of_str (Trip.endDate t) = Some b ->
  day_0100 <= a -> a <= b ->
  exists views,
    render t acts = Ok views /\
    List.length views = Z.to_nat (b - a + 1) /\
    (forall i v, nth_error views i = Some v ->
       day_of_str (dateStr v) = Some (a + Z.of_nat i) /\
       (dateStr v = Trip.startDate t <-> i = O) /\
       (dateStr v = Trip.endDate t <-> S i = List.length views)) /\
    NoDup (map dateStr views).
Proof.
  intros Hs He Ha Hab. rewrite (render_dates t acts a b Hs He Ha Hab).
  eexists. split; [reflexivity | ].
  rewrite length_map, length_seq. split; [reflexivity | ].
  destruct (day_of_str_iso _ _ Hs) as [Es _].
  destruct (day_of_str_iso _ _ He) as [Ee Hb].
  pose proof Ha as Ha'. rewrite day_0100_eq, DayFromYear_100 in Ha'.
  rewrite DayFromYear_10000 in Hb.
  assert (D : forall i, (i < Z.to_nat (b - a + 1))%nat ->
            day_of_str (iso_of_day (a + Z.of_nat i)) = Some (a + Z.of_nat i)).
  { intros i Hi. apply day_of_iso_of_day. rewrite DayFromYear_10000.
    change (DayFromYear 0) with (-719528). lia. }
  split.
  - intros i v H. apply nth_error_map_seq in H as [Hi ->].
    cbn [dateStr]. split; [now apply D | ]. split.
    + split.
      * intros E. rewrite <- E, (D i Hi) in Hs. injection Hs. lia.
      * intros ->. now rewrite Z.add_0_r.
    + split.
      * intros E. rewrite <- E, (D i Hi) in He. injection He. lia.
      * intros E. rewrite Ee. f_equal. lia.
  - rewrite map_map. cbn [dateStr].
    apply Finite.Injective_map_NoDup_in; [ | apply seq_NoDup].
    intros i j Hi Hj E. apply in_seq in Hi, Hj.
    assert (Some (a + Z.of_nat i) = Some (a + Z.of_nat j)) as E'
      by (rewrite <- !D by lia; now rewrite E).
    injection E'. lia.
Qed.

Lemma render_date_strings_witness :
  day_of_str (Trip.startDate Sample.goa) = Some 19783 /\
  day_of_str (Trip.endDate Sample.goa) = Some 19787 /\
  day_0100 <= 19783 /\ 19783 <= 19787 /\
  exists views,
    render Sample.goa Sample.acts = Ok views /\
    List.length views = Z.to_nat (19787 - 19783 + 1) /\
    (forall i v, nth_error views i = Some v ->
       day_of_str (dateStr v) = Some (19783 + Z.of_nat i) /\
       (dateStr v = Trip.startDate Sample.goa <-> i = O) /\
       (dateStr v = Trip.endDate Sample.goa <-> S i = List.length views)) /\
    NoDup (map dateStr views).
Proof.
  assert (H1 : day_of_str (Trip.startDate Sample.goa) = Some 19783) by reflexivity.
  assert (H2 : day_of_str (Trip.endDate Sample.goa) = Some 19787) by reflexivity.
  assert (H3 : day_0100 <= 19783) by (apply Z.leb_le; reflexivity).
  assert (H4 : 19783 <= 19787) by (apply Z.leb_le; reflexivity).
  split; [exact H1 | ]. split; [exact H2 | ]. split; [exact H3 | ]. split; [exact H4 | ].
  exact (render_date_strings Sample.goa Sample.acts 19783 19787 H1 H2 H3 H4).
Defined.

(** X9.  For such a trip, the [i]-th listed day shows, in row order, the
    activities it is given whose date is the [i]-th calendar day of the
    trip, compared as dates: an activity dated inside the trip is listed
    under the day of its date and under no other, and an activity dated
    outside the trip, or whose date is no calendar date, under none. *)
Theorem render_groups (t : Trip.t) (acts : list Activity.t) (a b : Z) :
  day_of_str (Trip.startDate t) = Some a ->
  day_of_str (Trip.endDate t) = Some b ->
  day_0100 <= a -> a <= b ->
  exists views,
    render t acts = Ok views /\
    (forall i v, nth_error views i = Some v ->
       dayActivities v = dated (a + Z.of_nat i) acts) /\
    (forall x, In x acts ->
       match day_of_str (Activity.date x) with
       | Some k =>
           forall i v, nth_error views i = Some v ->
             (In x (dayActivities v) <-> k = a + Z.of_nat i)
       | None => forall v, In v views -> ~ In x (dayActivities v)
       end).
Proof.
  intros Hs He Ha Hab. rewrite (render_dates t acts a b Hs He Ha Hab).
  eexists. split; [reflexivity | ].
  assert (N : forall i v,
            nth_error
              (map (fun i => mkDay (i + 1) (iso_of_day (a + Z.of_nat i))
                                   (dated (a + Z.of_nat i) acts)
                                   (1 <? Z.to_nat (b - a + 1))%nat)
                   (seq 0 (Z.to_nat (b - a + 1)))) i = Some v ->
            dayActivities v = dated (a + Z.of_nat i) acts).
  { intros i v H. now apply nth_error_map_seq in H as [_ ->]. }
  split; [exact N | ].
  intros x Hx. destruct (day_of_str (Activity.date x)) as [k | ] eqn:Ek.
  - intros i v H. rewrite (N i v H). unfold dated. rewrite filter_In, Ek.
    rewrite Z.eqb_eq. tauto.
  - intros v Hv Hin. apply In_nth_error in Hv as [i Hi]. rewrite (N i v Hi) in Hin.
    unfold dated in Hin. apply filter_In in Hin as [_ Hin]. rewrite Ek in Hin. discriminate.
Qed.

Lemma render_groups_witness :
  day_of_str (Trip.startDate Sample.goa) = Some 19783 /\
  day_of_str (Trip.endDate Sample.goa) = Some 19787 /\
  day_0100 <= 19783 /\ 19783 <= 19787 /\
  exists views,
    render Sample.goa Sample.acts = Ok views /\
    (forall i v, nth_error views i = Some v ->
       dayActivities v = dated (19783 + Z.of_nat i) Sample.acts) /\
    (forall x, In x Sample.acts ->
       match day_of_str (Activity.date x) with
       | Some k =>
           forall i v, nth_error views i = Some v ->
             (In x (dayActivities v) <-> k = 19783 + Z.of_nat i)
       | None => forall v, In v views -> ~ In x (dayActivities v)
       end).
Proof.
  assert (H1 : day_of_str (Trip.startDate Sample.goa) = Some 19783) by reflexivity.
  assert (H2 : day_of_str (Trip.endDate Sample.goa) = Some 19787) by reflexivity.
  assert (H3 : day_0100 <= 19783) by (apply Z.leb_le; reflexivity).
  assert (H4 : 19783 <= 19787) by (apply Z.leb_le; reflexivity).
  split; [exact H1 | ]. split; [exact H2 | ]. split; [exact H3 | ]. split; [exact H4 | ].
  exact (render_groups Sample.goa Sample.acts 19783 19787 H1 H2 H3 H4).
Defined.

End Day_list.

(* ================================================================== *)
(** * The day list after a day is removed                               *)
(* ================================================================== *)

Section Removed_day_list.
Import ES JS Calendar DateUtils Store App Itinerary.

Local Open Scope string_scope.
Local Open Scope Z_scope.

Lemma insert_by_start_In (x y : Trip.t) (l : list Trip.t) :
  In y (insert_by_start x l) <-> y = x \/ In y l.
Proof.
  induction l as [ | z l IH]; cbn [insert_by_start In]; [intuition | ].
  destruct (start_leb x z); cbn [In]; [intuition | ]. rewrite IH. intuition.
Qed.

Lemma order_by_start_In (y : Trip.t) (l : list Trip.t) :
  In y (order_by_start l) <-> In y l.
Proof.
  unfold order_by_start. induction l as [ | x l IH]; cbn [fold_right In]; [tauto | ].
  rewrite insert_by_start_In, IH. intuition.
Qed.

Lemma find_only {A} (p : A -> bool) (l : list A) (x : A) :
  In x l -> p x = true -> (forall y, In y l -> p y = true -> y = x) ->
  find p l = Some x.
Proof.
  intros Hx Hp U. destruct (find p l) as [y | ] eqn:E.
  - apply find_some in E as [Hy Py]. f_equal. now apply U.
  - pose proof (find_none _ _ E x Hx). congruence.
Qed.

Lemma activeTrip_id (ts : list Trip.t) (sel : option string) (t : Trip.t) :
  activeTrip ts sel = Some t ->
  sel = Some (Trip.id t) /\ truthy sel = true.
Proof.
  unfold activeTrip. destruct sel as [s | ]; [ | discriminate].
  destruct (truthy (Some s)); [ | discriminate]. intros H.
  apply find_some in H as [_ H]. apply String.eqb_eq in H. now subst s.
Qed.

(** The trip [sel] names among the rows of the store with new dates. *)
Lemma activeTrip_after (ts l : list Trip.t) (sel : option string) (t : Trip.t)
    (ns ne : string) :
  activeTrip ts sel = Some t ->
  In t l -> stored t l ->
  activeTrip (order_by_start (map (set_trip_dates (Trip.id t) ns ne) l)) sel =
  Some (Trip.with_dates t ns ne).
Proof.
  intros At Hin St. destruct (activeTrip_id ts sel t At) as [-> Tr].
  unfold activeTrip. rewrite Tr. apply find_only.
  - apply order_by_start_In, in_map_iff. exists t. split; [ | exact Hin].
    unfold set_trip_dates. now rewrite String.eqb_refl.
  - apply String.eqb_refl.
  - intros y Hy Py. apply order_by_start_In, in_map_iff in Hy as (x & <- & Hx).
    unfold set_trip_dates in *.
    destruct (String.eqb_spec (Trip.id x) (Trip.id t)) as [E | N].
    + now rewrite (St x Hx E).
    + apply String.eqb_eq in Py. contradiction.
Qed.

Lemma day_before_iso (s : string) (k : Z) :
  day_of_str s = Some k -> day_0100 < k -> day_before s = iso_of_day (k - 1).
Proof.
  intros H Hk. destruct (day_of_str_read s k H ltac:(lia)) as (_ & Hmax & _ & Hadd).
  rewrite day_0100_eq, DayFromYear_100 in Hk. rewrite DayFromYear_10000 in Hmax.
  unfold day_before. rewrite (Hadd (-1)) by (unfold maxDay; lia).
  reflexivity.
Qed.

(** The world a removal ends in, the three branches in one: the new
    dates of the trip, the rows that stay, and the state after the
    refresh. *)
Lemma remove_day_state (env : Env) (ts : list Trip.t) (sel : option string)
    (t : Trip.t) (d u : string) (ks kd ke : Z) (w : World) :
  (forall r, rejects env r = false) ->
  fair env ->
  activeTrip ts sel = Some t ->
  user w = Some u ->
  NoDup (map Activity.id (Store.activities (db w))) ->
  day_of_str (Trip.startDate t) = Some ks ->
  day_of_str d = Some kd ->
  day_of_str (Trip.endDate t) = Some ke ->
  day_0100 <= ks -> ks < ke -> ks <= kd <= ke ->
  let inside := negb (kd =? ks) && negb (kd =? ke) in
  let ks' := if kd =? ks then ks + 1 else ks in
  let ke' := if kd =? ks then ke else ke - 1 in
  let f := fun a => if inside && after_date (Trip.id t) d a
                    then Activity.with_date a (day_before (Activity.date a)) else a in
  let rows := map (set_trip_dates (Trip.id t) (iso_of_day ks') (iso_of_day ke'))
                  (Store.trips (db w)) in
  let acts := map f (filter (fun a => negb (on_date (Trip.id t) d a))
                            (Store.activities (db w))) in
  fst (handleRemoveDay env ts sel d w) = Done tt /\
  db (snd (handleRemoveDay env ts sel d w)) = Store.mk rows acts /\
  trips (snd (handleRemoveDay env ts sel d w)) = order_by_start (trip_rows env rows) /\
  activities (snd (handleRemoveDay env ts sel d w)) = activity_rows env acts.
Proof.
  intros A F At Hu N Hs Hd He H100 Hlt Hin inside ks' ke' f rows acts.
  assert (M : maxDay = 100000000) by reflexivity.
  pose proof H100 as H100'. rewrite day_0100_eq, DayFromYear_100 in H100'.
  destruct (day_of_str_read _ ks Hs H100) as (Es & _ & _ & Hadds).
  destruct (day_of_str_read _ ke He ltac:(lia)) as (Ee & Hmax & _ & Hadde).
  rewrite DayFromYear_10000 in Hmax.
  subst inside ks' ke' f rows acts.
  destruct (Z.eqb_spec kd ks) as [-> | Nks]; [ | destruct (Z.eqb_spec kd ke) as [-> | Nke]];
    cbn [negb andb].
  - (* first day *)
    pose proof (day_of_str_inj d (Trip.startDate t) ks Hd Hs) as Eq. subst d.
    assert (E : addDays (Trip.startDate t) 1 = Ok (iso_of_day (ks + 1)))
      by (apply Hadds; lia).
    rewrite (handleRemoveDay_first env A ts sel t _ w At E).
    rewrite fetchData_accepted by exact A. cbn [user]. rewrite Hu.
    cbn [fst snd db trips activities Store.trips Store.activities Store.apply after_delete].
    rewrite map_id, <- Ee. repeat split.
  - (* last day *)
    pose proof (day_of_str_inj d (Trip.endDate t) ke Hd He) as Eq. subst d.
    assert (Hne : Trip.startDate t <> Trip.endDate t)
      by (intros Eq; rewrite Eq, He in Hs; injection Hs; lia).
    assert (E : addDays (Trip.endDate t) (-1) = Ok (iso_of_day (ke + -1)))
      by (apply Hadde; lia).
    rewrite (handleRemoveDay_last env A ts sel t _ w At Hne E).
    rewrite fetchData_accepted by exact A. cbn [user]. rewrite Hu.
    cbn [fst snd db trips activities Store.trips Store.activities Store.apply after_delete].
    rewrite map_id, <- Es. replace (ke + -1) with (ke - 1) by lia. repeat split.
  - (* a day in between *)
    assert (E : addDays (Trip.endDate t) (-1) = Ok (iso_of_day (ke + -1)))
      by (apply Hadde; lia).
    assert (Ds : d <> Trip.startDate t) by (intros ->; rewrite Hs in Hd; injection Hd; lia).
    assert (De : d <> Trip.endDate t) by (intros ->; rewrite He in Hd; injection Hd; lia).
    destruct (handleRemoveDay_interior env A F ts sel t d (iso_of_day (ke + -1)) w At Ds De)
      as (l & -> & Sl); [intros a _; apply after_date_addDays | exact E | ].
    rewrite fetchData_accepted by exact A. cbn [user]. rewrite Hu.
    cbn [fst snd db trips activities]. rewrite (interior_activities env t d w F N).
    cbn [Store.apply Store.trips Store.activities].
    rewrite <- Es. replace (ke + -1) with (ke - 1) by lia. repeat split.
Qed.

Lemma filter_twice {A} (p q : A -> bool) (l : list A) :
  filter p (filter q l) = filter (fun x => q x && p x) l.
Proof.
  induction l as [ | x l IH]; [reflexivity | ].
  cbn [filter]. destruct (q x); cbn [filter andb]; [ | exact IH].
  destruct (p x); now rewrite IH.
Qed.

Lemma with_date_same (x : Activity.t) : Activity.with_date x (Activity.date x) = x.
Proof. now destruct x. Qed.

Lemma nth_error_seq_map {A} (f : nat -> A) (n i : nat) :
  (i < n)%nat -> nth_error (map f (seq 0 n)) i = Some (f i).
Proof.
  intros H. rewrite nth_error_map, nth_error_seq.
  destruct (Nat.ltb_spec i n); [reflexivity | lia].
Qed.

End Removed_day_list.

Section Shifted_days.
Import ES JS Calendar DateUtils Store App Itinerary.

Local Open Scope string_scope.
Local Open Scope Z_scope.

Variables (id d : string) (ks kd ke : Z) (A : list Activity.t).

Hypothesis Hd : day_of_str d = Some kd.
Hypothesis H100 : day_0100 <= ks.
Hypothesis Hlt : ks < ke.
Hypothesis Hin : ks <= kd <= ke.
Hypothesis Hr : in_range id ks ke A.

(** The rows of the trip listed under day [j] after the removal are the
    rows listed before under day [j], or under day [j + 1] from the
    removed day on, with the date of the new day [j]. *)
Lemma dated_after_removal (j : nat) :
  dated ((if kd =? ks then ks + 1 else ks) + Z.of_nat j)
    (filter (fun a => String.eqb (Activity.tripId a) id)
       (map (fun a => if negb (kd =? ks) && negb (kd =? ke) && after_date id d a
                      then Activity.with_date a (day_before (Activity.date a)) else a)
            (filter (fun a => negb (on_date id d a)) A))) =
  map (fun x => Activity.with_date x
                  (iso_of_day ((if kd =? ks then ks + 1 else ks) + Z.of_nat j)))
      (dated (ks + Z.of_nat (if Z.of_nat j <? kd - ks then j else S j))
         (filter (fun a => String.eqb (Activity.tripId a) id) A)).
Proof.
  set (inside := negb (kd =? ks) && negb (kd =? ke)).
  set (ks' := if kd =? ks then ks + 1 else ks).
  set (j' := if Z.of_nat j <? kd - ks then j else S j).
  set (f := fun a => if inside && after_date id d a
                     then Activity.with_date a (day_before (Activity.date a)) else a).
  pose proof H100 as H100'. rewrite day_0100_eq, DayFromYear_100 in H100'.
  assert (T : forall x, Activity.tripId (f x) = Activity.tripId x).
  { intros x. unfold f. now destruct (inside && after_date id d x). }
  assert (K : forall x k, In x A -> Activity.tripId x = id ->
            day_of_str (Activity.date x) = Some k ->
            ks <= k <= ke /\
            on_date id d x = (k =? kd) /\ after_date id d x = (kd <? k)).
  { intros x k Hx Tx Hk. destruct (Hr x Hx Tx) as (k' & Hk' & B).
    rewrite Hk in Hk'. injection Hk' as <-. split; [exact B | ].
    unfold on_date, after_date, date_eqb, date_gtb.
    now rewrite Tx, String.eqb_refl, Hk, Hd. }
  unfold dated. rewrite !filter_map_swap. rewrite !filter_twice.
  assert (E : filter
                (fun x => negb (on_date id d x) &&
                          (String.eqb (Activity.tripId (f x)) id &&
                           match day_of_str (Activity.date (f x)) with
                           | Some i => i =? ks' + Z.of_nat j
                           | None => false
                           end)) A =
              filter
                (fun x => String.eqb (Activity.tripId x) id &&
                          match day_of_str (Activity.date x) with
                          | Some i => i =? ks + Z.of_nat j'
                          | None => false
                          end) A).
  { apply filter_ext_in. intros x Hx. rewrite T.
    destruct (String.eqb_spec (Activity.tripId x) id) as [Tx | Tx]; cbn [andb];
      [ | apply andb_false_r].
    destruct (Hr x Hx Tx) as (k & Hk & _).
    destruct (K x k Hx Tx Hk) as (B & -> & Af). rewrite Hk.
    unfold f. rewrite Af. subst inside ks' j'.
    destruct (Z.eqb_spec kd ks); destruct (Z.eqb_spec kd ke);
      destruct (Z.ltb_spec kd k); cbn [negb andb];
      rewrite ?Hk; cbn [Activity.date Activity.with_date];
      rewrite ?(day_before_day _ k Hk) by (rewrite day_0100_eq, DayFromYear_100; lia);
      destruct (Z.ltb_spec (Z.of_nat j) (kd - ks));
      destruct (Z.eqb_spec k kd); cbn [negb andb];
      repeat match goal with
             | |- context [?a =? ?b] => destruct (Z.eqb_spec a b)
             end; reflexivity || lia. }
  fold f. fold ks'. rewrite E. apply map_ext_in. intros x Hx.
  apply filter_In in Hx as [Hx Px]. apply andb_true_iff in Px as [Tx Dx].
  apply String.eqb_eq in Tx.
  destruct (Hr x Hx Tx) as (k & Hk & _). rewrite Hk in Dx. apply Z.eqb_eq in Dx.
  destruct (K x k Hx Tx Hk) as (B & _ & Af).
  unfold f. rewrite Af. subst inside ks' j'.
  destruct (day_of_str_iso _ _ Hk) as [Ek _].
  destruct (Z.eqb_spec kd ks); destruct (Z.eqb_spec kd ke);
    destruct (Z.ltb_spec kd k); cbn [negb andb];
    destruct (Z.ltb_spec (Z.of_nat j) (kd - ks)); try lia;
    try (rewrite (day_before_iso _ k Hk) by (rewrite day_0100_eq, DayFromYear_100; lia);
         do 2 f_equal; lia);
    (rewrite <- (with_date_same x) at 1; rewrite Ek; do 2 f_equal; lia).
Qed.

End Shifted_days.

(* ================================================================== *)
(** * Runs against a store that rejects requests                        *)
(* ================================================================== *)

Section Runs.
Import ES JS Calendar DateUtils Store App.

Local Open Scope string_scope.

Variable env : Env.

Lemma request_run (r : Request) (w : World) :
  request env r w =
  (Done (rejects env r),
   mkWorld (if rejects env r then db w else Store.apply r (db w))
           (user w) (trips w) (activities w) (isUpdating w) (deletingDate w)
           (log w ++ [Issued r; Settled r (negb (rejects env r))])).
Proof.
  unfold request, bind, emit, settle, set_db, ret. cbn.
  destruct (rejects env r); cbn; now rewrite <- List.app_assoc.
Qed.

Lemma select_run {A} (r : Request) (rows : Store.t -> A) (w : World) :
  select env r rows w =
  (Done (if rejects env r then None else Some (rows (db w))),
   mkWorld (if rejects env r then db w else Store.apply r (db w))
           (user w) (trips w) (activities w) (isUpdating w) (deletingDate w)
           (log w ++ [Issued r; Settled r (negb (rejects env r))])).
Proof.
  unfold select, bind. rewrite request_run. now destruct (rejects env r).
Qed.

Lemma handleUpdateTripDates_run (ts : list Trip.t) (id s e : string) (w : World) :
  handleUpdateTripDates env ts id s e w =
  (Done tt,
   if rejects env (UpdateTripDates id s e)
   then mkWorld (db w) (user w) (trips w) (activities w) (isUpdating w) (deletingDate w)
                (log w ++ [Issued (UpdateTripDates id s e);
                           Settled (UpdateTripDates id s e) false;
                           Alert ("Failed to update dates: " ++
                                  message env (StoreError (UpdateTripDates id s e)))])
   else mkWorld (Store.apply (UpdateTripDates id s e) (db w)) (user w)
                (map (set_trip_dates id s e) ts) (activities w)
                (isUpdating w) (deletingDate w)
                (log w ++ [Issued (UpdateTripDates id s e);
                           Settled (UpdateTripDates id s e) true])).
Proof.
  unfold handleUpdateTripDates, try_catch, bind. rewrite request_run.
  destruct (rejects env (UpdateTripDates id s e)); [ | reflexivity].
  unfold throw, alert, emit. cbn. now rewrite <- List.app_assoc.
Qed.

Lemma fetchData_run (w : World) :
  fetchData env w =
  (Done tt,
   match user w with
   | None => w
   | Some _ =>
       if rejects env SelectTrips
       then mkWorld (db w) (user w) (trips w) (activities w) (isUpdating w)
                    (deletingDate w)
                    (log w ++ [Issued SelectTrips; Settled SelectTrips false])
       else if rejects env SelectExpenses
       then mkWorld (db w) (user w) (order_by_start (trip_rows env (Store.trips (db w))))
                    (activities w) (isUpdating w) (deletingDate w)
                    (log w ++ [Issued SelectTrips; Settled SelectTrips true;
                               Issued SelectExpenses; Settled SelectExpenses false])
       else if rejects env SelectActivities
       then mkWorld (db w) (user w) (order_by_start (trip_rows env (Store.trips (db w))))
                    (activities w) (isUpdating w) (deletingDate w)
                    (log w ++ [Issued SelectTrips; Settled SelectTrips true;
                               Issued SelectExpenses; Settled SelectExpenses true;
                               Issued SelectActivities; Settled SelectActivities false])
       else mkWorld (db w) (user w) (order_by_start (trip_rows env (Store.trips (db w))))
                    (activity_rows env (Store.activities (db w)))
                    (isUpdating w) (deletingDate w)
                    (log w ++ [Issued SelectTrips; Settled SelectTrips true;
                               Issued SelectExpenses; Settled SelectExpenses true;
                               Issued SelectActivities; Settled SelectActivities true])
   end).
Proof.
  unfold fetchData. destruct (user w) eqn:U; [ | reflexivity].
  unfold try_catch, bind. rewrite select_run.
  destruct (rejects env SelectTrips); [cbn; now rewrite U | ].
  unfold setTrips. rewrite select_run.
  destruct (rejects env SelectExpenses);
    [cbn; rewrite U; now rewrite <- List.app_assoc | ].
  rewrite select_run.
  destruct (rejects env SelectActivities); cbn; rewrite U;
    now rewrite <- !List.app_assoc.
Qed.

End Runs.

(* ================================================================== *)
(** * What the handlers do when a request fails                         *)
(* ================================================================== *)

Section Failures.
Import ES JS Calendar DateUtils Store App.

Local Open Scope string_scope.
Local Open Scope Z_scope.

(** X14.  [handleExtendTrip] does nothing while an update is running.
    Otherwise the flag [isUpdating] is false when it ends, whatever
    [onTripUpdate] does and whether or not it raises; and when
    [addDays] throws on the end date, [onTripUpdate] is not called and the
    exception leaves the handler, the flag being reset. *)
Theorem extend_trip_flag (trip : Trip.t)
    (onTripUpdate : string -> string -> string -> M unit) (w : World) :
  handleExtendTrip trip true onTripUpdate w = (Done tt, w) /\
  isUpdating (snd (handleExtendTrip trip false onTripUpdate w)) = false /\
  (forall e, addDays (Trip.endDate trip) 1 = Throw e ->
     handleExtendTrip trip false onTripUpdate w =
     (Raised (JsError e),
      mkWorld (db w) (user w) (trips w) (activities w) false (deletingDate w) (log w))).
Proof.
  split; [reflexivity | ]. split.
  - unfold handleExtendTrip. unfold bind at 1. unfold setIsUpdating at 1.
    unfold try_finally.
    destruct (bind (lift (addDays (Trip.endDate trip) 1)) _ _) as [[a | e] w1];
      reflexivity.
  - intros e E. unfold handleExtendTrip, bind, setIsUpdating, try_finally.
    rewrite E. reflexivity.
Qed.

(** An end date that is no date: [addDays] throws, nothing is sent, and
    the flag is reset. *)
Example extend_trip_throws :
  handleExtendTrip (Trip.mk "t9" "u1" "Agra" "2024-03-01" "soon" 0 None None) false
    (handleUpdateTripDates Sample.env [Sample.goa; Sample.pune]) Sample.world =
  (Raised (JsError RangeError), Sample.world).
Proof. vm_compute. reflexivity. Qed.

(** X15.  [handleRemoveClick] on a trip of more than one day: while an
    update or a removal is running, or when the dialog is declined, it
    does nothing and [onRemoveDay] is not called; otherwise it calls
    [onRemoveDay] with the date string, [deletingDate] being that string
    during the call, and [deletingDate] is cleared when the call ends,
    normally or not. *)
Theorem remove_click_guards (env : Env) (trip : Trip.t) (isUpd : bool)
    (dd : option string) (onRemoveDay : string -> M unit)
    (dateStr : string) (index : nat) (w : World) :
  (1 < List.length (getDaysArray (Trip.startDate trip) (Trip.endDate trip)))%nat ->
  (isUpd = true \/ truthy dd = true \/ confirm env = false ->
   handleRemoveClick env trip isUpd dd onRemoveDay dateStr index w = (Done tt, w)) /\
  (isUpd = false -> truthy dd = false -> confirm env = true ->
   let r := onRemoveDay dateStr
              (mkWorld (db w) (user w) (trips w) (activities w) (isUpdating w)
                       (Some dateStr) (log w)) in
   handleRemoveClick env trip isUpd dd onRemoveDay dateStr index w =
   (fst r,
    mkWorld (db (snd r)) (user (snd r)) (trips (snd r)) (activities (snd r))
            (isUpdating (snd r)) None (log (snd r)))).
Proof.
  intros L. unfold handleRemoveClick.
  destruct (Nat.leb_spec
              (List.length (getDaysArray (Trip.startDate trip) (Trip.endDate trip))) 1);
    [lia | ].
  split.
  - intros [-> | [G | G]]; [reflexivity | | ].
    + rewrite G, orb_true_r. reflexivity.
    + rewrite G. now destruct (isUpd || truthy dd).
  - intros -> -> ->. cbn [orb]. unfold bind, setDeletingDate, try_finally. cbv zeta.
    destruct (onRemoveDay dateStr _) as [[a | e] w1]; [destruct a | ]; reflexivity.
Qed.

End Failures.

(* ================================================================== *)
(** * Removals left half done                                           *)
(* ================================================================== *)

Section Partial_runs.
Import ES JS Calendar DateUtils Store App.

Local Open Scope string_scope.

Variable env : Env.

Lemma settle_all_run (rs : list Request) (w : World) :
  settle_all env rs w =
  (Done tt,
   mkWorld (fold_left (fun d r => Store.apply r d)
                      (filter (fun r => negb (rejects env r)) rs) (db w))
           (user w) (trips w) (activities w) (isUpdating w) (deletingDate w)
           (log w ++ map (fun r => Settled r (negb (rejects env r))) rs)).
Proof.
  revert w. induction rs as [ | r rs IH]; intros w.
  - cbn. rewrite app_nil_r. now destruct w.
  - cbn [settle_all filter map]. unfold bind at 1. unfold settle at 1.
    destruct (rejects env r); unfold bind, set_db, emit, ret;
      cbn [db user trips activities isUpdating deletingDate log negb];
      rewrite IH; cbn [db user trips activities isUpdating deletingDate log fold_left];
      now rewrite <- List.app_assoc.
Qed.

Lemma Promise_all_run (rs : list Request) (w : World) :
  Promise_all env rs w =
  (Done tt,
   mkWorld (fold_left (fun d r => Store.apply r d)
                      (filter (fun r => negb (rejects env r)) (sched env rs)) (db w))
           (user w) (trips w) (activities w) (isUpdating w) (deletingDate w)
           (log w ++ map Issued rs ++
            map (fun r => Settled r (negb (rejects env r))) (sched env rs))).
Proof.
  unfold Promise_all, bind, emit_all. rewrite settle_all_run. cbn.
  now rewrite <- List.app_assoc.
Qed.

Lemma Permutation_filter {A} (p : A -> bool) (l l' : list A) :
  Permutation l l' -> Permutation (filter p l) (filter p l').
Proof.
  induction 1 as [ | x l l' _ IH | x y l | l l' l'' _ IH1 _ IH2]; cbn [filter].
  - constructor.
  - destruct (p x); [now constructor | exact IH].
  - destruct (p x); destruct (p y); try reflexivity. constructor.
  - now transitivity (filter p l').
Qed.

(** The store after the answers to the shift requests, whichever of
    them the store takes. *)
Lemma interior_store (t : Trip.t) (d : string) (w : World) :
  fair env ->
  NoDup (map Activity.id (Store.activities (db w))) ->
  let shifted :=
    activity_rows env
      (filter (after_date (Trip.id t) d) (Store.activities (after_delete t d w))) in
  let requests :=
    map (fun a => UpdateActivityDate (Activity.id a) (day_before (Activity.date a)))
        shifted in
  fold_left (fun s r => Store.apply r s)
            (filter (fun r => negb (rejects env r)) (sched env requests))
            (after_delete t d w) =
  Store.mk (Store.trips (db w))
    (map (fun a => if after_date (Trip.id t) d a &&
                      negb (rejects env (UpdateActivityDate (Activity.id a)
                                           (day_before (Activity.date a))))
                   then Activity.with_date a (day_before (Activity.date a)) else a)
         (filter (fun a => negb (on_date (Trip.id t) d a)) (Store.activities (db w)))).
Proof.
  intros F N shifted requests.
  rewrite (fold_shift_requests
             (fun a => after_date (Trip.id t) d a &&
                       negb (rejects env (UpdateActivityDate (Activity.id a)
                                            (day_before (Activity.date a)))))
             (fun a => day_before (Activity.date a))).
  - reflexivity.
  - cbn [after_delete Store.apply Store.activities]. now apply NoDup_filter_ids.
  - etransitivity; [apply Permutation_filter, F | ].
    subst requests shifted. rewrite filter_map_swap.
    etransitivity; [apply Permutation_map, Permutation_filter, activity_rows_all | ].
    rewrite filter_twice. reflexivity.
Qed.

Lemma handleRemoveDay_first_run (ts : list Trip.t) (sel : option string) (t : Trip.t)
    (ns : string) (w : World) :
  rejects env (DeleteActivitiesOn (Trip.id t) (Trip.startDate t)) = false ->
  activeTrip ts sel = Some t ->
  addDays (Trip.startDate t) 1 = Ok ns ->
  handleRemoveDay env ts sel (Trip.startDate t) w =
  fetchData env
    (snd (handleUpdateTripDates env ts (Trip.id t) ns (Trip.endDate t)
            (mkWorld (after_delete t (Trip.startDate t) w) (user w) (trips w)
                     (activities w) (isUpdating w) (deletingDate w)
                     (log w ++
                      [Issued (DeleteActivitiesOn (Trip.id t) (Trip.startDate t));
                       Settled (DeleteActivitiesOn (Trip.id t) (Trip.startDate t)) true])))).
Proof.
  intros R At E. unfold handleRemoveDay. rewrite At. rewrite String.eqb_refl.
  unfold try_catch, bind. rewrite request_run, R. unfold ret.
  rewrite E. unfold lift, ret. rewrite !handleUpdateTripDates_run.
  cbn [snd negb]. unfold after_delete. rewrite !fetchData_run. reflexivity.
Qed.

Lemma handleRemoveDay_last_run (ts : list Trip.t) (sel : option string) (t : Trip.t)
    (ne : string) (w : World) :
  rejects env (DeleteActivitiesOn (Trip.id t) (Trip.endDate t)) = false ->
  activeTrip ts sel = Some t ->
  Trip.startDate t <> Trip.endDate t ->
  addDays (Trip.endDate t) (-1) = Ok ne ->
  handleRemoveDay env ts sel (Trip.endDate t) w =
  fetchData env
    (snd (handleUpdateTripDates env ts (Trip.id t) (Trip.startDate t) ne
            (mkWorld (after_delete t (Trip.endDate t) w) (user w) (trips w)
                     (activities w) (isUpdating w) (deletingDate w)
                     (log w ++
                      [Issued (DeleteActivitiesOn (Trip.id t) (Trip.endDate t));
                       Settled (DeleteActivitiesOn (Trip.id t) (Trip.endDate t)) true])))).
Proof.
  intros R At Hne E. unfold handleRemoveDay. rewrite At. rewrite String.eqb_refl.
  destruct (String.eqb_spec (Trip.endDate t) (Trip.startDate t)); [congruence | ].
  unfold try_catch, bind. rewrite request_run, R. unfold ret.
  rewrite E. unfold lift, ret. rewrite !handleUpdateTripDates_run.
  cbn [snd negb]. unfold after_delete. rewrite !fetchData_run. reflexivity.
Qed.

Lemma handleRemoveDay_interior_run (ts : list Trip.t) (sel : option string) (t : Trip.t)
    (d ne : string) (w : World) :
  rejects env (DeleteActivitiesOn (Trip.id t) d) = false ->
  rejects env (SelectActivitiesAfter (Trip.id t) d) = false ->
  fair env ->
  activeTrip ts sel = Some t ->
  d <> Trip.startDate t -> d <> Trip.endDate t ->
  addDays (Trip.endDate t) (-1) = Ok ne ->
  let shifted :=
    activity_rows env
      (filter (after_date (Trip.id t) d) (Store.activities (after_delete t d w))) in
  let requests :=
    map (fun a => UpdateActivityDate (Activity.id a) (day_before (Activity.date a)))
        shifted in
  handleRemoveDay env ts sel d w =
  fetchData env
    (snd (handleUpdateTripDates env ts (Trip.id t) (Trip.startDate t) ne
            (mkWorld (fold_left (fun s r => Store.apply r s)
                                (filter (fun r => negb (rejects env r)) (sched env requests))
                                (after_delete t d w))
                     (user w) (trips w) (activities w) (isUpdating w) (deletingDate w)
                     (log w ++
                      [Issued (DeleteActivitiesOn (Trip.id t) d);
                       Settled (DeleteActivitiesOn (Trip.id t) d) true;
                       Issued (SelectActivitiesAfter (Trip.id t) d);
                       Settled (SelectActivitiesAfter (Trip.id t) d) true] ++
                      map Issued requests ++
                      map (fun r => Settled r (negb (rejects env r)))
                          (sched env requests))))).
Proof.
  intros Rd Rs F At Hs He E shifted requests.
  unfold handleRemoveDay. rewrite At.
  destruct (String.eqb_spec d (Trip.startDate t)); [congruence | ].
  destruct (String.eqb_spec d (Trip.endDate t)); [congruence | ].
  unfold try_catch, bind. rewrite request_run, Rd. unfold ret.
  rewrite select_run. cbn [db user trips activities isUpdating deletingDate log].
  rewrite Rs. cbn [negb].
  change (Store.apply (SelectActivitiesAfter (Trip.id t) d)
            (Store.apply (DeleteActivitiesOn (Trip.id t) d) (db w)))
    with (after_delete t d w).
  change (Store.apply (DeleteActivitiesOn (Trip.id t) d) (db w))
    with (after_delete t d w).
  fold shifted.
  destruct (0 <? List.length shifted)%nat eqn:L; cbv beta iota.
  - rewrite mapM_shift_request
      by (intros a Ha; apply (Permutation_in _ (activity_rows_all env _)) in Ha;
          apply filter_In in Ha as [Ha Pa]; exact (after_date_addDays _ _ _ Pa)).
    fold requests. rewrite Promise_all_run.
    cbn [db user trips activities isUpdating deletingDate log].
    rewrite E. unfold lift, ret. rewrite !handleUpdateTripDates_run.
    cbn [snd]. rewrite <- !List.app_assoc. cbn [app]. rewrite !fetchData_run. reflexivity.
  - assert (shifted = []) as Z.
    { destruct shifted; [reflexivity | discriminate]. }
    subst requests. rewrite Z in *. cbn [map].
    assert (S0 : sched env [] = []).
    { apply Permutation_nil. symmetry. apply F. }
    rewrite S0. cbn [fold_left filter map app].
    rewrite E. unfold lift, ret. rewrite !handleUpdateTripDates_run.
    cbn [snd]. rewrite <- !List.app_assoc. cbn [app]. rewrite !fetchData_run. reflexivity.
Qed.

End Partial_runs.

Section Half_done.
Import ES JS Calendar DateUtils Store App.

Local Open Scope string_scope.
Local Open Scope Z_scope.

Lemma silent_app (l1 l2 : list Event) : silent l1 -> silent l2 -> silent (l1 ++ l2).
Proof. intros H1 H2. apply Forall_app. now split. Qed.

Lemma silent_Issued (rs : list Request) : silent (map Issued rs).
Proof.
  apply Forall_forall. intros e He. apply in_map_iff in He as (r & <- & _). exact I.
Qed.

Lemma silent_Settled (f : Request -> bool) (rs : list Request) :
  silent (map (fun r => Settled r (f r)) rs).
Proof.
  apply Forall_forall. intros e He. apply in_map_iff in He as (r & <- & _). exact I.
Qed.

End Half_done.

(* ================================================================== *)
(** * The activity handlers                                             *)
(* ================================================================== *)

Section Activity_handlers.
Import ES JS Calendar DateUtils Store App Itinerary Ops.

Local Open Scope string_scope.
Local Open Scope Z_scope.

Lemma toggle_unique (l : list Activity.t) (x : Activity.t) :
  NoDup (map Activity.id l) -> In x l ->
  map (fun a => if String.eqb (Activity.id a) (Activity.id x)
                then with_completed a (negb (Activity.isCompleted x)) else a) l =
  map (fun a => if String.eqb (Activity.id a) (Activity.id x)
                then with_completed a (negb (Activity.isCompleted a)) else a) l.
Proof.
  intros N Hx. apply map_ext_in. intros a Ha.
  destruct (String.eqb_spec (Activity.id a) (Activity.id x)) as [E | _]; [ | reflexivity].
  now rewrite (same_id_same_row l a x N Ha Hx E).
Qed.

Lemma find_id_In (l : list Activity.t) (id : string) (x : Activity.t) :
  find (fun a => String.eqb (Activity.id a) id) l = Some x ->
  In x l /\ Activity.id x = id.
Proof.
  intros H. apply find_some in H as [H E]. apply String.eqb_eq in E. now split.
Qed.

(** X18.  The three activity handlers keep the state in step with the
    store.  Started from a state that shows the activities the store
    holds, with no two rows of one [id], each handler returns normally,
    leaves the trips alone and ends with the state showing what the store
    holds, whether the store takes the request or rejects it. *)
Theorem activity_handlers_in_sync (env : OpEnv) (activeTrip : option Trip.t)
    (date description id : string) (w : World) :
  in_sync w ->
  NoDup (map Activity.id (Store.activities (db w))) ->
  let add := handleAddActivity env activeTrip (activities w) date description w in
  let del := handleDeleteActivity env (activities w) id w in
  let tog := handleToggleActivity env (activities w) id w in
  (fst add = Done tt /\ in_sync (snd add) /\
   Store.trips (db (snd add)) = Store.trips (db w) /\ trips (snd add) = trips w) /\
  (fst del = Done tt /\ in_sync (snd del) /\
   Store.trips (db (snd del)) = Store.trips (db w) /\ trips (snd del) = trips w) /\
  (fst tog = Done tt /\ in_sync (snd tog) /\
   Store.trips (db (snd tog)) = Store.trips (db w) /\ trips (snd tog) = trips w).
Proof.
  unfold in_sync. intros S N. cbv zeta. split; [ | split].
  - unfold handleAddActivity. destruct activeTrip as [t | ]; [ | now repeat split].
    unfold bind, submit_insert, bind, submit.
    destruct (refuses env _); cbn; [now repeat split | ].
    rewrite S. now repeat split.
  - unfold handleDeleteActivity, bind, submit.
    destruct (refuses env _); cbn; [now repeat split | ].
    rewrite S. now repeat split.
  - unfold handleToggleActivity.
    destruct (find _ (activities w)) as [x | ] eqn:Fx; [ | now repeat split].
    rewrite S in Fx. apply find_id_In in Fx as [Hx <-].
    unfold bind, submit.
    destruct (refuses env _); cbn; [now repeat split | ].
    rewrite S. repeat split. symmetry. now apply toggle_unique.
Qed.

Lemma activity_handlers_in_sync_witness :
  let add := handleAddActivity (mkOpEnv (fun _ => false) (fun _ => "a9"))
               (Some Sample.goa) (activities Sample.world) "2024-03-02" "museum"
               Sample.world in
  let del := handleDeleteActivity (mkOpEnv (fun _ => false) (fun _ => "a9"))
               (activities Sample.world) "a2" Sample.world in
  let tog := handleToggleActivity (mkOpEnv (fun _ => false) (fun _ => "a9"))
               (activities Sample.world) "a2" Sample.world in
  (fst add = Done tt /\ in_sync (snd add) /\
   Store.trips (db (snd add)) = Store.trips (db Sample.world) /\
   trips (snd add) = trips Sample.world) /\
  (fst del = Done tt /\ in_sync (snd del) /\
   Store.trips (db (snd del)) = Store.trips (db Sample.world) /\
   trips (snd del) = trips Sample.world) /\
  (fst tog = Done tt /\ in_sync (snd tog) /\
   Store.trips (db (snd tog)) = Store.trips (db Sample.world) /\
   trips (snd tog) = trips Sample.world).
Proof.
  assert (H1 : in_sync Sample.world) by reflexivity.
  exact (activity_handlers_in_sync (mkOpEnv (fun _ => false) (fun _ => "a9"))
           (Some Sample.goa) "2024-03-02" "museum" "a2" Sample.world H1 NoDup_sample).
Defined.

Lemma toggled_id (id : string) (a : Activity.t) :
  Activity.id (toggled id a) = Activity.id a.
Proof. unfold toggled. now destruct (String.eqb (Activity.id a) id). Qed.

Lemma toggled_twice (id : string) (a : Activity.t) : toggled id (toggled id a) = a.
Proof.
  unfold toggled. destruct (String.eqb (Activity.id a) id) eqn:E; [ | now rewrite E].
  cbn [Activity.id with_completed]. rewrite E. destruct a as [i t d s tm c].
  cbn. now rewrite negb_involutive.
Qed.

(** One toggle, from a state in step with the store. *)
Lemma toggle_step (env : OpEnv) (id : string) (w : World) :
  in_sync w ->
  NoDup (map Activity.id (Store.activities (db w))) ->
  (forall b, refuses env (SetCompleted id b) = false) ->
  snd (handleToggleActivity env (activities w) id w) =
  mkWorld (Store.mk (Store.trips (db w)) (map (toggled id) (Store.activities (db w))))
          (user w) (trips w) (map (toggled id) (activities w))
          (isUpdating w) (deletingDate w) (log w).
Proof.
  unfold in_sync. intros S N A. unfold handleToggleActivity.
  destruct (find _ (activities w)) as [x | ] eqn:Fx.
  - rewrite S in Fx. apply find_id_In in Fx as [Hx <-].
    unfold bind, submit. rewrite A.
    cbn [fst snd db user trips activities isUpdating deletingDate log setActivities
         perform].
    now rewrite (toggle_unique _ x N Hx).
  - cbn [snd ret].
    assert (E : map (toggled id) (activities w) = activities w).
    { rewrite <- (map_id (activities w)) at 2. apply map_ext_in. intros a Ha.
      pose proof (find_none _ _ Fx a Ha) as Na. cbn beta in Na.
      unfold toggled. now rewrite Na. }
    rewrite <- S, E. destruct w as [[tr ac] us ts as_ iu dd lg].
    cbn in S. now subst as_.
Qed.

(** X19.  Toggling an activity twice restores it.  From a state in step
    with the store, with no two rows of one [id] and a store that takes
    the updates, toggling [id] and toggling it again from the state the
    first toggle left gives back the store and the state as they were;
    and one toggle negates the completion flag of the row of that [id]
    and leaves every other row, and every other field, as it was. *)
Theorem toggle_twice (env : OpEnv) (id : string) (w : World) :
  in_sync w ->
  NoDup (map Activity.id (Store.activities (db w))) ->
  (forall b, refuses env (SetCompleted id b) = false) ->
  let w1 := snd (handleToggleActivity env (activities w) id w) in
  let w2 := snd (handleToggleActivity env (activities w1) id w1) in
  w2 = w /\
  Forall2 (fun a a' =>
             a' = with_completed a (if String.eqb (Activity.id a) id
                                    then negb (Activity.isCompleted a)
                                    else Activity.isCompleted a))
          (Store.activities (db w)) (Store.activities (db w1)).
Proof.
  intros S N A. cbv zeta. rewrite (toggle_step env id w S N A).
  set (w1 := mkWorld _ _ _ _ _ _ _).
  assert (S1 : in_sync w1) by (unfold in_sync, w1; cbn; now rewrite S).
  assert (N1 : NoDup (map Activity.id (Store.activities (db w1)))).
  { unfold w1. cbn [db Store.activities]. rewrite map_map.
    erewrite map_ext; [exact N | ]. apply toggled_id. }
  split.
  - rewrite (toggle_step env id w1 S1 N1 A). unfold w1.
    cbn [db user trips activities isUpdating deletingDate log Store.trips
         Store.activities].
    rewrite !map_map.
    assert (E : forall l, map (fun a => toggled id (toggled id a)) l = l).
    { intros l. rewrite <- (map_id l) at 2. apply map_ext. apply toggled_twice. }
    rewrite !E. destruct w as [[tr ac] us ts as_ iu dd lg]. reflexivity.
  - unfold w1. cbn [db Store.activities]. apply Forall2_map_right. intros a _.
    unfold toggled. destruct (String.eqb (Activity.id a) id); [reflexivity | ].
    now destruct a.
Qed.

Lemma toggle_twice_witness :
  let env := mkOpEnv (fun _ => false) (fun _ => "a9") in
  let w1 := snd (handleToggleActivity env (activities Sample.world) "a2" Sample.world) in
  let w2 := snd (handleToggleActivity env (activities w1) "a2" w1) in
  w2 = Sample.world /\
  Forall2 (fun a a' =>
             a' = with_completed a (if String.eqb (Activity.id a) "a2"
                                    then negb (Activity.isCompleted a)
                                    else Activity.isCompleted a))
          (Store.activities (db Sample.world)) (Store.activities (db w1)).
Proof.
  assert (H1 : in_sync Sample.world) by reflexivity.
  exact (toggle_twice (mkOpEnv (fun _ => false) (fun _ => "a9")) "a2" Sample.world
           H1 NoDup_sample (fun _ => eq_refl)).
Defined.

Lemma dated_app (k : Z) (l1 l2 : list Activity.t) :
  dated k (l1 ++ l2) = (dated k l1 ++ dated k l2)%list.
Proof. apply filter_app. Qed.

(** X20.  An activity added under a listed day is listed there, last.
    For a trip with dates written [YYYY-MM-DD], the start on or after
    0100-01-01 and not after the end, and a store that takes the insert:
    after [handleAddActivity] is called with the date string of the
    [i]-th listed day, the [i]-th day lists what it listed before followed
    by the new row, which belongs to the trip, carries that date string
    and the description given and is not completed; every other day lists
    what it listed before. *)
Theorem added_activity_listed (env : OpEnv) (t : Trip.t) (desc : string)
    (a b : Z) (i : nat) (v : DayView) (views : list DayView) (w : World) :
  day_of_str (Trip.startDate t) = Some a ->
  day_of_str (Trip.endDate t) = Some b ->
  day_0100 <= a -> a <= b ->
  render t (activeTripActivities (Some t) (activities w)) = Ok views ->
  nth_error views i = Some v ->
  refuses env (InsertActivity (Trip.id t) (dateStr v) desc) = false ->
  let row := Activity.mk (new_id env (db w)) (Trip.id t) (dateStr v) desc None false in
  let w' := snd (handleAddActivity env (Some t) (activities w) (dateStr v) desc w) in
  activities w' = (activities w ++ [row])%list /\
  Store.activities (db w') = (Store.activities (db w) ++ [row])%list /\
  exists views',
    render t (activeTripActivities (Some t) (activities w')) = Ok views' /\
    List.length views' = List.length views /\
    forall j vj vj', nth_error views j = Some vj -> nth_error views' j = Some vj' ->
      dayActivities vj' =
        if Nat.eqb j i then (dayActivities vj ++ [row])%list else dayActivities vj.
Proof.
  intros Hs He Ha Hab R Hv A row w'.
  assert (Ew : w' = mkWorld (Store.mk (Store.trips (db w))
                                      (Store.activities (db w) ++ [row]))
                            (user w) (trips w) (activities w ++ [row])
                            (isUpdating w) (deletingDate w) (log w)).
  { unfold w', handleAddActivity, bind, submit_insert, bind, submit. rewrite A.
    reflexivity. }
  rewrite Ew. cbn [db activities Store.activities].
  split; [reflexivity | ]. split; [reflexivity | ].
  rewrite (render_dates t _ a b Hs He Ha Hab) in R. injection R as <-.
  rewrite (render_dates t _ a b Hs He Ha Hab).
  eexists. split; [reflexivity | ].
  split; [now rewrite !length_map | ].
  apply nth_error_map_seq in Hv as [Hi ->]. cbn [dateStr] in *.
  intros j vj vj' Hj Hj'.
  apply nth_error_map_seq in Hj as [Lj ->]. apply nth_error_map_seq in Hj' as [_ ->].
  cbn [dayActivities]. unfold activeTripActivities.
  rewrite filter_app, dated_app.
  subst row. cbn [filter Activity.tripId]. rewrite String.eqb_refl.
  unfold dated at 2. cbn [filter Activity.date].
  destruct (day_of_str_iso _ _ He) as [_ Hmax]. rewrite DayFromYear_10000 in Hmax.
  pose proof Ha as Ha'. rewrite day_0100_eq, DayFromYear_100 in Ha'.
  rewrite day_of_iso_of_day
    by (rewrite DayFromYear_10000; change (DayFromYear 0) with (-719528); lia).
  destruct (Nat.eqb_spec j i) as [-> | Nji].
  - now rewrite Z.eqb_refl.
  - destruct (Z.eqb_spec (a + Z.of_nat i) (a + Z.of_nat j)); [lia | ].
    now rewrite app_nil_r.
Qed.

End Activity_handlers.

(* ================================================================== *)
(** * The itinerary pages of the PDF                                    *)
(* ================================================================== *)

Section Pdf_pages.
Import ES JS Calendar DateUtils Store App Itinerary Pdf.

Local Open Scope string_scope.
Local Open Scope Z_scope.

(** The local copy of [getDaysArray] is the utility. *)
Lemma pdf_getDaysArray (s e : string) : Pdf.getDaysArray s e = DateUtils.getDaysArray s e.
Proof. reflexivity. Qed.

Lemma activity_lines_draws (l : list Activity.t) (y : Z) (out : list Draw) :
  activity_lines l (y, out) =
  (y + 6 * Z.of_nat (List.length l), (out ++ activity_draws l y)%list).
Proof.
  revert y out. induction l as [ | a l IH]; intros y out.
  - cbn. now rewrite Z.add_0_r, app_nil_r.
  - cbn [activity_lines activity_draws List.length]. rewrite IH.
    rewrite <- List.app_assoc. cbn [app]. f_equal. lia.
Qed.

Lemma activity_draws_lines (l : list Activity.t) (y : Z) :
  lines (activity_draws l y) = map (fun a => Plain (activity_text a)) l.
Proof.
  revert y. induction l as [ | a l IH]; intros y; [reflexivity | ].
  cbn [activity_draws map]. unfold lines in *. cbn [flat_map app]. now rewrite IH.
Qed.

Lemma activity_draws_placed (l : list Activity.t) (y : Z) :
  20 <= y -> Forall placed (activity_draws l y).
Proof.
  revert y. induction l as [ | a l IH]; intros y Hy; [constructor | ].
  cbn [activity_draws]. constructor; [cbn; lia | apply IH; lia].
Qed.

Lemma activity_draws_breaks (l : list Activity.t) (y : Z) :
  breaks (activity_draws l y) = O.
Proof.
  revert y. induction l as [ | a l IH]; intros y; [reflexivity | ].
  cbn [activity_draws]. unfold breaks in *. cbn [filter]. apply IH.
Qed.

Lemma lines_app (l1 l2 : list Draw) : lines (l1 ++ l2) = (lines l1 ++ lines l2)%list.
Proof. apply flat_map_app. Qed.

Lemma breaks_app (l1 l2 : list Draw) : breaks (l1 ++ l2) = (breaks l1 + breaks l2)%nat.
Proof. unfold breaks. now rewrite filter_app, length_app. Qed.

(** One pass on a valid Date: what it adds to the document. *)
Lemma day_section_pass (acts : list Activity.t) (t : Z) (index : nat) (y : Z)
    (out : list Draw) (total : nat) :
  20 <= y ->
  exists y' chunk,
    day_section acts (Some t) index (y, out) = Ok (y', (out ++ chunk)%list) /\
    20 <= y' /\
    Forall placed chunk /\
    (breaks chunk <= 1)%nat /\
    lines chunk =
      day_lines (Some t,
                 mkDay (index + 1) (iso_of_day (Day t))
                       (filter (fun a => String.eqb (Activity.date a) (iso_of_day (Day t)))
                               acts)
                       (1 <? total)%nat).
Proof.
  intros Hy. unfold day_section. rewrite dateStr_of_time.
  set (l := filter _ acts).
  set (y1 := if y >? 250 then 20 else y).
  set (pre := if y >? 250 then [AddPage] else []).
  assert (E1 : (if y >? 250 then (20, (out ++ [AddPage])%list) else (y, out)) =
               (y1, (out ++ pre)%list)).
  { subst y1 pre. destruct (y >? 250); [reflexivity | now rewrite app_nil_r]. }
  rewrite E1.
  assert (B1 : 20 <= y1 <= 250).
  { subst y1. destruct (Z.gtb_spec y 250); lia. }
  assert (P1 : Forall placed pre /\ (breaks pre <= 1)%nat /\ lines pre = []).
  { subst pre. destruct (y >? 250).
    - split; [repeat constructor | ]. split; [cbn; lia | reflexivity].
    - split; [constructor | ]. split; [cbn; lia | reflexivity]. }
  destruct P1 as (Pp & Pb & Pl).
  destruct l as [ | a l'] eqn:El.
  - cbn [List.length Nat.eqb].
    exists (y1 + 7 + 7 + 5),
      (pre ++ [Text (DayHeader (index + 1) (Some t)) 14 y1;
               Text (Plain "- No activities planned") 20 (y1 + 7)])%list.
    split; [now rewrite <- !List.app_assoc | ]. split; [lia | ].
    split.
    { apply Forall_app. split; [exact Pp | ].
      repeat constructor; cbn; lia. }
    split.
    { rewrite breaks_app. cbn. lia. }
    rewrite lines_app, Pl. unfold day_lines. cbn [fst snd number dayActivities]. reflexivity.
  - rewrite <- El. assert (Hl : (List.length l =? 0)%nat = false) by now rewrite El.
    rewrite Hl, activity_lines_draws.
    exists (y1 + 7 + 6 * Z.of_nat (List.length l) + 5),
      (pre ++ Text (DayHeader (index + 1) (Some t)) 14 y1 :: activity_draws l (y1 + 7))%list.
    split; [now rewrite <- !List.app_assoc | ]. split; [lia | ].
    split.
    { apply Forall_app. split; [exact Pp | ].
      constructor; [cbn; lia | apply activity_draws_placed; lia]. }
    split.
    { rewrite breaks_app.
      change (breaks (Text (DayHeader (index + 1) (Some t)) 14 y1 ::
                      activity_draws l (y1 + 7)))
        with (breaks (activity_draws l (y1 + 7))).
      rewrite activity_draws_breaks. lia. }
    rewrite lines_app, Pl. unfold day_lines. cbn [fst snd number dayActivities app].
    unfold lines at 1. cbn [flat_map app]. fold (lines (activity_draws l (y1 + 7))).
    rewrite activity_draws_lines. rewrite El. reflexivity.
Qed.

(** The passes over a run of midnights, beside the day list of the
    same run. *)
Lemma day_sections_run (acts : list Activity.t) (total : nat) (a0 : Z) (n i0 : nat)
    (y : Z) (out : list Draw) :
  20 <= y ->
  exists y' chunk views,
    day_sections acts (map midnight (zseq (a0 + Z.of_nat i0) n)) i0 (y, out) =
      Ok (y', (out ++ chunk)%list) /\
    day_views total acts (map midnight (zseq (a0 + Z.of_nat i0) n)) i0 = Ok views /\
    List.length views = n /\
    20 <= y' /\
    Forall placed chunk /\
    (breaks chunk <= n)%nat /\
    lines chunk =
      flat_map day_lines (combine (map midnight (zseq (a0 + Z.of_nat i0) n)) views).
Proof.
  revert i0 y out. induction n as [ | n IH]; intros i0 y out Hy.
  - exists y, [], []. cbn. rewrite app_nil_r. repeat split; auto.
  - cbn [zseq map day_sections day_views]. unfold midnight at 1 3 5.
    destruct (day_section_pass acts ((a0 + Z.of_nat i0) * msPerDay) i0 y out total Hy)
      as (y1 & c1 & E1 & Hy1 & P1 & B1 & L1).
    rewrite E1. rewrite dateStr_of_time.
    replace (a0 + Z.of_nat i0 + 1) with (a0 + Z.of_nat (S i0)) by lia.
    destruct (IH (S i0) y1 (out ++ c1)%list Hy1)
      as (y2 & c2 & vs & E2 & V2 & Ln & Hy2 & P2 & B2 & L2).
    rewrite E2, V2.
    exists y2, (c1 ++ c2)%list. eexists.
    split; [now rewrite <- List.app_assoc | ]. split; [reflexivity | ].
    split; [cbn [List.length]; now rewrite Ln | ]. split; [exact Hy2 | ].
    split; [now apply Forall_app | ].
    split; [rewrite breaks_app; lia | ].
    rewrite lines_app, L1, L2. cbn [combine flat_map]. reflexivity.
Qed.

(** X21.  The PDF lists what the itinerary lists.  Whatever the trip and
    the activities, the itinerary pages are laid out without an
    exception, and their texts are, in order: the heading "Itinerary";
    for each day of the day list of the screen, the header with the
    number of the day and then one line for each activity the screen
    lists under that day, in the same order, or the line "- No activities
    planned" when it lists none; and the heading "Expenses". *)
Theorem pdf_lists_itinerary (trip : Trip.t) (acts : list Activity.t) :
  exists y draws views,
    itinerary_pages trip acts = Ok (y, draws) /\
    render trip acts = Ok views /\
    List.length views =
      List.length (DateUtils.getDaysArray (Trip.startDate trip) (Trip.endDate trip)) /\
    lines draws =
      (Heading "Itinerary" ::
       flat_map day_lines
         (combine (DateUtils.getDaysArray (Trip.startDate trip) (Trip.endDate trip))
                  views) ++
       [Heading "Expenses"])%list.
Proof.
  unfold itinerary_pages, render. cbv zeta. rewrite pdf_getDaysArray.
  destruct (getDaysArray_zseq (Trip.startDate trip) (Trip.endDate trip))
    as (a & n & E & _).
  rewrite E. rewrite length_map, zseq_length.
  pose proof (day_sections_run acts n a n 0 (70 + 10)
                [Text (Heading "Itinerary") 14 70] ltac:(lia))
    as (y' & chunk & views & E1 & V & Ln & Hy & _ & _ & L).
  rewrite Z.add_0_r in E1, V, L. rewrite E1, V.
  destruct (y' + 10 >? 240);
    (eexists; eexists; exists views; split; [reflexivity | ]; split; [reflexivity | ];
     split; [exact Ln | ]);
    rewrite ?lines_app, L; cbn [app lines flat_map]; now rewrite ?app_nil_r.
Qed.

(** X22.  The itinerary pages are laid out inside the margins.  Whatever
    the trip and the activities, no text is drawn above 20; every day
    header is drawn at 14 from the left and not below 250, every heading
    at 14 and not below 240, every line at 20 from the left; there is at
    most one page break for each day and one before the heading of the
    expenses; and the expense table starts between 25 and 245. *)
Theorem pdf_layout (trip : Trip.t) (acts : list Activity.t) :
  exists y draws,
    itinerary_pages trip acts = Ok (y, draws) /\
    Forall placed draws /\
    (breaks draws <=
       S (List.length (DateUtils.getDaysArray (Trip.startDate trip)
                                              (Trip.endDate trip))))%nat /\
    25 <= y <= 245.
Proof.
  unfold itinerary_pages. cbv zeta. rewrite pdf_getDaysArray.
  destruct (getDaysArray_zseq (Trip.startDate trip) (Trip.endDate trip))
    as (a & n & E & _).
  rewrite E. rewrite length_map, zseq_length.
  pose proof (day_sections_run acts n a n 0 (70 + 10)
                [Text (Heading "Itinerary") 14 70] ltac:(lia))
    as (y' & chunk & views & E1 & _ & _ & Hy & P & B & _).
  rewrite Z.add_0_r in E1. rewrite E1.
  assert (P0 : Forall placed [Text (Heading "Itinerary") 14 70])
    by (repeat constructor; cbn; lia).
  destruct (Z.gtb_spec (y' + 10) 240).
  - exists (20 + 5),
      ((([Text (Heading "Itinerary") 14 70] ++ chunk) ++ [AddPage]) ++
       [Text (Heading "Expenses") 14 20])%list.
    split; [reflexivity | ]. split; [ | split; [ | lia]].
    + repeat (apply Forall_app; split); auto; repeat constructor; cbn; lia.
    + rewrite !breaks_app. cbn. lia.
  - exists (y' + 10 + 5),
      (([Text (Heading "Itinerary") 14 70] ++ chunk) ++
       [Text (Heading "Expenses") 14 (y' + 10)])%list.
    split; [reflexivity | ]. split; [ | split; [ | lia]].
    + repeat (apply Forall_app; split); auto; repeat constructor; cbn; lia.
    + rewrite !breaks_app. cbn. lia.
Qed.

End Pdf_pages.

(* ================================================================== *)
(** * Worked examples                                                   *)
(* ================================================================== *)

Section Worked_examples.
Import ES JS Calendar DateUtils Store App Itinerary Ops.

Local Open Scope string_scope.
Local Open Scope Z_scope.

Lemma fair_rev (env : Env) : sched env = (fun rs => rev rs) -> fair env.
Proof. intros E rs. rewrite E. symmetry. apply Permutation_rev. Qed.

Lemma remove_click_guards_witness :
  (1 < List.length (getDaysArray (Trip.startDate Sample.goa)
                                 (Trip.endDate Sample.goa)))%nat /\
  deletingDate
    (snd (handleRemoveClick Sample.env Sample.goa false None
            (handleRemoveDay Sample.env [Sample.goa; Sample.pune] (Some "t1"))
            "2024-03-03" 2 Sample.world)) = None.
Proof.
  assert (H : (1 < List.length (getDaysArray (Trip.startDate Sample.goa)
                                             (Trip.endDate Sample.goa)))%nat)
    by (apply Nat.ltb_lt; vm_compute; reflexivity).
  split; [exact H | ].
  destruct (remove_click_guards Sample.env Sample.goa false None
              (handleRemoveDay Sample.env [Sample.goa; Sample.pune] (Some "t1"))
              "2024-03-03" 2 Sample.world H) as [_ G].
  rewrite (G eq_refl eq_refl eq_refl). reflexivity.
Defined.

(** After that removal the activity [a4] is still dated 2024-03-05, the
    day after the new end of the trip, and no day of the itinerary lists
    it. *)
Example shift_failure_sample :
  db (snd (handleRemoveDay Faults.no_shift_a4 [Sample.goa; Sample.pune] (Some "t1")
             "2024-03-03" Sample.world)) =
  Store.mk [Trip.with_dates Sample.goa "2024-03-01" "2024-03-04"; Sample.pune]
           [Sample.act "a1" "t1" "2024-03-01"; Sample.act "a3" "t1" "2024-03-03";
            Sample.act "a4" "t1" "2024-03-05"; Sample.act "b1" "t2" "2024-03-01"].
Proof. vm_compute. reflexivity. Qed.

Lemma added_activity_listed_witness :
  exists views v,
    render Sample.goa (activeTripActivities (Some Sample.goa) (activities Sample.world))
      = Ok views /\
    nth_error views 1 = Some v /\
    dateStr v = "2024-03-02" /\
    let row := Activity.mk (new_id Faults.ops (db Sample.world)) (Trip.id Sample.goa)
                 (dateStr v) "museum" None false in
    let w' := snd (handleAddActivity Faults.ops (Some Sample.goa)
                     (activities Sample.world) (dateStr v) "museum" Sample.world) in
    activities w' = (activities Sample.world ++ [row])%list /\
    Store.activities (db w') = (Store.activities (db Sample.world) ++ [row])%list /\
    exists views',
      render Sample.goa (activeTripActivities (Some Sample.goa) (activities w'))
        = Ok views' /\
      List.length views' = List.length views /\
      forall j vj vj', nth_error views j = Some vj -> nth_error views' j = Some vj' ->
        dayActivities vj' =
          if Nat.eqb j 1 then (dayActivities vj ++ [row])%list else dayActivities vj.
Proof.
  assert (H1 : day_of_str (Trip.startDate Sample.goa) = Some 19783) by reflexivity.
  assert (H2 : day_of_str (Trip.endDate Sample.goa) = Some 19787) by reflexivity.
  assert (H3 : day_0100 <= 19783) by (apply Z.leb_le; reflexivity).
  assert (H4 : 19783 <= 19787) by (apply Z.leb_le; reflexivity).
  destruct (render Sample.goa
              (activeTripActivities (Some Sample.goa) (activities Sample.world)))
    as [views | e] eqn:R; [ | vm_compute in R; discriminate].
  destruct (nth_error views 1) as [v | ] eqn:Nv;
    [ | vm_compute in R; injection R as <-; discriminate].
  exists views, v. split; [reflexivity | ]. split; [exact Nv | ].
  split; [vm_compute in R; injection R as <-; injection Nv as <-; reflexivity | ].
  exact (added_activity_listed Faults.ops Sample.goa "museum" 19783 19787 1 v views
           Sample.world H1 H2 H3 H4 R Nv eq_refl).
Defined.

End Worked_examples.

(* ================================================================== *)
(** * Years written with two digits                                     *)
(* ================================================================== *)

Section Two_digit_years.
Import ES JS Calendar DateUtils.

Local Open Scope string_scope.
Local Open Scope Z_scope.

(** X23.  Dates of the years 0 to 99 are read as dates of the years 1900
    to 1999: for a year [y] from 0 to 99, a month from 1 to 12 and a day
    from 1 to 31, [addDays] of the string [00yy-mm-dd] and [n] returns the
    date [n] days from that month and day of the year [1900 + y], and
    [getDaysArray] of that string for both ends returns the one midnight
    of that day of [1900 + y]. *)
Theorem two_digit_year (y m d n : Z) :
  0 <= y <= 99 -> 1 <= m <= 12 -> 1 <= d <= 31 ->
  - maxDay <= civil_day (1900 + y) m d + n <= maxDay ->
  addDays (iso_date y m d) n = Ok (iso_of_day (civil_day (1900 + y) m d + n)) /\
  getDaysArray (iso_date y m d) (iso_date y m d) = [midnight (civil_day (1900 + y) m d)].
Proof.
  intros Hy Hm Hd Hn.
  assert (F : full_year y = 1900 + y).
  { unfold full_year. destruct (Z.leb_spec 0 y); destruct (Z.leb_spec y 99); cbn [andb]; lia. }
  pose proof (civil_day_in_year (1900 + y) m d Hm Hd) as B.
  pose proof (DayFromYear_le 100 (1900 + y) ltac:(lia)) as B1.
  pose proof (DayFromYear_le (1900 + y + 1) 10000 ltac:(lia)) as B2.
  rewrite DayFromYear_100 in B1. rewrite DayFromYear_10000 in B2.
  assert (M : maxDay = 100000000) by reflexivity.
  split.
  - rewrite addDays_fields; rewrite ?F; try lia.
    destruct (Z.leb_spec (- maxDay) (civil_day (1900 + y) m d + n)); [ | lia].
    destruct (Z.leb_spec (civil_day (1900 + y) m d + n) maxDay); [ | lia]. reflexivity.
  - assert (U : utc_of_str (iso_date y m d) = midnight (civil_day (1900 + y) m d)).
    { rewrite utc_of_fields by lia. rewrite F. apply TimeClip_day. lia. }
    rewrite (getDaysArray_midnights _ _ _ _ U U) by lia.
    replace (civil_day (1900 + y) m d - civil_day (1900 + y) m d + 1) with 1 by lia.
    reflexivity.
Qed.

Lemma two_digit_year_witness :
  0 <= 24 <= 99 /\ 1 <= 3 <= 12 /\ 1 <= 1 <= 31 /\
  - maxDay <= civil_day (1900 + 24) 3 1 + 1 <= maxDay /\
  addDays "0024-03-01" 1 = Ok "1924-03-02" /\
  getDaysArray "0024-03-01" "0024-03-01" = [midnight (civil_day (1900 + 24) 3 1)].
Proof.
  assert (H1 : 0 <= 24 <= 99) by lia.
  assert (H2 : 1 <= 3 <= 12) by lia.
  assert (H3 : 1 <= 1 <= 31) by lia.
  assert (H4 : - maxDay <= civil_day (1900 + 24) 3 1 + 1 <= maxDay)
    by (split; apply Z.leb_le; reflexivity).
  split; [exact H1 | ]. split; [exact H2 | ]. split; [exact H3 | ]. split; [exact H4 | ].
  exact (two_digit_year 24 3 1 1 H1 H2 H3 H4).
Defined.

End Two_digit_years.

(* ================================================================== *)
(** * The day list after a trip is extended                             *)
(* ================================================================== *)

Section Extended_day_list.
Import ES JS Calendar DateUtils Store App Itinerary.

Local Open Scope string_scope.
Local Open Scope Z_scope.

Lemma set_trip_dates_id (i s e : string) (x : Trip.t) :
  Trip.id (set_trip_dates i s e x) = Trip.id x.
Proof. unfold set_trip_dates. now destruct (String.eqb (Trip.id x) i). Qed.

Lemma find_set_trip_dates (sid i s e : string) (l : list Trip.t) :
  find (fun x => String.eqb (Trip.id x) sid) (map (set_trip_dates i s e) l) =
  option_map (set_trip_dates i s e) (find (fun x => String.eqb (Trip.id x) sid) l).
Proof.
  induction l as [ | x l IH]; [reflexivity | ].
  cbn [map find]. rewrite set_trip_dates_id.
  destruct (String.eqb (Trip.id x) sid); [reflexivity | exact IH].
Qed.

(** The trip [sel] names, after its row of the state got new dates. *)
Lemma activeTrip_updated (ts : list Trip.t) (sel : option string) (t : Trip.t)
    (s e : string) :
  activeTrip ts sel = Some t ->
  activeTrip (map (set_trip_dates (Trip.id t) s e) ts) sel = Some (Trip.with_dates t s e).
Proof.
  unfold activeTrip. destruct sel as [sid | ]; [ | discriminate].
  destruct (truthy (Some sid)); [ | discriminate].
  intros H. rewrite find_set_trip_dates, H. cbn [option_map].
  unfold set_trip_dates. now rewrite String.eqb_refl.
Qed.

Lemma Forall2_maps {A B C} (R : B -> C -> Prop) (f : A -> B) (g : A -> C) (l : list A) :
  (forall x, In x l -> R (f x) (g x)) -> Forall2 R (map f l) (map g l).
Proof.
  induction l as [ | x l IH]; intros H; [constructor | ].
  cbn [map]. constructor; [apply H; now left | apply IH; intros; apply H; now right].
Qed.

(** X24.  What the itinerary lists after the trip is extended.  For a
    trip with dates written [YYYY-MM-DD], the start on or after
    0100-01-01 and not after the end, the end before 9999-12-31, and a
    store that takes the update: after [handleExtendTrip] the selected
    trip is found in the state with the new end date; every day listed
    before is listed as before, with its number, date string and
    activities, and now has the remove button; and one day is added after
    them, dated the day after the old end, which lists the activities of
    that date, none when every activity of the trip was dated inside
    it. *)
Theorem extend_trip_views (env : Env) (ts : list Trip.t) (sel : option string)
    (t : Trip.t) (a b : Z) (w : World) :
  (forall r, rejects env r = false) ->
  activeTrip ts sel = Some t ->
  day_of_str (Trip.startDate t) = Some a ->
  day_of_str (Trip.endDate t) = Some b ->
  day_0100 <= a -> a <= b -> b < civil_day 9999 12 31 ->
  exists t' views views' last,
    activeTrip (trips (snd (handleExtendTrip t false (handleUpdateTripDates env ts) w))) sel
      = Some t' /\
    render t (activeTripActivities (Some t) (activities w)) = Ok views /\
    render t' (activeTripActivities (Some t')
                 (activities (snd (handleExtendTrip t false
                                     (handleUpdateTripDates env ts) w))))
      = Ok (views' ++ [last])%list /\
    Forall2 (fun v v' => number v' = number v /\ dateStr v' = dateStr v /\
                         dayActivities v' = dayActivities v /\ removable v' = true)
            views views' /\
    number last = S (List.length views) /\
    dateStr last = Trip.endDate t' /\
    day_of_str (dateStr last) = Some (b + 1) /\
    dayActivities last = dated (b + 1) (activeTripActivities (Some t) (activities w)) /\
    (in_range (Trip.id t) a b (activities w) -> dayActivities last = []).
Proof.
  intros Acc At Hs He Ha Hab Hb. change (civil_day 9999 12 31) with 2932896 in Hb.
  destruct (day_of_str_read _ b He ltac:(lia)) as (_ & _ & _ & Hadd).
  pose proof Ha as Ha'. rewrite day_0100_eq, DayFromYear_100 in Ha'.
  assert (M : maxDay = 100000000) by reflexivity.
  assert (E : addDays (Trip.endDate t) 1 = Ok (iso_of_day (b + 1))) by (apply Hadd; lia).
  assert (D : day_of_str (iso_of_day (b + 1)) = Some (b + 1)).
  { apply day_of_iso_of_day. rewrite DayFromYear_10000.
    change (DayFromYear 0) with (-719528). lia. }
  set (t' := Trip.with_dates t (Trip.startDate t) (iso_of_day (b + 1))).
  assert (W : snd (handleExtendTrip t false (handleUpdateTripDates env ts) w) =
              mkWorld (Store.apply (UpdateTripDates (Trip.id t) (Trip.startDate t)
                                      (iso_of_day (b + 1))) (db w))
                      (user w)
                      (map (set_trip_dates (Trip.id t) (Trip.startDate t)
                              (iso_of_day (b + 1))) ts)
                      (activities w) false (deletingDate w)
                      (log w ++ [Issued (UpdateTripDates (Trip.id t) (Trip.startDate t)
                                           (iso_of_day (b + 1)));
                                 Settled (UpdateTripDates (Trip.id t) (Trip.startDate t)
                                            (iso_of_day (b + 1))) true])).
  { unfold handleExtendTrip, bind, setIsUpdating, try_finally. rewrite E.
    unfold lift, ret. rewrite (handleUpdateTripDates_accepted env Acc). reflexivity. }
  rewrite W. cbn [trips activities].
  set (acts := activeTripActivities (Some t) (activities w)).
  assert (Ea : activeTripActivities (Some t') (activities w) = acts) by reflexivity.
  set (n := Z.to_nat (b - a + 1)).
  set (mk := fun (r : bool) (i : nat) =>
               mkDay (i + 1) (iso_of_day (a + Z.of_nat i)) (dated (a + Z.of_nat i) acts) r).
  exists t', (map (mk (1 <? n)%nat) (seq 0 n)), (map (mk true) (seq 0 n)), (mk true n).
  split; [now apply activeTrip_updated | ].
  split; [exact (render_dates t acts a b Hs He Ha Hab) | ].
  split.
  { rewrite Ea. rewrite (render_dates t' acts a (b + 1) Hs D Ha ltac:(lia)).
    replace (Z.to_nat (b + 1 - a + 1)) with (S n) by lia.
    assert (L : (1 <? S n)%nat = true) by (apply Nat.ltb_lt; lia).
    rewrite L, seq_S, map_app. reflexivity. }
  split.
  { apply Forall2_maps. intros i _. cbn. repeat split. }
  split; [cbn [mk number]; rewrite length_map, length_seq; lia | ].
  assert (En : a + Z.of_nat n = b + 1) by lia.
  cbn [mk dateStr dayActivities t' Trip.endDate Trip.with_dates]. rewrite En.
  split; [reflexivity | ]. split; [exact D | ]. split; [reflexivity | ].
  intros R. unfold dated.
  destruct (filter _ acts) as [ | x l] eqn:F; [reflexivity | exfalso].
  assert (Hx : In x (filter (fun a0 => match day_of_str (Activity.date a0) with
                                       | Some j => j =? b + 1
                                       | None => false
                                       end) acts)) by (rewrite F; now left).
  apply filter_In in Hx as [Hx Px]. unfold acts, activeTripActivities in Hx.
  apply filter_In in Hx as [Hx Tx]. apply String.eqb_eq in Tx.
  destruct (R x Hx Tx) as (k & Hk & Bk). rewrite Hk in Px. apply Z.eqb_eq in Px. lia.
Qed.

Lemma extend_trip_views_witness :
  exists t' views views' last,
    activeTrip (trips (snd (handleExtendTrip Sample.goa false
                              (handleUpdateTripDates Sample.env [Sample.goa; Sample.pune])
                              Sample.world))) (Some "t1") = Some t' /\
    render Sample.goa (activeTripActivities (Some Sample.goa) (activities Sample.world))
      = Ok views /\
    render t' (activeTripActivities (Some t')
                 (activities (snd (handleExtendTrip Sample.goa false
                                     (handleUpdateTripDates Sample.env
                                        [Sample.goa; Sample.pune]) Sample.world))))
      = Ok (views' ++ [last])%list /\
    Forall2 (fun v v' => number v' = number v /\ dateStr v' = dateStr v /\
                         dayActivities v' = dayActivities v /\ removable v' = true)
            views views' /\
    number last = S (List.length views) /\
    dateStr last = Trip.endDate t' /\
    day_of_str (dateStr last) = Some (19787 + 1) /\
    dayActivities last =
      dated (19787 + 1) (activeTripActivities (Some Sample.goa) (activities Sample.world)) /\
    (in_range (Trip.id Sample.goa) 19783 19787 (activities Sample.world) ->
     dayActivities last = []).
Proof.
  assert (H1 : forall r, rejects Sample.env r = false) by reflexivity.
  assert (H2 : activeTrip [Sample.goa; Sample.pune] (Some "t1") = Some Sample.goa)
    by reflexivity.
  assert (H3 : day_of_str (Trip.startDate Sample.goa) = Some 19783) by reflexivity.
  assert (H4 : day_of_str (Trip.endDate Sample.goa) = Some 19787) by reflexivity.
  assert (H5 : day_0100 <= 19783) by (apply Z.leb_le; reflexivity).
  assert (H6 : 19783 <= 19787) by (apply Z.leb_le; reflexivity).
  assert (H7 : 19787 < civil_day 9999 12 31) by (apply Z.ltb_lt; reflexivity).
  exact (extend_trip_views Sample.env [Sample.goa; Sample.pune] (Some "t1") Sample.goa
           19783 19787 Sample.world H1 H2 H3 H4 H5 H6 H7).
Defined.

End Extended_day_list.

(* ================================================================== *)
(** * What a removal leaves alone                                       *)
(* ================================================================== *)

Section Other_trips.
Import ES JS Calendar DateUtils Store App.

Local Open Scope string_scope.
Local Open Scope Z_scope.

(** The rows of every trip but [id] are in [db'] what they are in [db]. *)
Local Abbreviation others_kept id db db' :=
  (forall o : string, o <> id ->
     filter (fun a => String.eqb (Activity.tripId a) o) (Store.activities db') =
     filter (fun a => String.eqb (Activity.tripId a) o) (Store.activities db) /\
     filter (fun x => String.eqb (Trip.id x) o) (Store.trips db') =
     filter (fun x => String.eqb (Trip.id x) o) (Store.trips db)).

Lemma kept_delete (id d : string) (db : Store.t) :
  others_kept id db (Store.apply (DeleteActivitiesOn id d) db).
Proof.
  intros o No. cbn [Store.apply Store.activities Store.trips]. split; [ | reflexivity].
  rewrite filter_twice. apply filter_ext. intros a. unfold on_date.
  destruct (String.eqb_spec (Activity.tripId a) o) as [-> | ]; [ | apply andb_false_r].
  destruct (String.eqb_spec o id); [contradiction | reflexivity].
Qed.

Lemma kept_update (id s e : string) (db : Store.t) :
  others_kept id db (Store.apply (UpdateTripDates id s e) db).
Proof.
  intros o No. cbn [Store.apply Store.activities Store.trips]. split; [reflexivity | ].
  rewrite filter_map_swap.
  rewrite (filter_ext (fun a => String.eqb (Trip.id (set_trip_dates id s e a)) o)
                      (fun a => String.eqb (Trip.id a) o))
    by (intros a; now rewrite set_trip_dates_id).
  rewrite <- (map_id (filter _ (Store.trips db))) at 2. apply map_ext_in.
  intros x Hx. apply filter_In in Hx as [_ Hx]. apply String.eqb_eq in Hx.
  unfold set_trip_dates. destruct (String.eqb_spec (Trip.id x) id); [congruence | reflexivity].
Qed.

Lemma kept_shift (id : string) (p : Activity.t -> bool) (f : Activity.t -> string)
    (trips : list Trip.t) (acts : list Activity.t) :
  (forall a, p a = true -> Activity.tripId a = id) ->
  others_kept id (Store.mk trips acts)
    (Store.mk trips (map (fun a => if p a then Activity.with_date a (f a) else a) acts)).
Proof.
  intros Hp o No. cbn [Store.activities Store.trips]. split; [ | reflexivity].
  rewrite filter_map_swap.
  rewrite (filter_ext
             (fun a => String.eqb
                         (Activity.tripId (if p a then Activity.with_date a (f a) else a)) o)
             (fun a => String.eqb (Activity.tripId a) o))
    by (intros a; now destruct (p a)).
  rewrite <- (map_id (filter _ acts)) at 2. apply map_ext_in.
  intros a Ha. apply filter_In in Ha as [_ Ha]. apply String.eqb_eq in Ha.
  destruct (p a) eqn:Pa; [ | reflexivity]. apply Hp in Pa. congruence.
Qed.

Lemma try_catch_bind_done {A B} (c : M A) (k : A -> M B) (h : error -> M B)
    (w w1 : World) (a : A) :
  c w = (Done a, w1) -> try_catch (bind c k) h w = try_catch (k a) h w1.
Proof. intros E. unfold try_catch, bind. now rewrite E. Qed.

Lemma try_catch_bind_raised {A B} (c : M A) (k : A -> M B) (h : error -> M B)
    (w w1 : World) (e : error) :
  c w = (Raised e, w1) -> try_catch (bind c k) h w = h e w1.
Proof. intros E. unfold try_catch, bind. now rewrite E. Qed.

Lemma fetchData_db (env : Env) (w : World) :
  fst (fetchData env w) = Done tt /\ db (snd (fetchData env w)) = db w.
Proof.
  rewrite fetchData_run. cbn [fst snd]. split; [reflexivity | ].
  destruct (user w); [ | reflexivity].
  destruct (rejects env SelectTrips); [reflexivity | ].
  destruct (rejects env SelectExpenses); [reflexivity | ].
  now destruct (rejects env SelectActivities).
Qed.

(** The end of every branch that reaches it: the update of the trip and
    the refresh. *)
Lemma update_and_refresh (env : Env) (ts : list Trip.t) (id s e : string)
    (h : error -> M unit) (w : World) :
  let r := try_catch (bind (handleUpdateTripDates env ts id s e) (fun _ => fetchData env))
                     h w in
  fst r = Done tt /\
  (db (snd r) = db w \/ db (snd r) = Store.apply (UpdateTripDates id s e) (db w)).
Proof.
  cbv zeta.
  rewrite (try_catch_bind_done _ _ _ w _ tt (handleUpdateTripDates_run env ts id s e w)).
  unfold try_catch.
  match goal with
  | |- context [fetchData env ?W] =>
      destruct (fetchData_db env W) as [F D];
      destruct (fetchData env W) as [[[] | er] w2]; [ | discriminate]
  end.
  cbn [fst snd] in *. split; [reflexivity | ]. rewrite D.
  destruct (rejects env (UpdateTripDates id s e)); [now left | now right].
Qed.

Lemma try_catch_bind_bind_done {A B C} (c : M A) (k : A -> M B) (k' : B -> M C)
    (h : error -> M C) (w w1 : World) (a : A) :
  c w = (Done a, w1) ->
  try_catch (bind (bind c k) k') h w = try_catch (bind (k a) k') h w1.
Proof. intros E. unfold try_catch, bind. now rewrite E. Qed.

Lemma try_catch_bind_bind_raised {A B C} (c : M A) (k : A -> M B) (k' : B -> M C)
    (h : error -> M C) (w w1 : World) (e : error) :
  c w = (Raised e, w1) -> try_catch (bind (bind c k) k') h w = h e w1.
Proof. intros E. unfold try_catch, bind. now rewrite E. Qed.

(** The end of the three branches: the new date, the update of the trip
    and the refresh. *)
Lemma shift_tail (env : Env) (ts : list Trip.t) (id : string) (f1 f2 : string -> string)
    (r : result string) (h : error -> M unit) (w : World) :
  (forall e w', fst (h e w') = Done tt /\ db (snd (h e w')) = db w') ->
  let run := try_catch
               (bind (bind (lift r)
                           (fun x => handleUpdateTripDates env ts id (f1 x) (f2 x)))
                     (fun _ => fetchData env))
               h w in
  fst run = Done tt /\
  (db (snd run) = db w \/
   exists s e, db (snd run) = Store.apply (UpdateTripDates id s e) (db w)).
Proof.
  intros Hh. cbv zeta. destruct r as [x | e].
  - rewrite (try_catch_bind_bind_done (lift (Ok x)) _ _ _ w w x eq_refl).
    destruct (update_and_refresh env ts id (f1 x) (f2 x) h w) as [F [D | D]];
      (split; [exact F | ]); [now left | right; eauto].
  - rewrite (try_catch_bind_bind_raised (lift (Throw e)) _ _ _ w w (JsError e) eq_refl).
    destruct (Hh (JsError e) w) as [H1 H2]. split; [exact H1 | now left].
Qed.

Lemma alert_db (msg : string) (w : World) :
  fst (alert msg w) = Done tt /\ db (snd (alert msg w)) = db w.
Proof. split; reflexivity. Qed.

Lemma others_kept_trans (id : string) (db1 db2 db3 : Store.t) :
  others_kept id db1 db2 -> others_kept id db2 db3 -> others_kept id db1 db3.
Proof.
  intros H1 H2 o No. destruct (H1 o No) as [A1 T1]. destruct (H2 o No) as [A2 T2].
  split; congruence.
Qed.

Lemma others_kept_tail (id : string) (db1 db2 db3 : Store.t) :
  others_kept id db1 db2 ->
  (db3 = db2 \/ exists s e, db3 = Store.apply (UpdateTripDates id s e) db2) ->
  others_kept id db1 db3.
Proof.
  intros H [-> | (s & e & ->)]; [exact H | ].
  apply (others_kept_trans id db1 db2); [exact H | apply kept_update].
Qed.

(** X25.  A removal touches one trip.  Whatever the store rejects,
    whatever string is given as the day and whatever the dates of the
    trip are, as long as no two activities have one [id] and every
    request sent is answered once: [handleRemoveDay] returns normally;
    with no trip selected it does nothing; and the row of every other
    trip and the rows of the activities of every other trip are in the
    store afterwards exactly what they were, in the same order. *)
Theorem remove_day_frame (env : Env) (ts : list Trip.t) (sel : option string)
    (d : string) (w : World) :
  fair env ->
  NoDup (map Activity.id (Store.activities (db w))) ->
  fst (handleRemoveDay env ts sel d w) = Done tt /\
  (activeTrip ts sel = None -> snd (handleRemoveDay env ts sel d w) = w) /\
  (forall t o, activeTrip ts sel = Some t -> o <> Trip.id t ->
     filter (fun a => String.eqb (Activity.tripId a) o)
            (Store.activities (db (snd (handleRemoveDay env ts sel d w)))) =
     filter (fun a => String.eqb (Activity.tripId a) o) (Store.activities (db w)) /\
     filter (fun x => String.eqb (Trip.id x) o)
            (Store.trips (db (snd (handleRemoveDay env ts sel d w)))) =
     filter (fun x => String.eqb (Trip.id x) o) (Store.trips (db w))).
Proof.
  intros F N. unfold handleRemoveDay.
  destruct (activeTrip ts sel) as [t | ] eqn:At;
    [ | split; [reflexivity | split; [reflexivity | discriminate]]].
  assert (G : fst (handleRemoveDay env ts sel d w) = Done tt /\
              others_kept (Trip.id t) (db w) (db (snd (handleRemoveDay env ts sel d w)))).
  2:{ unfold handleRemoveDay in G. rewrite At in G. destruct G as [G1 G2].
      split; [exact G1 | ]. split; [discriminate | ].
      intros t0 o E No. injection E as <-. now apply G2. }
  unfold handleRemoveDay. rewrite At.
  rewrite (try_catch_bind_done _ _ _ w _ _ (request_run env _ w)).
  destruct (rejects env (DeleteActivitiesOn (Trip.id t) d)) eqn:Rd.
  { rewrite (try_catch_bind_raised (throw _) _ _ _ _ _ eq_refl).
    split; [reflexivity | ]. intros o No. now split. }
  rewrite (try_catch_bind_done (ret tt) _ _ _ _ tt eq_refl).
  cbn [negb].
  set (W1 := mkWorld _ _ _ _ _ _ _).
  assert (K1 : others_kept (Trip.id t) (db w) (db W1)) by apply kept_delete.
  destruct (String.eqb d (Trip.startDate t)).
  { destruct (shift_tail env ts (Trip.id t) (fun x => x) (fun _ => Trip.endDate t)
                (addDays (Trip.startDate t) 1)
                (fun error => alert ("Failed to remove day: " ++ message env error)%string)
                W1 (fun e w' => alert_db _ w'))
      as [R1 R2].
    split; [exact R1 | ]. exact (others_kept_tail _ _ _ _ K1 R2). }
  destruct (String.eqb d (Trip.endDate t)).
  { destruct (shift_tail env ts (Trip.id t) (fun _ => Trip.startDate t) (fun x => x)
                (addDays (Trip.endDate t) (-1))
                (fun error => alert ("Failed to remove day: " ++ message env error)%string)
                W1 (fun e w' => alert_db _ w'))
      as [R1 R2].
    split; [exact R1 | ]. exact (others_kept_tail _ _ _ _ K1 R2). }
  rewrite (try_catch_bind_bind_done _ _ _ _ W1 _ _ (select_run env _ _ W1)).
  destruct (rejects env (SelectActivitiesAfter (Trip.id t) d)) eqn:Rs.
  { rewrite (try_catch_bind_raised (throw _) _ _ _ _ _ eq_refl).
    split; [reflexivity | exact K1]. }
  cbn [negb db W1].
  change (Store.apply (SelectActivitiesAfter (Trip.id t) d)
            (Store.apply (DeleteActivitiesOn (Trip.id t) d) (db w)))
    with (after_delete t d w).
  change (Store.apply (DeleteActivitiesOn (Trip.id t) d) (db w))
    with (after_delete t d w).
  set (shifted := activity_rows env
                    (filter (after_date (Trip.id t) d)
                            (Store.activities (after_delete t d w)))).
  set (requests :=
         map (fun a => UpdateActivityDate (Activity.id a) (day_before (Activity.date a)))
             shifted).
  set (W2 := mkWorld _ _ _ _ _ _ _).
  assert (K3 : forall W3, db W3 =
                 fold_left (fun s r => Store.apply r s)
                           (filter (fun r => negb (rejects env r)) (sched env requests))
                           (after_delete t d w) ->
               others_kept (Trip.id t) (db w) (db W3)).
  { intros W3 E3. rewrite E3. unfold requests, shifted.
    rewrite (interior_store env t d w F N).
    apply (others_kept_trans _ _ (after_delete t d w)); [apply kept_delete | ].
    unfold after_delete. cbn [Store.apply].
    apply (kept_shift (Trip.id t)
             (fun a => after_date (Trip.id t) d a &&
                       negb (rejects env (UpdateActivityDate (Activity.id a)
                                            (day_before (Activity.date a)))))
             (fun a => day_before (Activity.date a))).
    intros a Pa. apply andb_true_iff in Pa as [Pa _].
    now apply after_date_day in Pa as [Ta _]. }
  destruct (0 <? List.length shifted)%nat eqn:L.
  - assert (X : bind (mapM shift_request shifted) (fun requests => Promise_all env requests) W2
                = Promise_all env requests W2).
    { unfold bind at 1. rewrite mapM_shift_request; [reflexivity | ].
      intros a Ha. apply (Permutation_in _ (activity_rows_all env _)) in Ha.
      apply filter_In in Ha as [_ Pa]. exact (after_date_addDays _ _ _ Pa). }
    rewrite Promise_all_run in X.
    rewrite (try_catch_bind_bind_done _ _ _ _ W2 _ tt X).
    match goal with
    | |- context [try_catch _ _ ?W] =>
        destruct (shift_tail env ts (Trip.id t) (fun _ => Trip.startDate t) (fun x => x)
                    (addDays (Trip.endDate t) (-1))
                (fun error => alert ("Failed to remove day: " ++ message env error)%string)
                W (fun e w' => alert_db _ w'))
          as [R1 R2];
        split; [exact R1 | ];
        exact (others_kept_tail _ _ _ _ (K3 W eq_refl) R2)
    end.
  - rewrite (try_catch_bind_bind_done (ret tt) _ _ _ W2 W2 tt eq_refl).
    destruct (shift_tail env ts (Trip.id t) (fun _ => Trip.startDate t) (fun x => x)
                (addDays (Trip.endDate t) (-1))
                (fun error => alert ("Failed to remove day: " ++ message env error)%string)
                W2 (fun e w' => alert_db _ w'))
      as [R1 R2].
    split; [exact R1 | ]. exact (others_kept_tail _ _ _ _ K1 R2).
Qed.

Lemma remove_day_frame_witness :
  fst (handleRemoveDay Faults.no_shift_a4 [Sample.goa; Sample.pune] (Some "t1")
         "2024-03-03" Sample.world) = Done tt /\
  (activeTrip [Sample.goa; Sample.pune] (Some "t1") = None ->
   snd (handleRemoveDay Faults.no_shift_a4 [Sample.goa; Sample.pune] (Some "t1")
          "2024-03-03" Sample.world) = Sample.world) /\
  (forall t o, activeTrip [Sample.goa; Sample.pune] (Some "t1") = Some t ->
     o <> Trip.id t ->
     filter (fun a => String.eqb (Activity.tripId a) o)
            (Store.activities
               (db (snd (handleRemoveDay Faults.no_shift_a4 [Sample.goa; Sample.pune]
                           (Some "t1") "2024-03-03" Sample.world)))) =
     filter (fun a => String.eqb (Activity.tripId a) o)
            (Store.activities (db Sample.world)) /\
     filter (fun x => String.eqb (Trip.id x) o)
            (Store.trips
               (db (snd (handleRemoveDay Faults.no_shift_a4 [Sample.goa; Sample.pune]
                           (Some "t1") "2024-03-03" Sample.world)))) =
     filter (fun x => String.eqb (Trip.id x) o) (Store.trips (db Sample.world))).
Proof.
  exact (remove_day_frame Faults.no_shift_a4 [Sample.goa; Sample.pune] (Some "t1")
           "2024-03-03" Sample.world (fair_rev Faults.no_shift_a4 eq_refl) NoDup_sample).
Defined.

End Other_trips.

(* ================================================================== *)
(** * What a removal and an extension write                             *)
(* ================================================================== *)

Section Rows_written.
Import ES JS Calendar DateUtils Store App Rows.

Local Open Scope string_scope.
Local Open Scope Z_scope.

Lemma updated_map {A} (R : A -> A -> Prop) (f : A -> A) (l : list A) :
  (forall x, In x l -> R x (f x)) -> updated R l (map f l).
Proof.
  intros H. split.
  - intros x Hx. exists (f x). split; [now apply in_map | now apply H].
  - intros x' Hx'. apply in_map_iff in Hx' as (x & <- & Hx). exists x. auto.
Qed.

Lemma updated_perm {A} (R : A -> A -> Prop) (l l' l'' : list A) :
  updated R l l' -> Permutation l' l'' -> updated R l l''.
Proof.
  intros [H1 H2] P. split.
  - intros x Hx. destruct (H1 x Hx) as (x' & Hx' & Rx). exists x'.
    split; [now apply (Permutation_in _ P) | exact Rx].
  - intros x' Hx'. apply H2. now apply (Permutation_in _ (Permutation_sym P)).
Qed.

(** The trip table after the dates of the rows of [id] are set. *)
Lemma trips_set (id s e : string) (R : Trip.t -> Trip.t -> Prop) (l : list Trip.t) :
  (forall x, In x l -> Trip.id x = id -> R x (Trip.with_dates x s e)) ->
  (forall x, In x l -> Trip.id x <> id -> R x x) ->
  updated R l (map (set_trip_dates id s e) l).
Proof.
  intros H1 H2. apply updated_map. intros x Hx. unfold set_trip_dates.
  destruct (String.eqb_spec (Trip.id x) id); auto.
Qed.

(** The day after and the day before a date string, as day numbers. *)
Lemma addDays_day (s : string) (k n : Z) :
  day_of_str s = Some k -> day_0100 <= k ->
  DayFromYear 0 <= k + n < DayFromYear 10000 ->
  addDays s n = Ok (iso_of_day (k + n)) /\ day_of_str (iso_of_day (k + n)) = Some (k + n).
Proof.
  intros H H100 B. destruct (day_of_str_read s k H H100) as (_ & _ & _ & Hadd).
  rewrite DayFromYear_10000 in B. change (DayFromYear 0) with (-719528) in B.
  split.
  - apply Hadd. unfold maxDay. lia.
  - apply day_of_iso_of_day. rewrite DayFromYear_10000.
    change (DayFromYear 0) with (-719528). lia.
Qed.

(** The store a removal of the first day ends with. *)
Lemma first_day_store (env : Env) (ts : list Trip.t) (sel : option string) (t : Trip.t)
    (ns : string) (w : World) :
  (forall r, rejects env r = false) ->
  activeTrip ts sel = Some t ->
  addDays (Trip.startDate t) 1 = Ok ns ->
  exists l,
    fst (handleRemoveDay env ts sel (Trip.startDate t) w) = Done tt /\
    db (snd (handleRemoveDay env ts sel (Trip.startDate t) w)) =
      Store.mk (map (set_trip_dates (Trip.id t) ns (Trip.endDate t)) (Store.trips (db w)))
               (filter (fun a => negb (on_date (Trip.id t) (Trip.startDate t) a))
                       (Store.activities (db w))) /\
    log (snd (handleRemoveDay env ts sel (Trip.startDate t) w)) = (log w ++ l)%list /\
    silent l.
Proof.
  intros A At E. rewrite (handleRemoveDay_first env A ts sel t _ w At E).
  match goal with |- context [fetchData env ?W] =>
    destruct (fetchData_accepted_run env W A) as (st & l & -> & Sl) end.
  cbn [fst snd db log Store.trips Store.activities Store.apply after_delete].
  eexists. split; [reflexivity | ]. split; [reflexivity | ].
  split; [rewrite <- List.app_assoc; reflexivity | ].
  apply Forall_app. split; [repeat constructor | exact Sl].
Qed.

Lemma last_day_store (env : Env) (ts : list Trip.t) (sel : option string) (t : Trip.t)
    (ne : string) (w : World) :
  (forall r, rejects env r = false) ->
  activeTrip ts sel = Some t ->
  Trip.startDate t <> Trip.endDate t ->
  addDays (Trip.endDate t) (-1) = Ok ne ->
  exists l,
    fst (handleRemoveDay env ts sel (Trip.endDate t) w) = Done tt /\
    db (snd (handleRemoveDay env ts sel (Trip.endDate t) w)) =
      Store.mk (map (set_trip_dates (Trip.id t) (Trip.startDate t) ne) (Store.trips (db w)))
               (filter (fun a => negb (on_date (Trip.id t) (Trip.endDate t) a))
                       (Store.activities (db w))) /\
    log (snd (handleRemoveDay env ts sel (Trip.endDate t) w)) = (log w ++ l)%list /\
    silent l.
Proof.
  intros A At Hne E. rewrite (handleRemoveDay_last env A ts sel t _ w At Hne E).
  match goal with |- context [fetchData env ?W] =>
    destruct (fetchData_accepted_run env W A) as (st & l & -> & Sl) end.
  cbn [fst snd db log Store.trips Store.activities Store.apply after_delete].
  eexists. split; [reflexivity | ]. split; [reflexivity | ].
  split; [rewrite <- List.app_assoc; reflexivity | ].
  apply Forall_app. split; [repeat constructor | exact Sl].
Qed.

Lemma interior_day_store (env : Env) (ts : list Trip.t) (sel : option string) (t : Trip.t)
    (d ne : string) (w : World) :
  (forall r, rejects env r = false) ->
  fair env ->
  activeTrip ts sel = Some t ->
  NoDup (map Activity.id (Store.activities (db w))) ->
  d <> Trip.startDate t -> d <> Trip.endDate t ->
  addDays (Trip.endDate t) (-1) = Ok ne ->
  exists l,
    fst (handleRemoveDay env ts sel d w) = Done tt /\
    db (snd (handleRemoveDay env ts sel d w)) =
      Store.mk (map (set_trip_dates (Trip.id t) (Trip.startDate t) ne) (Store.trips (db w)))
               (map (fun a => if after_date (Trip.id t) d a
                              then Activity.with_date a (day_before (Activity.date a))
                              else a)
                    (filter (fun a => negb (on_date (Trip.id t) d a))
                            (Store.activities (db w)))) /\
    log (snd (handleRemoveDay env ts sel d w)) = (log w ++ l)%list /\
    silent l.
Proof.
  intros A F At N Ds De E.
  destruct (handleRemoveDay_interior env A F ts sel t d ne w At Ds De)
    as (l & -> & Sl); [intros a _; apply after_date_addDays | exact E | ].
  match goal with |- context [fetchData env ?W] =>
    destruct (fetchData_accepted_run env W A) as (st & l' & -> & Sl') end.
  cbn [fst snd db log]. rewrite (interior_activities env t d w F N).
  cbn [Store.apply Store.trips Store.activities].
  eexists. split; [reflexivity | ]. split; [reflexivity | ].
  split; [rewrite <- List.app_assoc; reflexivity | ].
  apply Forall_app. split; [exact Sl | exact Sl'].
Qed.

(** C3.  Removing the first day deletes the activities of that day and
    no other row, and the row of the trip gets the start date
    [addDays startDate 1], the day after, its end date and every other
    column staying; removing the last day of a trip of several days
    deletes the activities of that day and no other row, and the row of
    the trip gets the end date [addDays endDate (-1)], the day before, its
    start date and every other column staying.  No activity that stays is
    changed, and no other trip is. *)
Theorem remove_boundary_day (env : Env) (ts : list Trip.t) (sel : option string)
    (t : Trip.t) (w : World) :
  (forall r, rejects env r = false) ->
  activeTrip ts sel = Some t ->
  stored t (Store.trips (db w)) ->
  (forall k, day_of_str (Trip.startDate t) = Some k ->
     exists ns,
       addDays (Trip.startDate t) 1 = Ok ns /\
       (day_0100 <= k -> k < civil_day 9999 12 31 -> day_of_str ns = Some (k + 1)) /\
       fst (handleRemoveDay env ts sel (Trip.startDate t) w) = Done tt /\
       Store.activities (db (snd (handleRemoveDay env ts sel (Trip.startDate t) w))) =
         filter (fun a => negb (on_date (Trip.id t) (Trip.startDate t) a))
                (Store.activities (db w)) /\
       updated (fun x x' => if String.eqb (Trip.id x) (Trip.id t)
                            then trip_redated x x' ns (Trip.endDate x) else x' = x)
               (Store.trips (db w))
               (Store.trips (db (snd (handleRemoveDay env ts sel (Trip.startDate t) w))))) /\
  (forall k, Trip.startDate t <> Trip.endDate t ->
     day_of_str (Trip.endDate t) = Some k ->
     exists ne,
       addDays (Trip.endDate t) (-1) = Ok ne /\
       (day_0100 <= k -> day_of_str ne = Some (k - 1)) /\
       fst (handleRemoveDay env ts sel (Trip.endDate t) w) = Done tt /\
       Store.activities (db (snd (handleRemoveDay env ts sel (Trip.endDate t) w))) =
         filter (fun a => negb (on_date (Trip.id t) (Trip.endDate t) a))
                (Store.activities (db w)) /\
       updated (fun x x' => if String.eqb (Trip.id x) (Trip.id t)
                            then trip_redated x x' (Trip.startDate x) ne else x' = x)
               (Store.trips (db w))
               (Store.trips (db (snd (handleRemoveDay env ts sel (Trip.endDate t) w))))).
Proof.
  intros A At St. assert (M : maxDay = 100000000) by reflexivity. split.
  - intros k Hd. destruct (day_of_str_read_any _ k Hd) as (j & Hj & _ & Hadd).
    rewrite DayFromYear_100, DayFromYear_10000 in Hj.
    assert (E : addDays (Trip.startDate t) 1 = Ok (iso_of_day (j + 1)))
      by (apply Hadd; lia).
    exists (iso_of_day (j + 1)).
    destruct (first_day_store env ts sel t _ w A At E) as (l & -> & -> & _).
    cbn [Store.trips Store.activities].
    split; [exact E | ]. split; [ | split; [reflexivity | split; [reflexivity | ]]].
    + intros H100 H9999. change (civil_day 9999 12 31) with 2932896 in H9999.
      destruct (addDays_day _ k 1 Hd H100) as [E' D'].
      { rewrite DayFromYear_10000. change (DayFromYear 0) with (-719528).
        rewrite day_0100_eq, DayFromYear_100 in H100. lia. }
      rewrite E' in E. injection E as <-. exact D'.
    + apply trips_set;
        [intros x Hx Ex; rewrite Ex, String.eqb_refl, (St x Hx Ex); repeat split
        | intros x Hx Ex; apply String.eqb_neq in Ex; now rewrite Ex].
  - intros k Hne Hd. destruct (day_of_str_read_any _ k Hd) as (j & Hj & _ & Hadd).
    rewrite DayFromYear_100, DayFromYear_10000 in Hj.
    assert (E : addDays (Trip.endDate t) (-1) = Ok (iso_of_day (j + -1)))
      by (apply Hadd; lia).
    exists (iso_of_day (j + -1)).
    destruct (last_day_store env ts sel t _ w A At Hne E) as (l & -> & -> & _).
    cbn [Store.trips Store.activities].
    split; [exact E | ]. split; [ | split; [reflexivity | split; [reflexivity | ]]].
    + intros H100.
      pose proof (day_of_str_iso _ k Hd) as [_ B]. rewrite DayFromYear_10000 in B.
      destruct (addDays_day _ k (-1) Hd H100) as [E' D'].
      { rewrite DayFromYear_10000. change (DayFromYear 0) with (-719528).
        rewrite day_0100_eq, DayFromYear_100 in H100. lia. }
      rewrite E' in E. injection E as <-. replace (k - 1) with (k + -1) by lia. exact D'.
    + apply trips_set;
        [intros x Hx Ex; rewrite Ex, String.eqb_refl, (St x Hx Ex); repeat split
        | intros x Hx Ex; apply String.eqb_neq in Ex; now rewrite Ex].
Qed.

Lemma remove_boundary_day_witness :
  (addDays "2024-03-01" 1 = Ok "2024-03-02" /\
   (day_0100 <= 19783 -> 19783 < civil_day 9999 12 31 ->
    day_of_str "2024-03-02" = Some (19783 + 1)) /\
   fst (handleRemoveDay Sample.env [Sample.goa; Sample.pune] (Some "t1") "2024-03-01"
          Sample.world) = Done tt /\
   Store.activities (db (snd (handleRemoveDay Sample.env [Sample.goa; Sample.pune]
                                (Some "t1") "2024-03-01" Sample.world))) =
     filter (fun a => negb (on_date "t1" "2024-03-01" a))
            (Store.activities (db Sample.world)) /\
   updated (fun x x' => if String.eqb (Trip.id x) "t1"
                        then trip_redated x x' "2024-03-02" (Trip.endDate x) else x' = x)
           (Store.trips (db Sample.world))
           (Store.trips (db (snd (handleRemoveDay Sample.env [Sample.goa; Sample.pune]
                                    (Some "t1") "2024-03-01" Sample.world))))) /\
  (addDays "2024-03-05" (-1) = Ok "2024-03-04" /\
   (day_0100 <= 19787 -> day_of_str "2024-03-04" = Some (19787 - 1)) /\
   fst (handleRemoveDay Sample.env [Sample.goa; Sample.pune] (Some "t1") "2024-03-05"
          Sample.world) = Done tt /\
   Store.activities (db (snd (handleRemoveDay Sample.env [Sample.goa; Sample.pune]
                                (Some "t1") "2024-03-05" Sample.world))) =
     filter (fun a => negb (on_date "t1" "2024-03-05" a))
            (Store.activities (db Sample.world)) /\
   updated (fun x x' => if String.eqb (Trip.id x) "t1"
                        then trip_redated x x' (Trip.startDate x) "2024-03-04" else x' = x)
           (Store.trips (db Sample.world))
           (Store.trips (db (snd (handleRemoveDay Sample.env [Sample.goa; Sample.pune]
                                    (Some "t1") "2024-03-05" Sample.world))))).
Proof.
  destruct (remove_boundary_day Sample.env [Sample.goa; Sample.pune] (Some "t1")
              Sample.goa Sample.world (fun _ => eq_refl) eq_refl stored_sample)
    as [First Last].
  destruct (First 19783 eq_refl) as (ns & Ens & Rf).
  destruct (Last 19787 ltac:(discriminate) eq_refl) as (ne & Ene & Rl).
  assert (Hs : ns = "2024-03-02") by (vm_compute in Ens; now injection Ens).
  assert (He : ne = "2024-03-04") by (vm_compute in Ene; now injection Ene).
  subst ns ne. split; (split; [reflexivity | assumption]).
Defined.

(** C4.  [handleExtendTrip] on a trip shown as stored, with [N >= 1] days:
    the row of the trip gets the end date [addDays endDate 1], its start
    date and every other column staying, and the rows of the other trips
    stay; no activity row is created, deleted or changed, in the store or
    in the state; and the row of the trip now has [N + 1] days. *)
Theorem extend_trip (env : Env) (ts : list Trip.t) (t : Trip.t) (a b : Z) (w : World) :
  (forall r, rejects env r = false) ->
  stored t (Store.trips (db w)) ->
  day_of_str (Trip.startDate t) = Some a ->
  day_of_str (Trip.endDate t) = Some b ->
  (1 <= List.length (getDaysArray (Trip.startDate t) (Trip.endDate t)))%nat ->
  let w' := snd (handleExtendTrip t false (handleUpdateTripDates env ts) w) in
  exists ne,
    addDays (Trip.endDate t) 1 = Ok ne /\
    fst (handleExtendTrip t false (handleUpdateTripDates env ts) w) = Done tt /\
    updated (fun x x' => if String.eqb (Trip.id x) (Trip.id t)
                         then trip_redated x x' (Trip.startDate x) ne else x' = x)
            (Store.trips (db w)) (Store.trips (db w')) /\
    Store.activities (db w') = Store.activities (db w) /\
    activities w' = activities w /\
    (forall x', In x' (Store.trips (db w')) -> Trip.id x' = Trip.id t ->
       List.length (getDaysArray (Trip.startDate x') (Trip.endDate x')) =
       S (List.length (getDaysArray (Trip.startDate t) (Trip.endDate t)))).
Proof.
  intros A St Hs He HN w'. assert (M : maxDay = 100000000) by reflexivity.
  destruct (day_of_str_read_any _ a Hs) as (js & Hjs & Us & _).
  destruct (day_of_str_read_any _ b He) as (je & Hje & Ue & Hadd).
  rewrite DayFromYear_100, DayFromYear_10000 in *.
  assert (E : addDays (Trip.endDate t) 1 = Ok (iso_of_day (je + 1)))
    by (apply Hadd; lia).
  rewrite (getDaysArray_midnights _ _ js je Us Ue) in * by lia.
  rewrite length_map, zseq_length in *.
  exists (iso_of_day (je + 1)). subst w'.
  unfold handleExtendTrip, bind, try_finally, setIsUpdating.
  rewrite E. unfold lift, ret. rewrite (handleUpdateTripDates_accepted env A).
  cbn [fst snd db log Store.trips Store.activities Store.apply activities].
  split; [reflexivity | ]. split; [reflexivity | ].
  split.
  { apply trips_set;
      [intros x Hx Ex; rewrite Ex, String.eqb_refl, (St x Hx Ex); repeat split
      | intros x Hx Ex; apply String.eqb_neq in Ex; now rewrite Ex]. }
  split; [reflexivity | ]. split; [reflexivity | ].
  intros x' Hx' Ex'. apply in_map_iff in Hx' as (x & <- & Hx).
  rewrite set_trip_dates_id in Ex'. unfold set_trip_dates.
  rewrite Ex', String.eqb_refl. cbn [Trip.startDate Trip.endDate Trip.with_dates].
  rewrite (getDaysArray_midnights _ _ js (je + 1) Us) by
    (lia || (apply utc_of_day; rewrite DayFromYear_100; lia)).
  rewrite length_map, zseq_length. lia.
Qed.

Lemma extend_trip_witness :
  addDays "2024-03-05" 1 = Ok "2024-03-06" /\
  fst (handleExtendTrip Sample.goa false
         (handleUpdateTripDates Sample.env [Sample.goa; Sample.pune]) Sample.world)
    = Done tt /\
  updated (fun x x' => if String.eqb (Trip.id x) "t1"
                       then trip_redated x x' (Trip.startDate x) "2024-03-06" else x' = x)
          (Store.trips (db Sample.world))
          (Store.trips (db (snd (handleExtendTrip Sample.goa false
             (handleUpdateTripDates Sample.env [Sample.goa; Sample.pune]) Sample.world)))) /\
  Store.activities (db (snd (handleExtendTrip Sample.goa false
         (handleUpdateTripDates Sample.env [Sample.goa; Sample.pune]) Sample.world))) =
    Store.activities (db Sample.world) /\
  activities (snd (handleExtendTrip Sample.goa false
         (handleUpdateTripDates Sample.env [Sample.goa; Sample.pune]) Sample.world)) =
    activities Sample.world /\
  (forall x',
     In x' (Store.trips (db (snd (handleExtendTrip Sample.goa false
              (handleUpdateTripDates Sample.env [Sample.goa; Sample.pune])
              Sample.world)))) ->
     Trip.id x' = "t1" ->
     List.length (getDaysArray (Trip.startDate x') (Trip.endDate x')) =
     S (List.length (getDaysArray "2024-03-01" "2024-03-05"))).
Proof.
  assert (L : (1 <= List.length (getDaysArray (Trip.startDate Sample.goa)
                                              (Trip.endDate Sample.goa)))%nat)
    by (apply Nat.leb_le; vm_compute; reflexivity).
  destruct (extend_trip Sample.env [Sample.goa; Sample.pune] Sample.goa 19783 19787
              Sample.world (fun _ => eq_refl) stored_sample eq_refl eq_refl L)
    as (ne & Ene & R).
  assert (He : ne = "2024-03-06") by (vm_compute in Ene; now injection Ene).
  subst ne. split; [reflexivity | exact R].
Defined.

(** C10.  [handleRemoveDay] has no check of the number of days and shows
    no alert of its own: called with the date of a one-day trip it takes
    the first-day branch, deletes the activities of that day and writes
    [addDays d 1] as the start date of the row of the trip, beside the end
    date [d]; the row then has its start read as later than its end (the
    day after it, for a date from 0100-01-01 on), and [getDaysArray] of
    the dates of the row is empty. *)
Theorem remove_day_unguarded (env : Env) (ts : list Trip.t) (sel : option string)
    (t : Trip.t) (d : string) (k : Z) (w : World) :
  (forall r, rejects env r = false) ->
  activeTrip ts sel = Some t ->
  Trip.startDate t = d -> Trip.endDate t = d ->
  day_of_str d = Some k ->
  let w' := snd (handleRemoveDay env ts sel d w) in
  exists ns l,
    addDays d 1 = Ok ns /\
    fst (handleRemoveDay env ts sel d w) = Done tt /\
    Store.activities (db w') =
      filter (fun a => negb (on_date (Trip.id t) d a)) (Store.activities (db w)) /\
    updated (fun x x' => if String.eqb (Trip.id x) (Trip.id t)
                         then trip_redated x x' ns d else x' = x)
            (Store.trips (db w)) (Store.trips (db w')) /\
    (forall x', In x' (Store.trips (db w')) -> Trip.id x' = Trip.id t ->
       (exists s e, utc_of_str (Trip.startDate x') = Some s /\
                    utc_of_str (Trip.endDate x') = Some e /\ e < s) /\
       getDaysArray (Trip.startDate x') (Trip.endDate x') = [] /\
       (day_0100 <= k -> k < civil_day 9999 12 31 ->
        day_of_str (Trip.startDate x') = Some (k + 1) /\
        day_of_str (Trip.endDate x') = Some k)) /\
    log w' = (log w ++ l)%list /\ silent l.
Proof.
  intros A At Hs He Hd w'. subst d.
  destruct (day_of_str_read_any _ k Hd) as (j & Hj & Uj & Hadd).
  rewrite DayFromYear_100, DayFromYear_10000 in Hj.
  assert (M : maxDay = 100000000) by reflexivity.
  assert (E : addDays (Trip.startDate t) 1 = Ok (iso_of_day (j + 1)))
    by (apply Hadd; lia).
  assert (Un : utc_of_str (iso_of_day (j + 1)) = midnight (j + 1))
    by (apply utc_of_day; rewrite DayFromYear_100; lia).
  subst w'. destruct (first_day_store env ts sel t _ w A At E) as (l & -> & -> & -> & Sl).
  cbn [Store.trips Store.activities].
  exists (iso_of_day (j + 1)), l.
  split; [exact E | ]. split; [reflexivity | ]. split; [reflexivity | ].
  split.
  { rewrite He. apply trips_set;
      [intros x Hx Ex; rewrite Ex, String.eqb_refl; repeat split
      | intros x Hx Ex; apply String.eqb_neq in Ex; now rewrite Ex]. }
  split; [ | now split].
  intros x' Hx' Ex'. apply in_map_iff in Hx' as (x & <- & Hx).
  rewrite set_trip_dates_id in Ex'. unfold set_trip_dates.
  rewrite Ex', String.eqb_refl. cbn [Trip.startDate Trip.endDate Trip.with_dates].
  rewrite He. split; [ | split].
  - exists ((j + 1) * msPerDay), (j * msPerDay).
    split; [exact Un | ]. split; [exact Uj | unfold msPerDay; lia].
  - rewrite (getDaysArray_midnights _ _ (j + 1) j Un Uj) by lia.
    replace (j - (j + 1) + 1) with 0 by lia. reflexivity.
  - intros H100 H9999. change (civil_day 9999 12 31) with 2932896 in H9999.
    destruct (addDays_day _ k 1 Hd H100) as [E' D'].
    { rewrite DayFromYear_10000. change (DayFromYear 0) with (-719528).
      rewrite day_0100_eq, DayFromYear_100 in H100. lia. }
    rewrite E' in E. injection E as E. rewrite <- E. split; [exact D' | exact Hd].
Qed.

Lemma remove_day_unguarded_witness :
  exists l,
    addDays "2024-03-01" 1 = Ok "2024-03-02" /\
    fst (handleRemoveDay Sample.env [Sample.goa; Sample.pune] (Some "t2")
           "2024-03-01" Sample.world) = Done tt /\
    Store.activities (db (snd (handleRemoveDay Sample.env [Sample.goa; Sample.pune]
                                 (Some "t2") "2024-03-01" Sample.world))) =
      filter (fun a => negb (on_date "t2" "2024-03-01" a))
             (Store.activities (db Sample.world)) /\
    updated (fun x x' => if String.eqb (Trip.id x) "t2"
                         then trip_redated x x' "2024-03-02" "2024-03-01" else x' = x)
            (Store.trips (db Sample.world))
            (Store.trips (db (snd (handleRemoveDay Sample.env [Sample.goa; Sample.pune]
                                     (Some "t2") "2024-03-01" Sample.world)))) /\
    (forall x',
       In x' (Store.trips (db (snd (handleRemoveDay Sample.env [Sample.goa; Sample.pune]
                                      (Some "t2") "2024-03-01" Sample.world)))) ->
       Trip.id x' = "t2" ->
       (exists s e, utc_of_str (Trip.startDate x') = Some s /\
                    utc_of_str (Trip.endDate x') = Some e /\ e < s) /\
       getDaysArray (Trip.startDate x') (Trip.endDate x') = [] /\
       (day_0100 <= 19783 -> 19783 < civil_day 9999 12 31 ->
        day_of_str (Trip.startDate x') = Some (19783 + 1) /\
        day_of_str (Trip.endDate x') = Some 19783)) /\
    log (snd (handleRemoveDay Sample.env [Sample.goa; Sample.pune] (Some "t2")
                "2024-03-01" Sample.world)) = (log Sample.world ++ l)%list /\
    silent l.
Proof.
  destruct (remove_day_unguarded Sample.env [Sample.goa; Sample.pune] (Some "t2")
              Sample.pune "2024-03-01" 19783 Sample.world
              (fun _ => eq_refl) eq_refl eq_refl eq_refl eq_refl)
    as (ns & l & Ens & R).
  assert (Hs : ns = "2024-03-02") by (vm_compute in Ens; now injection Ens).
  subst ns. exists l. split; [reflexivity | exact R].
Defined.


Lemma shifted_ids (p : Activity.t -> bool) (f : Activity.t -> string)
    (l : list Activity.t) :
  map Activity.id (map (fun a => if p a then Activity.with_date a (f a) else a) l) =
  map Activity.id l.
Proof. rewrite map_map. apply map_ext. intros a. now destruct (p a). Qed.

(** C1.  Removing a day [d] strictly between the start and the end of a
    trip shown as stored.  The rows of the trip dated [d] are deleted.
    The store then holds, for each row that was not dated [d], one row:
    for a row of the trip dated after [d], the row with the date
    [addDays date (-1)] and every other column unchanged (for a trip on
    or after 0100-01-01 its date is the day before); for any other row
    (dated before [d], or of another trip), the row itself.  The row of
    the trip gets the end date [addDays endDate (-1)], the day before, its
    start date and every other column staying, and the rows of the other
    trips stay. *)
Theorem remove_interior_day (env : Env) (ts : list Trip.t) (sel : option string)
    (t : Trip.t) (d : string) (ks kd ke : Z) (w : World) :
  (forall r, rejects env r = false) ->
  fair env ->
  activeTrip ts sel = Some t ->
  stored t (Store.trips (db w)) ->
  NoDup (map Activity.id (Store.activities (db w))) ->
  day_of_str (Trip.startDate t) = Some ks ->
  day_of_str d = Some kd ->
  day_of_str (Trip.endDate t) = Some ke ->
  ks < kd < ke ->
  let w' := snd (handleRemoveDay env ts sel d w) in
  exists ne,
    addDays (Trip.endDate t) (-1) = Ok ne /\
    (day_0100 <= ks -> day_of_str ne = Some (ke - 1)) /\
    fst (handleRemoveDay env ts sel d w) = Done tt /\
    updated (fun x x' => if String.eqb (Trip.id x) (Trip.id t)
                         then trip_redated x x' (Trip.startDate x) ne else x' = x)
            (Store.trips (db w)) (Store.trips (db w')) /\
    updated
      (fun a a' =>
         if after_date (Trip.id t) d a
         then exists nd, addDays (Activity.date a) (-1) = Ok nd /\
                         redated a a' nd /\
                         (day_0100 <= ks ->
                          exists k, day_of_str (Activity.date a) = Some k /\
                                    day_of_str (Activity.date a') = Some (k - 1))
         else a' = a)
      (filter (fun a => negb (on_date (Trip.id t) d a)) (Store.activities (db w)))
      (Store.activities (db w')) /\
    NoDup (map Activity.id (Store.activities (db w'))).
Proof.
  intros A F At St N Hs Hd He Hk w'. assert (M : maxDay = 100000000) by reflexivity.
  destruct (day_of_str_read_any _ ke He) as (j & Hj & _ & Hadd).
  rewrite DayFromYear_100, DayFromYear_10000 in Hj.
  assert (E : addDays (Trip.endDate t) (-1) = Ok (iso_of_day (j + -1)))
    by (apply Hadd; lia).
  assert (Ds : d <> Trip.startDate t) by (intros ->; rewrite Hs in Hd; injection Hd; lia).
  assert (De : d <> Trip.endDate t) by (intros ->; rewrite He in Hd; injection Hd; lia).
  subst w'.
  destruct (interior_day_store env ts sel t d _ w A F At N Ds De E) as (l & -> & -> & _).
  cbn [Store.trips Store.activities].
  exists (iso_of_day (j + -1)). split; [exact E | ].
  split; [ | split; [reflexivity | split; [ | split]]].
  - intros H100. destruct (addDays_day _ ke (-1) He ltac:(lia)) as [E' D'].
    { pose proof (day_of_str_iso _ ke He) as [_ B].
      rewrite DayFromYear_10000 in *. change (DayFromYear 0) with (-719528) in *.
      rewrite day_0100_eq, DayFromYear_100 in H100. lia. }
    rewrite E' in E. injection E as <-. replace (ke - 1) with (ke + -1) by lia. exact D'.
  - apply trips_set;
        [intros x Hx Ex; rewrite Ex, String.eqb_refl, (St x Hx Ex); repeat split
        | intros x Hx Ex; apply String.eqb_neq in Ex; now rewrite Ex].
  - apply updated_map. intros a _.
    destruct (after_date (Trip.id t) d a) eqn:P; [ | reflexivity].
    destruct (after_date_addDays _ _ _ P) as [nd End].
    exists nd. split; [exact End | ]. unfold day_before. rewrite End.
    split; [repeat split | ]. intros H100.
    apply after_date_day in P as (_ & k & kd' & Hka & Hkd & Hgt).
    rewrite Hd in Hkd. injection Hkd as <-. exists k. split; [exact Hka | ].
    pose proof (day_before_day _ k Hka ltac:(lia)) as B.
    unfold day_before in B. rewrite End in B. exact B.
  - rewrite shifted_ids. now apply NoDup_filter_ids.
Qed.

Lemma remove_interior_day_witness :
  addDays "2024-03-05" (-1) = Ok "2024-03-04" /\
  (day_0100 <= 19783 -> day_of_str "2024-03-04" = Some (19787 - 1)) /\
  fst (handleRemoveDay Sample.env_rev [Sample.goa; Sample.pune] (Some "t1") "2024-03-03"
         Sample.world) = Done tt /\
  updated (fun x x' => if String.eqb (Trip.id x) "t1"
                       then trip_redated x x' (Trip.startDate x) "2024-03-04" else x' = x)
          (Store.trips (db Sample.world))
          (Store.trips (db (snd (handleRemoveDay Sample.env_rev [Sample.goa; Sample.pune]
                                   (Some "t1") "2024-03-03" Sample.world)))) /\
  updated
    (fun a a' =>
       if after_date "t1" "2024-03-03" a
       then exists nd, addDays (Activity.date a) (-1) = Ok nd /\
                       redated a a' nd /\
                       (day_0100 <= 19783 ->
                        exists k, day_of_str (Activity.date a) = Some k /\
                                  day_of_str (Activity.date a') = Some (k - 1))
       else a' = a)
    (filter (fun a => negb (on_date "t1" "2024-03-03" a))
            (Store.activities (db Sample.world)))
    (Store.activities
       (db (snd (handleRemoveDay Sample.env_rev [Sample.goa; Sample.pune] (Some "t1")
                   "2024-03-03" Sample.world)))) /\
  NoDup (map Activity.id
           (Store.activities
              (db (snd (handleRemoveDay Sample.env_rev [Sample.goa; Sample.pune]
                          (Some "t1") "2024-03-03" Sample.world))))).
Proof.
  destruct (remove_interior_day Sample.env_rev [Sample.goa; Sample.pune] (Some "t1")
              Sample.goa "2024-03-03" 19783 19785 19787 Sample.world
              (fun _ => eq_refl) (fair_rev Sample.env_rev eq_refl) eq_refl stored_sample
              NoDup_sample eq_refl eq_refl eq_refl)
    as (ne & Ene & R).
  - split; apply Z.ltb_lt; reflexivity.
  - assert (He : ne = "2024-03-04") by (vm_compute in Ene; now injection Ene).
    subst ne. split; [reflexivity | exact R].
Defined.

(** The rows of the sample trip after that removal: the activity of the
    4th is dated the 3rd and that of the 5th the 4th. *)
Example sample_interior_rows :
  db (snd (handleRemoveDay Sample.env_rev [Sample.goa; Sample.pune] (Some "t1")
             "2024-03-03" Sample.world)) =
  Store.mk [Trip.mk "t1" "u1" "Goa" "2024-03-01" "2024-03-04" 20000 None None; Sample.pune]
           [Sample.act "a1" "t1" "2024-03-01"; Sample.act "a3" "t1" "2024-03-03";
            Sample.act "a4" "t1" "2024-03-04"; Sample.act "b1" "t2" "2024-03-01"].
Proof. vm_compute. reflexivity. Qed.





End Rows_written.

(* ================================================================== *)
(** * Date strings that are no dates                                    *)
(* ================================================================== *)

Section Lenient.
Import ES JS Calendar DateUtils Reading.

Local Open Scope string_scope.
Local Open Scope Z_scope.

Lemma Date_UTC_NaN (y m d : num) :
  y = None \/ m = None \/ d = None -> Date_new (Date_UTC y m d) = None.
Proof.
  intros H. unfold Date_new, Date_UTC.
  assert (E : MakeDay (MakeFullYear y) m d = None).
  { destruct H as [-> | [-> | ->]].
    - reflexivity.
    - unfold MakeDay. now destruct (MakeFullYear y).
    - unfold MakeDay. destruct (MakeFullYear y); [ | reflexivity]. now destruct m. }
  now rewrite E.
Qed.

Lemma integral_finite (x : double) : finite x = false -> integral x = None.
Proof. now destruct x. Qed.

Lemma month_finite (x : double) :
  finite x = false -> integral (fsub x (of_Z 1)) = None.
Proof. now destruct x. Qed.

(** A string with a field that is no finite number is read as the
    invalid Date. *)
Lemma utc_unreadable (s : string) : numeric_fields s = false -> utc_of_str s = None.
Proof.
  unfold numeric_fields, utc_of_str. cbv zeta. intros H.
  apply Date_UTC_NaN. apply andb_false_iff in H as [H | H];
    [apply andb_false_iff in H as [H | H] | ].
  - left. now apply integral_finite.
  - right. left. now apply month_finite.
  - right. right. now apply integral_finite.
Qed.

Lemma addDays_unreadable (s : string) (n : Z) :
  integer_fields s = false -> addDays s n = Throw RangeError.
Proof.
  unfold integer_fields. cbv zeta. intros H. rewrite addDays_unfold. cbv zeta.
  assert (E : forall x : num, negb (isNaN x) = false -> x = None)
    by (intros [v | ]; [discriminate | reflexivity]).
  rewrite Date_UTC_NaN; [reflexivity | ].
  apply andb_false_iff in H as [H | H];
    [apply andb_false_iff in H as [H | H] | ].
  - left. now apply E.
  - right. left. apply E in H. now rewrite H.
  - right. right. now apply E.
Qed.

(** A field that starts with a character no numeral starts with is NaN,
    for [Number] and for [parseInt]. *)
Lemma Number_no_numeral (c : ascii) (r : string) :
  starts_numeral c = false -> Number (String c r) = NaN.
Proof.
  unfold starts_numeral. intros H.
  do 5 (apply orb_false_iff in H; destruct H as [H ?]).
  rename H into Hs.
  unfold Number. cbn [trim_start]. rewrite Hs. cbn [trim_end all_space]. rewrite Hs.
  cbn [andb].
  assert (Ez : Ascii.eqb c "0" = false).
  { destruct (Ascii.eqb_spec c "0") as [-> | ]; [discriminate | reflexivity]. }
  assert (Er : radix_literal (String c (trim_end r)) = None).
  { unfold radix_literal. destruct (trim_end r) as [ | c1 [ | c2 r2]]; try reflexivity.
    now rewrite Ez. }
  rewrite Er.
  assert (Es : strip_sign (String c (trim_end r)) = (1, String c (trim_end r))).
  { unfold strip_sign.
    destruct (Ascii.eqb_spec c "-") as [-> | N1]; [discriminate | ].
    destruct (Ascii.eqb_spec c "+") as [-> | N2]; [discriminate | ].
    destruct c as [[] [] [] [] [] [] [] []]; try reflexivity; congruence. }
  rewrite Es.
  assert (Ei : String.eqb (String c (trim_end r)) "Infinity" = false).
  { cbn [String.eqb]. now match goal with H : Ascii.eqb c "I" = false |- _ => rewrite H end. }
  rewrite Ei. unfold decimal. cbn [take_digits skip_digits].
  match goal with H : is_digit c = false |- _ => rewrite H end.
  match goal with H : Ascii.eqb c "." = false |- _ => rewrite H end.
  reflexivity.
Qed.

Lemma no_numeral_NaN (f : list string) (i : nat) :
  no_numeral (index f i) = true -> finite (ToNumber (index (map Number f) i)) = false.
Proof.
  unfold index. rewrite nth_error_map. destruct (nth_error f i) as [[ | c r] | ];
    cbn [no_numeral option_map ToNumber]; [discriminate | | reflexivity].
  intros H. apply negb_true_iff in H. now rewrite Number_no_numeral.
Qed.

Lemma malformed_unreadable (s : string) : malformed s = true -> numeric_fields s = false.
Proof.
  unfold malformed, numeric_fields. cbv zeta. intros H.
  apply orb_true_iff in H as [H | H]; [apply orb_true_iff in H as [H | H] | ];
    apply no_numeral_NaN in H; rewrite H; cbn [andb]; rewrite ?andb_false_r; reflexivity.
Qed.

Lemma parseInt_no_numeral (c : ascii) (r : string) :
  starts_numeral c = false -> parseInt (String c r) = None.
Proof.
  unfold starts_numeral. intros H.
  do 5 (apply orb_false_iff in H; destruct H as [H ?]).
  unfold parseInt. cbn [trim_start]. rewrite H.
  assert (Es : strip_sign (String c r) = (1, String c r)).
  { unfold strip_sign.
    destruct (Ascii.eqb_spec c "-") as [-> | N1]; [discriminate | ].
    destruct (Ascii.eqb_spec c "+") as [-> | N2]; [discriminate | ].
    destruct c as [[] [] [] [] [] [] [] []]; try reflexivity; congruence. }
  rewrite Es. cbn [take_digits].
  match goal with H : is_digit c = false |- _ => rewrite H end. reflexivity.
Qed.

Lemma malformed_no_integer (s : string) : malformed s = true -> integer_fields s = false.
Proof.
  unfold malformed, integer_fields. cbv zeta.
  assert (E : forall o, no_numeral o = true -> negb (isNaN (parseInt (ToString o))) = false).
  { intros [[ | c r] | ]; cbn [no_numeral ToString]; [discriminate | | reflexivity].
    intros H. apply negb_true_iff in H. now rewrite parseInt_no_numeral. }
  intros H.
  apply orb_true_iff in H as [H | H]; [apply orb_true_iff in H as [H | H] | ];
    apply E in H; rewrite H; cbn [andb]; rewrite ?andb_false_r; reflexivity.
Qed.

(** The day a date string with a day field from 0 to 99 is read as: so
    many days from the first of the month. *)
Lemma utc_carried (y m d : Z) :
  100 <= y <= 9999 -> 1 <= m <= 12 -> 0 <= d <= 99 ->
  utc_of_str (iso_date y m d) = midnight (civil_day y m 1 + (d - 1)).
Proof.
  intros Hy Hm Hd. rewrite utc_of_fields by lia. rewrite full_year_ge_100 by lia.
  replace (civil_day y m d) with (civil_day y m 1 + (d - 1)) by (unfold civil_day; lia).
  pose proof (civil_day_in_year y m 1 Hm ltac:(lia)) as B.
  pose proof (DayFromYear_le 100 y ltac:(lia)) as B1.
  pose proof (DayFromYear_le (y + 1) 10000 ltac:(lia)) as B2.
  rewrite DayFromYear_100 in B1. rewrite DayFromYear_10000 in B2.
  apply TimeClip_day. unfold maxDay. lia.
Qed.

(** C8, amended.  [getDaysArray] has no statement that throws.  It
    returns the empty array when the start or the end is malformed: one
    of its first three fields between hyphens is missing or starts with a
    character no numeral starts with; more generally, when one of these
    fields is not read by [Number] as a finite number; and, for two dates
    written [YYYY-MM-DD] with the end on or after 0100-01-01, when the
    start is later than the end.  A day field is not checked against the
    month: a start with a month from 1 to 12 and a day field from 1 to 99
    is read as the day so many days from the first of the month, and the
    array runs from that day to the end.  [addDays] is not lenient: it
    throws a RangeError on a malformed string, and on every string with a
    field among the first three that does not start with a whole
    number. *)
Theorem getDaysArray_lenient :
  (forall start end_,
     malformed start = true \/ malformed end_ = true ->
     getDaysArray start end_ = []) /\
  (forall start end_,
     numeric_fields start = false \/ numeric_fields end_ = false ->
     getDaysArray start end_ = []) /\
  (forall start end_ a b,
     day_of_str start = Some a -> day_of_str end_ = Some b ->
     day_0100 <= b -> b < a ->
     getDaysArray start end_ = []) /\
  (forall y m d end_ b,
     100 <= y <= 9999 -> 1 <= m <= 12 -> 1 <= d <= 99 ->
     day_of_str end_ = Some b -> day_0100 <= b ->
     getDaysArray (iso_date y m d) end_ =
     map midnight (zseq (civil_day y m 1 + (d - 1))
                        (Z.to_nat (b - (civil_day y m 1 + (d - 1)) + 1)))) /\
  (forall s n, malformed s = true -> addDays s n = Throw RangeError) /\
  (forall s n, integer_fields s = false -> addDays s n = Throw RangeError).
Proof.
  split; [ | split; [ | split; [ | split; [ | split]]]].
  - intros start end_ [H | H]; apply getDaysArray_NaN;
      [left | right]; now apply utc_unreadable, malformed_unreadable.
  - intros start end_ [H | H]; apply getDaysArray_NaN;
      [left | right]; now apply utc_unreadable.
  - intros start end_ a b Ha Hb H100 Hlt.
    destruct (day_of_str_read start a Ha ltac:(lia)) as (_ & Hmax & Us & _).
    destruct (day_of_str_read end_ b Hb H100) as (_ & _ & Ue & _).
    rewrite day_0100_eq, DayFromYear_100 in H100. rewrite DayFromYear_10000 in Hmax.
    rewrite (getDaysArray_midnights _ _ a b Us Ue) by (unfold maxDay; lia).
    replace (Z.to_nat (b - a + 1)) with O by lia. reflexivity.
  - intros y m d end_ b Hy Hm Hd Hb H100.
    destruct (day_of_str_read end_ b Hb H100) as (_ & Hmax & Ue & _).
    rewrite DayFromYear_10000 in Hmax.
    pose proof (civil_day_in_year y m 1 Hm ltac:(lia)) as B.
    pose proof (DayFromYear_le 100 y ltac:(lia)) as B1. rewrite DayFromYear_100 in B1.
    apply getDaysArray_midnights; [apply utc_carried; lia | exact Ue | | ];
      unfold maxDay; lia.
  - intros s n H. now apply addDays_unreadable, malformed_no_integer.
  - intros s n. apply addDays_unreadable.
Qed.

Lemma getDaysArray_lenient_witness :
  getDaysArray "2024-03-xx" "2024-03-05" = [] /\
  getDaysArray "2024-03-01" "2024-03" = [] /\
  getDaysArray "2024-03-1e999" "2024-03-05" = [] /\
  getDaysArray "2024-03-05" "2024-03-01" = [] /\
  getDaysArray "2024-02-30" "2024-03-02" = [midnight 19783; midnight 19784] /\
  addDays "2024-03" 1 = Throw RangeError /\
  addDays "2024-03-.5" 1 = Throw RangeError.
Proof.
  destruct getDaysArray_lenient as (H1 & H2 & H3 & H4 & H5 & H6).
  split; [apply H1; left; reflexivity | ].
  split; [apply H1; right; reflexivity | ].
  split; [apply H2; left; vm_compute; reflexivity | ].
  split; [apply (H3 _ _ 19787 19783); try reflexivity; apply Z.leb_le; reflexivity | ].
  split; [ | split; [apply H5; reflexivity | apply H6; reflexivity]].
  apply (H4 2024 2 30 "2024-03-02" 19784); try reflexivity;
    try split; apply Z.leb_le; reflexivity.
Defined.

(** C8 as stated fails.  2024-02-30 is no calendar date, yet it is read
    as 2024-03-01 and the array is not empty.  1999-12-31 is later than
    0099-12-31, yet the year 0099 is read as 1999 and the array has one
    day.  And [addDays] throws on a string it cannot read. *)
Lemma getDaysArray_lenient_counterexample :
  (civil_of_str "2024-02-30" = None /\
   getDaysArray "2024-02-30" "2024-03-02" = [midnight 19783; midnight 19784]) /\
  (day_of_str "1999-12-31" = Some 10956 /\ day_of_str "0099-12-31" = Some (-683004) /\
   getDaysArray "1999-12-31" "0099-12-31" = [midnight 10956]) /\
  addDays "not-a-date" 1 = Throw RangeError.
Proof.
  split; [split; vm_compute; reflexivity | ].
  split; [ | vm_compute; reflexivity].
  split; [vm_compute; reflexivity | ]. split; vm_compute; reflexivity.
Qed.

End Lenient.

(* ================================================================== *)
(** * Outcomes of the requests                                          *)
(* ================================================================== *)

Section Outcomes.
Import ES JS Calendar DateUtils Store App Rows.

Local Open Scope string_scope.
Local Open Scope Z_scope.

Lemma insert_by_start_perm (x : Trip.t) (l : list Trip.t) :
  Permutation (insert_by_start x l) (x :: l).
Proof.
  induction l as [ | y l IH]; cbn [insert_by_start]; [reflexivity | ].
  destruct (start_leb x y); [reflexivity | ].
  etransitivity; [apply perm_skip, IH | apply perm_swap].
Qed.

Lemma order_by_start_perm (l : list Trip.t) : Permutation (order_by_start l) l.
Proof.
  unfold order_by_start. induction l as [ | x l IH]; cbn [fold_right]; [reflexivity | ].
  etransitivity; [apply insert_by_start_perm | now apply perm_skip].
Qed.

(** X11.  [handleUpdateTripDates] never raises.  When the store rejects
    the update, the store and the state are left as they were and the
    alert "Failed to update dates: " with the message of the error is
    shown.  When the store takes it, the rows of the trip get the two
    dates, in the store and, row by row, in the state, every other column
    and every other row staying; no activity is touched and nothing is
    shown. *)
Theorem handleUpdateTripDates_outcome (env : Env) (ts : list Trip.t)
    (id s e : string) (w : World) :
  let w' := snd (handleUpdateTripDates env ts id s e w) in
  fst (handleUpdateTripDates env ts id s e w) = Done tt /\
  (rejects env (UpdateTripDates id s e) = true ->
   w' =
   mkWorld (db w) (user w) (trips w) (activities w) (isUpdating w) (deletingDate w)
           (log w ++ [Issued (UpdateTripDates id s e);
                      Settled (UpdateTripDates id s e) false;
                      Alert ("Failed to update dates: " ++
                             message env (StoreError (UpdateTripDates id s e)))])) /\
  (rejects env (UpdateTripDates id s e) = false ->
   updated (fun x x' => if String.eqb (Trip.id x) id
                        then trip_redated x x' s e else x' = x)
           (Store.trips (db w)) (Store.trips (db w')) /\
   Forall2 (fun x x' => if String.eqb (Trip.id x) id
                        then trip_redated x x' s e else x' = x)
           ts (trips w') /\
   Store.activities (db w') = Store.activities (db w) /\
   activities w' = activities w /\
   user w' = user w /\ isUpdating w' = isUpdating w /\
   deletingDate w' = deletingDate w /\
   log w' = (log w ++ [Issued (UpdateTripDates id s e);
                       Settled (UpdateTripDates id s e) true])%list).
Proof.
  cbv zeta. rewrite handleUpdateTripDates_run. cbn [fst snd].
  split; [reflexivity | ]. split; intros ->; [reflexivity | ].
  cbn [db trips activities user isUpdating deletingDate log Store.apply
       Store.trips Store.activities].
  split.
  { apply trips_set;
      [intros x Hx Ex; rewrite Ex, String.eqb_refl; repeat split
      | intros x Hx Ex; apply String.eqb_neq in Ex; now rewrite Ex]. }
  split; [ | repeat split].
  apply Forall2_map_right. intros x _. unfold set_trip_dates.
  destruct (String.eqb (Trip.id x) id); [repeat split | reflexivity].
Qed.

Lemma handleUpdateTripDates_outcome_witness :
  let w' := snd (handleUpdateTripDates Sample.env [Sample.goa; Sample.pune] "t1"
                   "2024-03-02" "2024-03-05" Sample.world) in
  updated (fun x x' => if String.eqb (Trip.id x) "t1"
                       then trip_redated x x' "2024-03-02" "2024-03-05" else x' = x)
          (Store.trips (db Sample.world)) (Store.trips (db w')) /\
  Forall2 (fun x x' => if String.eqb (Trip.id x) "t1"
                       then trip_redated x x' "2024-03-02" "2024-03-05" else x' = x)
          [Sample.goa; Sample.pune] (trips w') /\
  Store.activities (db w') = Store.activities (db Sample.world) /\
  activities w' = activities Sample.world /\
  user w' = user Sample.world /\ isUpdating w' = isUpdating Sample.world /\
  deletingDate w' = deletingDate Sample.world /\
  log w' = (log Sample.world ++
            [Issued (UpdateTripDates "t1" "2024-03-02" "2024-03-05");
             Settled (UpdateTripDates "t1" "2024-03-02" "2024-03-05") true])%list.
Proof.
  destruct (handleUpdateTripDates_outcome Sample.env [Sample.goa; Sample.pune] "t1"
              "2024-03-02" "2024-03-05" Sample.world) as (_ & _ & H).
  exact (H eq_refl).
Defined.



(** X13.  When the store rejects the deletion of the activities of the
    day, [handleRemoveDay] stops there: no further request is sent, the
    store and the state are left as they were, the alert "Failed to
    remove day: " with the message of the error is shown, and the handler
    returns normally. *)
Theorem remove_day_delete_rejected (env : Env) (ts : list Trip.t)
    (sel : option string) (t : Trip.t) (d : string) (w : World) :
  activeTrip ts sel = Some t ->
  rejects env (DeleteActivitiesOn (Trip.id t) d) = true ->
  handleRemoveDay env ts sel d w =
  (Done tt,
   mkWorld (db w) (user w) (trips w) (activities w) (isUpdating w) (deletingDate w)
           (log w ++ [Issued (DeleteActivitiesOn (Trip.id t) d);
                      Settled (DeleteActivitiesOn (Trip.id t) d) false;
                      Alert ("Failed to remove day: " ++
                             message env (StoreError (DeleteActivitiesOn (Trip.id t) d)))])).
Proof.
  intros At R. unfold handleRemoveDay. rewrite At.
  unfold try_catch, bind. rewrite request_run, R.
  unfold throw, alert, emit. cbn. now rewrite <- List.app_assoc.
Qed.

Lemma remove_day_delete_rejected_witness :
  handleRemoveDay Faults.no_delete [Sample.goa; Sample.pune] (Some "t1") "2024-03-03"
    Sample.world =
  (Done tt,
   mkWorld (db Sample.world) (user Sample.world) (trips Sample.world)
           (activities Sample.world) (isUpdating Sample.world)
           (deletingDate Sample.world)
           (log Sample.world ++
            [Issued (DeleteActivitiesOn "t1" "2024-03-03");
             Settled (DeleteActivitiesOn "t1" "2024-03-03") false;
             Alert "Failed to remove day: permission denied"])).
Proof.
  exact (remove_day_delete_rejected Faults.no_delete [Sample.goa; Sample.pune]
           (Some "t1") Sample.goa "2024-03-03" Sample.world eq_refl eq_refl).
Defined.

End Outcomes.

(* ================================================================== *)
(** * Removals with failed requests                                     *)
(* ================================================================== *)

Section Failed_requests.
Import ES JS Calendar DateUtils Store App Rows.

Local Open Scope string_scope.
Local Open Scope Z_scope.

(** The store after an interior removal in which only date updates of
    activities fail. *)
Lemma shift_failures_store (env : Env) (ts : list Trip.t) (sel : option string)
    (t : Trip.t) (d ne : string) (w : World) :
  (forall r, rejects env r = true -> is_date_update r = true) ->
  fair env ->
  activeTrip ts sel = Some t ->
  d <> Trip.startDate t -> d <> Trip.endDate t ->
  NoDup (map Activity.id (Store.activities (db w))) ->
  addDays (Trip.endDate t) (-1) = Ok ne ->
  fst (handleRemoveDay env ts sel d w) = Done tt /\
  db (snd (handleRemoveDay env ts sel d w)) =
    Store.mk
      (map (set_trip_dates (Trip.id t) (Trip.startDate t) ne) (Store.trips (db w)))
      (map (fun a => if after_date (Trip.id t) d a &&
                        negb (rejects env (UpdateActivityDate (Activity.id a)
                                             (day_before (Activity.date a))))
                     then Activity.with_date a (day_before (Activity.date a)) else a)
           (filter (fun a => negb (on_date (Trip.id t) d a)) (Store.activities (db w)))) /\
  exists l, log (snd (handleRemoveDay env ts sel d w)) = (log w ++ l)%list /\ silent l.
Proof.
  intros R F At Ds De N E.
  assert (Acc : forall r, is_date_update r = false -> rejects env r = false).
  { intros r Hr. destruct (rejects env r) eqn:Er; [ | reflexivity].
    apply R in Er. congruence. }
  rewrite (handleRemoveDay_interior_run env ts sel t d ne w) by (auto using Acc).
  rewrite (interior_store env t d w F N).
  rewrite handleUpdateTripDates_run, fetchData_run.
  rewrite !Acc by reflexivity.
  cbn [fst snd db user trips activities isUpdating deletingDate log Store.apply
       Store.trips Store.activities].
  destruct (user w);
    cbn [fst snd db user trips activities isUpdating deletingDate log Store.apply
         Store.trips Store.activities];
    (split; [reflexivity | ]); (split; [reflexivity | ]);
    rewrite <- !List.app_assoc; eexists; (split; [reflexivity | ]);
    repeat (apply Forall_cons; [exact I | ]);
    (apply silent_app; [apply silent_Issued | ]);
    (apply silent_app; [apply silent_Settled | ]);
    repeat (apply Forall_cons; [exact I | ]); constructor.
Qed.

(** X16.  Failures of the shift updates go unnoticed.  When a day
    strictly inside a trip (shown as stored, on or after 0100-01-01) is
    removed and the store rejects some of the updates that move the later
    activities back, and nothing else, the handler returns normally and
    shows no alert; the row of the trip gets the day before as its end
    date all the same; and of the later activities of the trip exactly
    those whose own update the store took are dated the day before, with
    every other column unchanged, while the others stay as they were. *)
Theorem shift_failures_unnoticed (env : Env) (ts : list Trip.t) (sel : option string)
    (t : Trip.t) (d : string) (ks kd ke : Z) (w : World) :
  (forall r, rejects env r = true -> is_date_update r = true) ->
  fair env ->
  activeTrip ts sel = Some t ->
  stored t (Store.trips (db w)) ->
  NoDup (map Activity.id (Store.activities (db w))) ->
  day_of_str (Trip.startDate t) = Some ks ->
  day_of_str d = Some kd ->
  day_of_str (Trip.endDate t) = Some ke ->
  day_0100 <= ks -> ks < kd < ke ->
  let w' := snd (handleRemoveDay env ts sel d w) in
  fst (handleRemoveDay env ts sel d w) = Done tt /\
  (exists ne,
     day_of_str ne = Some (ke - 1) /\
     updated (fun x x' => if String.eqb (Trip.id x) (Trip.id t)
                          then trip_redated x x' (Trip.startDate x) ne else x' = x)
             (Store.trips (db w)) (Store.trips (db w'))) /\
  updated
    (fun a a' =>
       if after_date (Trip.id t) d a
       then exists k nd,
              day_of_str (Activity.date a) = Some k /\ day_of_str nd = Some (k - 1) /\
              if rejects env (UpdateActivityDate (Activity.id a) nd)
              then a' = a else redated a a' nd
       else a' = a)
    (filter (fun a => negb (on_date (Trip.id t) d a)) (Store.activities (db w)))
    (Store.activities (db w')) /\
  NoDup (map Activity.id (Store.activities (db w'))) /\
  exists l, log w' = (log w ++ l)%list /\ silent l.
Proof.
  intros R F At St N Hs Hd He H100 Hk w'.
  destruct (addDays_day _ ke (-1) He ltac:(lia)) as [E D].
  { pose proof (day_of_str_iso _ ke He) as [_ B].
    rewrite DayFromYear_10000 in *. change (DayFromYear 0) with (-719528).
    rewrite day_0100_eq, DayFromYear_100 in H100. lia. }
  assert (Ds : d <> Trip.startDate t) by (intros ->; rewrite Hs in Hd; injection Hd; lia).
  assert (De : d <> Trip.endDate t) by (intros ->; rewrite He in Hd; injection Hd; lia).
  subst w'.
  destruct (shift_failures_store env ts sel t d _ w R F At Ds De N E) as (-> & -> & L).
  cbn [Store.trips Store.activities].
  split; [reflexivity | ]. split.
  { exists (iso_of_day (ke + -1)). split.
    - replace (ke - 1) with (ke + -1) by lia. exact D.
    - apply trips_set;
        [intros x Hx Ex; rewrite Ex, String.eqb_refl, (St x Hx Ex); repeat split
        | intros x Hx Ex; apply String.eqb_neq in Ex; now rewrite Ex]. }
  split; [ | split; [ | exact L]].
  - apply updated_map. intros a _.
    destruct (after_date (Trip.id t) d a) eqn:P; cbn [andb]; [ | reflexivity].
    apply after_date_day in P as (_ & k & kd' & Hka & Hkd & Hgt).
    rewrite Hd in Hkd. injection Hkd as <-.
    exists k, (day_before (Activity.date a)).
    split; [exact Hka | ]. split; [apply day_before_day; [exact Hka | lia] | ].
    destruct (rejects env _); cbn [negb]; [reflexivity | repeat split].
  - rewrite shifted_ids. now apply NoDup_filter_ids.
Qed.

Lemma shift_failures_unnoticed_witness :
  let w' := snd (handleRemoveDay Faults.no_shift_a4 [Sample.goa; Sample.pune] (Some "t1")
                   "2024-03-03" Sample.world) in
  fst (handleRemoveDay Faults.no_shift_a4 [Sample.goa; Sample.pune] (Some "t1")
         "2024-03-03" Sample.world) = Done tt /\
  (exists ne,
     day_of_str ne = Some (19787 - 1) /\
     updated (fun x x' => if String.eqb (Trip.id x) "t1"
                          then trip_redated x x' (Trip.startDate x) ne else x' = x)
             (Store.trips (db Sample.world)) (Store.trips (db w'))) /\
  updated
    (fun a a' =>
       if after_date "t1" "2024-03-03" a
       then exists k nd,
              day_of_str (Activity.date a) = Some k /\ day_of_str nd = Some (k - 1) /\
              if rejects Faults.no_shift_a4 (UpdateActivityDate (Activity.id a) nd)
              then a' = a else redated a a' nd
       else a' = a)
    (filter (fun a => negb (on_date "t1" "2024-03-03" a))
            (Store.activities (db Sample.world)))
    (Store.activities (db w')) /\
  NoDup (map Activity.id (Store.activities (db w'))) /\
  exists l, log w' = (log Sample.world ++ l)%list /\ silent l.
Proof.
  assert (H1 : forall r, rejects Faults.no_shift_a4 r = true -> is_date_update r = true)
    by (intros r; destruct r; cbn; intros; (reflexivity || discriminate)).
  assert (H8 : day_0100 <= 19783) by (apply Z.leb_le; reflexivity).
  assert (H9 : 19783 < 19785 < 19787) by (split; apply Z.ltb_lt; reflexivity).
  exact (shift_failures_unnoticed Faults.no_shift_a4 [Sample.goa; Sample.pune]
           (Some "t1") Sample.goa "2024-03-03" 19783 19785 19787 Sample.world
           H1 (fair_rev Faults.no_shift_a4 eq_refl) eq_refl stored_sample NoDup_sample
           eq_refl eq_refl eq_refl H8 H9).
Defined.

(** The rows of the sample trip after the removal of its third day by a
    store that rejects the update of [a4]: [a3] is moved, [a4] is not, and
    the trip ends on the 4th, before the date of [a4]. *)
Example shift_failure_rows :
  db (snd (handleRemoveDay Faults.no_shift_a4 [Sample.goa; Sample.pune] (Some "t1")
             "2024-03-03" Sample.world)) =
  Store.mk [Trip.mk "t1" "u1" "Goa" "2024-03-01" "2024-03-04" 20000 None None; Sample.pune]
           [Sample.act "a1" "t1" "2024-03-01"; Sample.act "a3" "t1" "2024-03-03";
            Sample.act "a4" "t1" "2024-03-05"; Sample.act "b1" "t2" "2024-03-01"].
Proof. vm_compute. reflexivity. Qed.

(** The store and the alerts after a removal in which only the update of
    the trip fails. *)
Lemma half_done_store (env : Env) (ts : list Trip.t) (sel : option string)
    (t : Trip.t) (d u : string) (ks kd ke : Z) (w : World) :
  (forall r, rejects env r = is_trip_update r) ->
  fair env ->
  activeTrip ts sel = Some t ->
  user w = Some u ->
  NoDup (map Activity.id (Store.activities (db w))) ->
  day_of_str (Trip.startDate t) = Some ks ->
  day_of_str d = Some kd ->
  day_of_str (Trip.endDate t) = Some ke ->
  day_0100 <= ks -> ks < ke -> ks <= kd <= ke ->
  let inside := negb (kd =? ks) && negb (kd =? ke) in
  let ks' := if kd =? ks then ks + 1 else ks in
  let ke' := if kd =? ks then ke else ke - 1 in
  let acts :=
    map (fun a => if inside && after_date (Trip.id t) d a
                  then Activity.with_date a (day_before (Activity.date a)) else a)
        (filter (fun a => negb (on_date (Trip.id t) d a)) (Store.activities (db w))) in
  fst (handleRemoveDay env ts sel d w) = Done tt /\
  db (snd (handleRemoveDay env ts sel d w)) = Store.mk (Store.trips (db w)) acts /\
  trips (snd (handleRemoveDay env ts sel d w)) =
    order_by_start (trip_rows env (Store.trips (db w))) /\
  activities (snd (handleRemoveDay env ts sel d w)) = activity_rows env acts /\
  exists l,
    log (snd (handleRemoveDay env ts sel d w)) = (log w ++ l)%list /\
    filter (fun e => match e with Alert _ => true | _ => false end) l =
      [Alert ("Failed to update dates: " ++
              message env (StoreError (UpdateTripDates (Trip.id t) (iso_of_day ks')
                                         (iso_of_day ke'))))].
Proof.
  intros R F At Hu N Hs Hd He H100 Hlt Hin inside ks' ke' acts.
  assert (M : maxDay = 100000000) by reflexivity.
  pose proof H100 as H100'. rewrite day_0100_eq, DayFromYear_100 in H100'.
  destruct (day_of_str_read _ ks Hs H100) as (Es & _ & _ & Hadds).
  destruct (day_of_str_read _ ke He ltac:(lia)) as (Ee & Hmax & _ & Hadde).
  rewrite DayFromYear_10000 in Hmax.
  subst inside ks' ke' acts.
  destruct (Z.eqb_spec kd ks) as [-> | Nks]; [ | destruct (Z.eqb_spec kd ke) as [-> | Nke]];
    cbn [negb andb].
  - (* first day *)
    pose proof (day_of_str_inj d (Trip.startDate t) ks Hd Hs) as Eq. subst d.
    assert (E : addDays (Trip.startDate t) 1 = Ok (iso_of_day (ks + 1)))
      by (apply Hadds; lia).
    rewrite (handleRemoveDay_first_run env ts sel t _ w (R _) At E).
    rewrite handleUpdateTripDates_run, fetchData_run, !R.
    cbn [is_trip_update fst snd db user trips activities isUpdating deletingDate log
         Store.apply Store.trips Store.activities after_delete].
    rewrite Hu, map_id.
    cbn [fst snd db user trips activities isUpdating deletingDate log
         Store.trips Store.activities].
    do 4 (split; [reflexivity | ]).
    rewrite <- !List.app_assoc. eexists. split; [reflexivity | ]. now rewrite <- Ee.
  - (* last day *)
    pose proof (day_of_str_inj d (Trip.endDate t) ke Hd He) as Eq. subst d.
    assert (Hne : Trip.startDate t <> Trip.endDate t)
      by (intros Eq; rewrite Eq, He in Hs; injection Hs; lia).
    assert (E : addDays (Trip.endDate t) (-1) = Ok (iso_of_day (ke + -1)))
      by (apply Hadde; lia).
    rewrite (handleRemoveDay_last_run env ts sel t _ w (R _) At Hne E).
    rewrite handleUpdateTripDates_run, fetchData_run, !R.
    cbn [is_trip_update fst snd db user trips activities isUpdating deletingDate log
         Store.apply Store.trips Store.activities after_delete].
    rewrite Hu, map_id.
    cbn [fst snd db user trips activities isUpdating deletingDate log
         Store.trips Store.activities].
    do 4 (split; [reflexivity | ]).
    rewrite <- !List.app_assoc. eexists. split; [reflexivity | ].
    rewrite <- Es. replace (ke - 1) with (ke + -1) by lia. reflexivity.
  - (* a day in between *)
    assert (E : addDays (Trip.endDate t) (-1) = Ok (iso_of_day (ke + -1)))
      by (apply Hadde; lia).
    assert (Ds : d <> Trip.startDate t) by (intros ->; rewrite Hs in Hd; injection Hd; lia).
    assert (De : d <> Trip.endDate t) by (intros ->; rewrite He in Hd; injection Hd; lia).
    rewrite (handleRemoveDay_interior_run env ts sel t d _ w (R _) (R _) F At Ds De E).
    rewrite (interior_store env t d w F N).
    rewrite handleUpdateTripDates_run, fetchData_run, !R.
    cbn [is_trip_update fst snd db user trips activities isUpdating deletingDate log
         Store.apply Store.trips Store.activities].
    rewrite Hu.
    cbn [fst snd db user trips activities isUpdating deletingDate log
         Store.trips Store.activities].
    assert (Em : forall l,
              map (fun a => if after_date (Trip.id t) d a &&
                               negb (rejects env (UpdateActivityDate (Activity.id a)
                                                    (day_before (Activity.date a))))
                            then Activity.with_date a (day_before (Activity.date a))
                            else a) l =
              map (fun a => if after_date (Trip.id t) d a
                            then Activity.with_date a (day_before (Activity.date a))
                            else a) l).
    { intros l. apply map_ext. intros a. rewrite R. cbn [is_trip_update negb].
      now rewrite andb_true_r. }
    rewrite !Em.
    do 4 (split; [reflexivity | ]).
    rewrite <- !List.app_assoc. eexists. split; [reflexivity | ].
    cbn [filter app]. rewrite !filter_app.
    assert (Z1 : forall rs, filter (fun e => match e with Alert _ => true | _ => false end)
                              (map Issued rs) = []).
    { intros rs. induction rs as [ | r rs IH]; [reflexivity | exact IH]. }
    assert (Z2 : forall f rs,
              filter (fun e => match e with Alert _ => true | _ => false end)
                     (map (fun r => Settled r (f r)) rs) = []).
    { intros f rs. induction rs as [ | r rs IH]; [reflexivity | exact IH]. }
    rewrite Z1, Z2. cbn [filter app].
    rewrite <- Es. replace (ke - 1) with (ke + -1) by lia. reflexivity.
Qed.

(** X17.  A removal left half done.  When the store takes every request
    but the update of the trip, the removal of a day of a trip of more
    than one day (dates written [YYYY-MM-DD], start on or after
    0100-01-01, a user signed in) returns normally with one alert,
    "Failed to update dates: " with the message of the error of the update
    that was to write the new dates.  The activities of the day are
    deleted, and after the removal of a day strictly inside the trip each
    later activity of the trip is dated the day before, its other columns
    unchanged; the table of the trips is as it was, so the trip keeps both
    its dates; and the state is refreshed: it holds the rows of the store,
    each once. *)
Theorem remove_day_half_done (env : Env) (ts : list Trip.t) (sel : option string)
    (t : Trip.t) (d u : string) (ks kd ke : Z) (w : World) :
  (forall r, rejects env r = is_trip_update r) ->
  fair env ->
  activeTrip ts sel = Some t ->
  user w = Some u ->
  NoDup (map Activity.id (Store.activities (db w))) ->
  day_of_str (Trip.startDate t) = Some ks ->
  day_of_str d = Some kd ->
  day_of_str (Trip.endDate t) = Some ke ->
  day_0100 <= ks -> ks < ke -> ks <= kd <= ke ->
  let inside := negb (kd =? ks) && negb (kd =? ke) in
  let w' := snd (handleRemoveDay env ts sel d w) in
  fst (handleRemoveDay env ts sel d w) = Done tt /\
  Store.trips (db w') = Store.trips (db w) /\
  updated
    (fun a a' =>
       if inside && after_date (Trip.id t) d a
       then exists k, day_of_str (Activity.date a) = Some k /\
                      redated a a' (Activity.date a') /\
                      day_of_str (Activity.date a') = Some (k - 1)
       else a' = a)
    (filter (fun a => negb (on_date (Trip.id t) d a)) (Store.activities (db w)))
    (Store.activities (db w')) /\
  NoDup (map Activity.id (Store.activities (db w'))) /\
  Permutation (trips w') (Store.trips (db w')) /\
  Permutation (activities w') (Store.activities (db w')) /\
  exists ns ne l,
    day_of_str ns = Some (if kd =? ks then ks + 1 else ks) /\
    day_of_str ne = Some (if kd =? ks then ke else ke - 1) /\
    log w' = (log w ++ l)%list /\
    filter (fun e => match e with Alert _ => true | _ => false end) l =
      [Alert ("Failed to update dates: " ++
              message env (StoreError (UpdateTripDates (Trip.id t) ns ne)))].
Proof.
  intros R F At Hu N Hs Hd He H100 Hlt Hin inside w'.
  destruct (half_done_store env ts sel t d u ks kd ke w R F At Hu N Hs Hd He H100 Hlt Hin)
    as (H1 & H2 & H3 & H4 & l & H5 & H6).
  subst w'. rewrite H2, H3, H4. cbn [Store.trips Store.activities].
  fold inside.
  pose proof H100 as H100'. rewrite day_0100_eq, DayFromYear_100 in H100'.
  pose proof (day_of_str_iso _ ke He) as [_ Bke]. rewrite DayFromYear_10000 in Bke.
  assert (D : forall k, ks <= k <= ke -> day_of_str (iso_of_day k) = Some k).
  { intros k Bk. apply day_of_iso_of_day. rewrite DayFromYear_10000.
    change (DayFromYear 0) with (-719528). lia. }
  split; [exact H1 | ]. split; [reflexivity | ]. split; [ | split; [ | split; [ | split]]].
  - apply updated_map. intros a _.
    destruct (inside && after_date (Trip.id t) d a) eqn:P; [ | reflexivity].
    apply andb_true_iff in P as [_ P].
    apply after_date_day in P as (_ & k & kd' & Hka & Hkd & Hgt).
    rewrite Hd in Hkd. injection Hkd as <-. exists k.
    split; [exact Hka | ]. split; [repeat split | ].
    cbn [Activity.date Activity.with_date]. apply day_before_day; [exact Hka | lia].
  - rewrite shifted_ids. now apply NoDup_filter_ids.
  - etransitivity; [apply order_by_start_perm | apply trip_rows_all].
  - apply activity_rows_all.
  - exists (iso_of_day (if kd =? ks then ks + 1 else ks)),
           (iso_of_day (if kd =? ks then ke else ke - 1)), l.
    split; [apply D; destruct (kd =? ks); lia | ].
    split; [apply D; destruct (kd =? ks); lia | ]. split; [exact H5 | exact H6].
Qed.

Lemma remove_day_half_done_witness :
  let w' := snd (handleRemoveDay Faults.no_trip_update [Sample.goa; Sample.pune]
                   (Some "t1") "2024-03-03" Sample.world) in
  fst (handleRemoveDay Faults.no_trip_update [Sample.goa; Sample.pune] (Some "t1")
         "2024-03-03" Sample.world) = Done tt /\
  Store.trips (db w') = Store.trips (db Sample.world) /\
  updated
    (fun a a' =>
       if negb (19785 =? 19783) && negb (19785 =? 19787) &&
          after_date "t1" "2024-03-03" a
       then exists k, day_of_str (Activity.date a) = Some k /\
                      redated a a' (Activity.date a') /\
                      day_of_str (Activity.date a') = Some (k - 1)
       else a' = a)
    (filter (fun a => negb (on_date "t1" "2024-03-03" a))
            (Store.activities (db Sample.world)))
    (Store.activities (db w')) /\
  NoDup (map Activity.id (Store.activities (db w'))) /\
  Permutation (trips w') (Store.trips (db w')) /\
  Permutation (activities w') (Store.activities (db w')) /\
  exists ns ne l,
    day_of_str ns = Some (if 19785 =? 19783 then 19783 + 1 else 19783) /\
    day_of_str ne = Some (if 19785 =? 19783 then 19787 else 19787 - 1) /\
    log w' = (log Sample.world ++ l)%list /\
    filter (fun e => match e with Alert _ => true | _ => false end) l =
      [Alert ("Failed to update dates: " ++
              message Faults.no_trip_update (StoreError (UpdateTripDates "t1" ns ne)))].
Proof.
  assert (H1 : forall r, rejects Faults.no_trip_update r = is_trip_update r)
    by reflexivity.
  assert (H8 : day_0100 <= 19783) by (apply Z.leb_le; reflexivity).
  assert (H9 : 19783 < 19787) by (apply Z.ltb_lt; reflexivity).
  assert (H10 : 19783 <= 19785 <= 19787) by (split; apply Z.leb_le; reflexivity).
  exact (remove_day_half_done Faults.no_trip_update [Sample.goa; Sample.pune]
           (Some "t1") Sample.goa "2024-03-03" "u1" 19783 19785 19787 Sample.world
           H1 (fair_rev Faults.no_trip_update eq_refl) eq_refl eq_refl NoDup_sample
           eq_refl eq_refl eq_refl H8 H9 H10).
Defined.

(** The store and the alert of that run on the sample trip. *)
Example half_done_rows :
  db (snd (handleRemoveDay Faults.no_trip_update [Sample.goa; Sample.pune] (Some "t1")
             "2024-03-03" Sample.world)) =
  Store.mk [Sample.goa; Sample.pune]
           [Sample.act "a1" "t1" "2024-03-01"; Sample.act "a3" "t1" "2024-03-03";
            Sample.act "a4" "t1" "2024-03-04"; Sample.act "b1" "t2" "2024-03-01"] /\
  filter (fun e => match e with Alert _ => true | _ => false end)
         (log (snd (handleRemoveDay Faults.no_trip_update [Sample.goa; Sample.pune]
                      (Some "t1") "2024-03-03" Sample.world))) =
  [Alert "Failed to update dates: permission denied"].
Proof. split; vm_compute; reflexivity. Qed.

End Failed_requests.

(* ================================================================== *)
(** * The itinerary after a day is removed                              *)
(* ================================================================== *)

Section Removed_day_views.
Import ES JS Calendar DateUtils Store App Itinerary Rows.

Local Open Scope string_scope.
Local Open Scope Z_scope.

(** The trip [sel] names among the rows a select lists, after the row of
    the trip got new dates. *)
Lemma activeTrip_listed (ts l l' : list Trip.t) (sel : option string) (t : Trip.t)
    (ns ne : string) :
  activeTrip ts sel = Some t ->
  In t l -> stored t l ->
  Permutation l' (map (set_trip_dates (Trip.id t) ns ne) l) ->
  activeTrip (order_by_start l') sel = Some (Trip.with_dates t ns ne).
Proof.
  intros At Hin St P. destruct (activeTrip_id ts sel t At) as [-> Tr].
  unfold activeTrip. rewrite Tr. apply find_only.
  - apply order_by_start_In. apply (Permutation_in _ (Permutation_sym P)).
    apply in_map_iff. exists t. split; [ | exact Hin].
    unfold set_trip_dates. now rewrite String.eqb_refl.
  - apply String.eqb_refl.
  - intros y Hy Py. apply (proj1 (order_by_start_In _ _)) in Hy.
    apply (Permutation_in _ P) in Hy. apply in_map_iff in Hy as (x & <- & Hx).
    unfold set_trip_dates in *.
    destruct (String.eqb_spec (Trip.id x) (Trip.id t)) as [E | N].
    + now rewrite (St x Hx E).
    + apply String.eqb_eq in Py. contradiction.
Qed.

Lemma dated_perm (k : Z) (l l' : list Activity.t) :
  Permutation l l' -> Permutation (dated k l) (dated k l').
Proof. apply Permutation_filter. Qed.

(** X10.  What the itinerary lists after a day is removed.  For a trip
    of more than one day shown as stored, written [YYYY-MM-DD] and
    starting on or after 0100-01-01, a state that holds the activities of
    the store, every activity of the trip dated inside it, a store that
    takes every request and a signed-in user: the handler returns
    normally; the selected trip is found again in the refreshed state,
    with the dates the removal gave it and its other columns unchanged;
    its day list is one day shorter; and the [j]-th day, dated [j] days
    after the new start, lists the rows the state showed before under the
    [j]-th day (days before the removed one) or under the [(j+1)]-th day
    (from the removed day on), each once, each carrying the date of the
    day it is now listed under and otherwise unchanged.  The order inside
    a day is the order the store lists the rows in. *)
Theorem remove_day_views (env : Env) (ts : list Trip.t) (sel : option string)
    (t : Trip.t) (d u : string) (ks kd ke : Z) (w : World) :
  (forall r, rejects env r = false) ->
  fair env ->
  activeTrip ts sel = Some t ->
  In t (Store.trips (db w)) ->
  stored t (Store.trips (db w)) ->
  Permutation (activities w) (Store.activities (db w)) ->
  user w = Some u ->
  NoDup (map Activity.id (Store.activities (db w))) ->
  day_of_str (Trip.startDate t) = Some ks ->
  day_of_str d = Some kd ->
  day_of_str (Trip.endDate t) = Some ke ->
  day_0100 <= ks -> ks < ke -> ks <= kd <= ke ->
  in_range (Trip.id t) ks ke (Store.activities (db w)) ->
  let ks' := if kd =? ks then ks + 1 else ks in
  let ke' := if kd =? ks then ke else ke - 1 in
  exists t' views views',
    fst (handleRemoveDay env ts sel d w) = Done tt /\
    activeTrip (trips (snd (handleRemoveDay env ts sel d w))) sel = Some t' /\
    trip_redated t t' (Trip.startDate t') (Trip.endDate t') /\
    day_of_str (Trip.startDate t') = Some ks' /\
    day_of_str (Trip.endDate t') = Some ke' /\
    render t (activeTripActivities (Some t) (activities w)) = Ok views /\
    render t' (activeTripActivities (Some t')
                 (activities (snd (handleRemoveDay env ts sel d w)))) = Ok views' /\
    S (List.length views') = List.length views /\
    forall j v', nth_error views' j = Some v' ->
      day_of_str (dateStr v') = Some (ks' + Z.of_nat j) /\
      exists v l,
        nth_error views (if Z.of_nat j <? kd - ks then j else S j) = Some v /\
        Permutation (dayActivities v') l /\
        Forall2 (fun x x' => redated x x' (dateStr v')) (dayActivities v) l.
Proof.
  intros Acc F At Hin St Pa Hu N Hs Hd He H100 Hlt Hk Hr ks' ke'.
  destruct (remove_day_state env ts sel t d u ks kd ke w Acc F At Hu N Hs Hd He H100 Hlt Hk)
    as (R1 & R2 & R3 & R4).
  fold ks' ke' in R2, R3.
  pose proof H100 as H100'. rewrite day_0100_eq, DayFromYear_100 in H100'.
  destruct (day_of_str_iso _ _ He) as [_ Hmax]. rewrite DayFromYear_10000 in Hmax.
  assert (B' : ks <= ks' /\ ks' <= ke' /\ ke' <= ke /\ ke' - ks' = ke - ks - 1)
    by (subst ks' ke'; destruct (Z.eqb_spec kd ks); lia).
  assert (D : forall k, ks <= k <= ke -> day_of_str (iso_of_day k) = Some k).
  { intros k Bk. apply day_of_iso_of_day. rewrite DayFromYear_10000.
    change (DayFromYear 0) with (-719528). lia. }
  set (t' := Trip.with_dates t (iso_of_day ks') (iso_of_day ke')).
  assert (Ds' : day_of_str (Trip.startDate t') = Some ks') by (apply D; lia).
  assert (De' : day_of_str (Trip.endDate t') = Some ke') by (apply D; lia).
  exists t'. eexists. eexists.
  split; [exact R1 | ]. split.
  { rewrite R3. apply (activeTrip_listed ts (Store.trips (db w))); try assumption.
    apply trip_rows_all. }
  split; [repeat split | ].
  split; [exact Ds' | ]. split; [exact De' | ].
  split.
  { apply (render_dates t _ ks ke Hs He H100). lia. }
  split.
  { apply (render_dates t' _ ks' ke' Ds' De'); [ | lia].
    rewrite day_0100_eq, DayFromYear_100. lia. }
  split; [rewrite !length_map, !length_seq; lia | ].
  intros j v' Hv. apply nth_error_map_seq in Hv as [Hj ->].
  cbn [dayActivities dateStr].
  split; [apply D; lia | ].
  eexists. eexists. split.
  { apply nth_error_seq_map. destruct (Z.ltb_spec (Z.of_nat j) (kd - ks)); lia. }
  cbn [dayActivities dateStr]. rewrite R4.
  unfold activeTripActivities. cbn [t' Trip.id Trip.with_dates].
  split.
  - etransitivity.
    { apply dated_perm, Permutation_filter, activity_rows_all. }
    rewrite (dated_after_removal (Trip.id t) d ks kd ke (Store.activities (db w)))
      by assumption.
    apply Permutation_map, dated_perm, Permutation_filter, Permutation_sym, Pa.
  - fold ks'. rewrite <- (map_id (dated _ (filter _ (activities w)))) at 1.
    apply Forall2_maps. intros x _. repeat split.
Qed.

Lemma remove_day_views_witness :
  exists t' views views',
    fst (handleRemoveDay Sample.env_rev [Sample.goa; Sample.pune] (Some "t1") "2024-03-03"
           Sample.world) = Done tt /\
    activeTrip (trips (snd (handleRemoveDay Sample.env_rev [Sample.goa; Sample.pune]
                              (Some "t1") "2024-03-03" Sample.world))) (Some "t1")
      = Some t' /\
    trip_redated Sample.goa t' (Trip.startDate t') (Trip.endDate t') /\
    day_of_str (Trip.startDate t') = Some (if 19785 =? 19783 then 19783 + 1 else 19783) /\
    day_of_str (Trip.endDate t') = Some (if 19785 =? 19783 then 19787 else 19787 - 1) /\
    render Sample.goa (activeTripActivities (Some Sample.goa) (activities Sample.world))
      = Ok views /\
    render t' (activeTripActivities (Some t')
                 (activities (snd (handleRemoveDay Sample.env_rev [Sample.goa; Sample.pune]
                                     (Some "t1") "2024-03-03" Sample.world))))
      = Ok views' /\
    S (List.length views') = List.length views /\
    forall j v', nth_error views' j = Some v' ->
      day_of_str (dateStr v') =
        Some ((if 19785 =? 19783 then 19783 + 1 else 19783) + Z.of_nat j) /\
      exists v l,
        nth_error views (if Z.of_nat j <? 19785 - 19783 then j else S j) = Some v /\
        Permutation (dayActivities v') l /\
        Forall2 (fun x x' => redated x x' (dateStr v')) (dayActivities v) l.
Proof.
  assert (H1 : forall r, rejects Sample.env_rev r = false) by reflexivity.
  assert (H2 : activeTrip [Sample.goa; Sample.pune] (Some "t1") = Some Sample.goa)
    by reflexivity.
  assert (H3 : In Sample.goa (Store.trips (db Sample.world))) by (left; reflexivity).
  assert (H4 : user Sample.world = Some "u1") by reflexivity.
  assert (H5 : day_of_str (Trip.startDate Sample.goa) = Some 19783) by reflexivity.
  assert (H6 : day_of_str "2024-03-03" = Some 19785) by reflexivity.
  assert (H7 : day_of_str (Trip.endDate Sample.goa) = Some 19787) by reflexivity.
  assert (H8 : day_0100 <= 19783) by (apply Z.leb_le; reflexivity).
  assert (H9 : 19783 < 19787) by (apply Z.ltb_lt; reflexivity).
  assert (H10 : 19783 <= 19785 <= 19787) by (split; apply Z.leb_le; reflexivity).
  assert (H11 : Permutation (activities Sample.world) (Store.activities (db Sample.world)))
    by apply Permutation_refl.
  exact (remove_day_views Sample.env_rev [Sample.goa; Sample.pune] (Some "t1") Sample.goa
           "2024-03-03" "u1" 19783 19785 19787 Sample.world
           H1 (fair_rev Sample.env_rev eq_refl) H2 H3 stored_sample H11 H4 NoDup_sample
           H5 H6 H7 H8 H9 H10 in_range_sample).
Defined.

End Removed_day_views.

(* ================================================================== *)
(** * Date fields that are not plain digits                             *)
(* ================================================================== *)

Section Numeric_fields.
Import ES JS Calendar DateUtils Store App Itinerary.

Local Open Scope string_scope.
Local Open Scope Z_scope.

(** [Number] reads every numeric literal of a string, not digits only: an
    exponent, a fraction, a radix prefix, [Infinity], white space around
    the literal; [parseInt] stops at the first character that is no
    digit. *)
Example Number_literals :
  Number "1e0" = of_Z 1 /\ Number "0x7E8" = of_Z 2024 /\ Number "5." = of_Z 5 /\
  Number " 12 " = of_Z 12 /\ Number "" = of_Z 0 /\
  integral (Number "1.5") = Some 1 /\ integral (Number ".5") = Some 0 /\
  integral (Number "12e-1") = Some 1 /\
  integral (fsub (Number "1.5") (of_Z 1)) = Some 0 /\
  Number "Infinity" = Infinite false /\ Number "-Infinity" = Infinite true /\
  Number "1 2" = NaN /\ Number "-0x10" = NaN /\ Number "1e" = NaN /\ Number "." = NaN /\
  parseInt "1e0" = Some 1 /\ parseInt "0x7E8" = Some 0 /\ parseInt ".5" = None.
Proof. vm_compute. repeat split. Qed.

(** A month written [1e0] or [1.5] is January, a year written [0x7E8] is
    2024, and a day written [.2e1] is the 2nd: [getDaysArray] lists the
    two days. *)
Example getDaysArray_numeric_fields :
  getDaysArray "2024-1e0-01" "2024-01-02" = [midnight 19723; midnight 19724] /\
  getDaysArray "0x7E8-01-01" "2024-1.5-.2e1" = [midnight 19723; midnight 19724] /\
  getDaysArray "2024-01-Infinity" "2024-01-02" = [].
Proof. vm_compute. repeat split. Qed.

(** The itinerary of a trip whose start is written that way lists the two
    days, and so do the pages of the PDF. *)
Example render_numeric_fields :
  render (Trip.mk "t9" "u1" "Oslo" "2024-1e0-01" "2024-01-02" 0 None None)
         [Sample.act "o1" "t9" "2024-01-02"] =
  Ok [mkDay 1 "2024-01-01" [] true;
      mkDay 2 "2024-01-02" [Sample.act "o1" "t9" "2024-01-02"] true] /\
  Pdf.itinerary_pages (Trip.mk "t9" "u1" "Oslo" "2024-1e0-01" "2024-01-02" 0 None None)
                      [Sample.act "o1" "t9" "2024-01-02"] =
  Ok (132, [Pdf.Text (Pdf.Heading "Itinerary") 14 70;
            Pdf.Text (Pdf.DayHeader 1 (midnight 19723)) 14 80;
            Pdf.Text (Pdf.Plain "- No activities planned") 20 87;
            Pdf.Text (Pdf.DayHeader 2 (midnight 19724)) 14 99;
            Pdf.Text (Pdf.Plain "[ ] sightseeing") 20 106;
            Pdf.Text (Pdf.Heading "Expenses") 14 127]).
Proof. vm_compute. split; reflexivity. Qed.

End Numeric_fields.
